(** * WarpDrive: a shallow embedding of the correction-warp core

    This development embeds the parts of the two Python sources

      - [WarpDrive/WarpDrive.py]                       (widget and logic)
      - [WarpDrive/WarpDriveLib/Helpers/LeadDBSCall.py] (subject files)

    that decide the properties stated about them, and proves or refutes
    those properties.

    Conventions of the embedding:

      - Python exceptions are values of [PyErr]; a call that may raise
        returns a [result]; code that both mutates a world (scene, file
        system) and may raise lives in the monad [M], in which the world
        reached when the exception was raised is kept.
      - A Python [float] is a binary64 number, held as the rational it
        denotes, or one of the IEEE special values (infinities,
        not-a-number).  Multiplication, division, the conversion of an
        [int] and the parsing of a decimal literal round to the nearest
        binary64 number, ties to even, and overflow to an infinity.  The
        sign of a zero is not kept; it cannot be observed through the
        operations used here.
      - Paths are POSIX paths ([os.path] is [posixpath]) and are compared
        as strings.
      - The scene is a finite map from node identifiers to nodes; the
        parameter node is a finite map from names to strings.
      - Qt widgets, the cursor, the processing of pending events and the
        refresh of the widgets from the parameter node are left out.  A
        call of an external program is recorded; what the program does to
        the files is not modelled. *)

From Stdlib Require Import ZArith QArith Qround Qabs Lia Bool List Ascii String.
From stdpp Require Import base option list gmap strings pretty fin_maps sorting.


(** ** Python results *)

Inductive PyErr : Set :=
  | AttributeError
  | IndexError
  | ValueError
  | OverflowError
  | OSError
  | FileNotFoundError
  | FileExistsError
  | JSONDecodeError
  | TypeError
  | RuntimeError
  | NotImplementedError.

Inductive result (A : Type) : Type :=
  | Ok (a : A)
  | Raise (e : PyErr).
Arguments Ok {A} a.
Arguments Raise {A} e.

Definition result_bind {A B} (r : result A) (k : A -> result B) : result B :=
  match r with
  | Ok a => k a
  | Raise e => Raise e
  end.

(** ** Python strings and [posixpath] *)

Module PyStr.

Local Open Scope string_scope.

(** [s.startswith(p)] *)
Fixpoint startswith (s p : string) : bool :=
  match p, s with
  | EmptyString, _ => true
  | String _ _, EmptyString => false
  | String a p', String b s' => if Ascii.eqb a b then startswith s' p' else false
  end.

(** [s.endswith(p)] *)
Fixpoint endswith (s p : string) : bool :=
  match s with
  | EmptyString => String.eqb p EmptyString
  | String _ s' => String.eqb s p || endswith s' p
  end.

(** [s.replace(old, new)] for a non-empty [old]: occurrences are found
    from the left and do not overlap.  [skip] counts the characters of
    a matched occurrence that are still to be dropped. *)
Fixpoint replace_from (old new : string) (skip : nat) (s : string) : string :=
  match s with
  | EmptyString => EmptyString
  | String c s' =>
      match skip with
      | S k => replace_from old new k s'
      | O =>
          if startswith s old
          then new +:+ replace_from old new (String.length old - 1) s'
          else String c (replace_from old new 0 s')
      end
  end.

Definition replace (s old new : string) : string :=
  replace_from old new 0 s.

(** [sep.join(l)] *)
Fixpoint join (sep : string) (l : list string) : string :=
  match l with
  | [] => EmptyString
  | [x] => x
  | x :: l' => x +:+ sep +:+ join sep l'
  end.

Definition sep : ascii := "/"%char.

(** One step of the loop of [posixpath.join]. *)
Definition path_join (path b : string) : string :=
  if startswith b "/" then b
  else if String.eqb path EmptyString || endswith path "/" then path +:+ b
  else path +:+ "/" +:+ b.

(** [posixpath.join(a, *p)] *)
Definition path_joins (a : string) (p : list string) : string :=
  fold_left path_join p a.

(** [p[:i], p[i:]] for [i = p.rfind('/') + 1]. *)
Fixpoint rsplit_sep (p : string) : string * string :=
  match p with
  | EmptyString => (EmptyString, EmptyString)
  | String c p' =>
      let '(h, t) := rsplit_sep p' in
      match h with
      | EmptyString =>
          if Ascii.eqb c sep then (String c EmptyString, t) else (EmptyString, String c t)
      | _ => (String c h, t)
      end
  end.

(** [s.rstrip('/')] *)
Fixpoint rstrip_sep (s : string) : string :=
  match s with
  | EmptyString => EmptyString
  | String c s' =>
      match rstrip_sep s' with
      | EmptyString => if Ascii.eqb c sep then EmptyString else String c EmptyString
      | r => String c r
      end
  end.

(** [posixpath.split(p)]: the head loses its trailing slashes unless it
    consists of slashes only. *)
Definition path_split (p : string) : string * string :=
  let '(head, tail) := rsplit_sep p in
  match rstrip_sep head with
  | EmptyString => (head, tail)
  | stripped => (stripped, tail)
  end.

Definition dirname (p : string) : string := fst (path_split p).
Definition basename (p : string) : string := snd (path_split p).

(** [fnmatch] restricted to the wildcard [*]; as in [glob], a wildcard
    does not cross a path separator. *)
Fixpoint glob_match (pat s : string) : bool :=
  match pat with
  | EmptyString => String.eqb s EmptyString
  | String "*" pat' =>
      (fix star (s : string) : bool :=
         glob_match pat' s ||
         match s with
         | EmptyString => false
         | String c s' => negb (Ascii.eqb c sep) && star s'
         end) s
  | String a pat' =>
      match s with
      | EmptyString => false
      | String b s' => Ascii.eqb a b && glob_match pat' s'
      end
  end.

End PyStr.


(** ** Python and numpy floats *)

Module PyFloat.

(** A float is a rational or an IEEE special value.  The results of
    the operations below are binary64 numbers; the sign of a zero is
    not kept. *)
Inductive float : Type :=
  | Finite (q : Q)
  | Inf (negative : bool)
  | NaN.

Definition is_zero (q : Q) : bool :=
  match Qnum q with Z0 => true | _ => false end.

Definition is_neg (q : Q) : bool :=
  match Qnum q with Zneg _ => true | _ => false end.

(** Truncation toward zero of a rational. *)
Definition Qtrunc (q : Q) : Z := Z.quot (Qnum q) (Zpos (Qden q)).

(** [round(x)] of Python and numpy on a rational: the nearest integer,
    a tie going to the even neighbour. *)
Definition Qround_half_even (q : Q) : Z :=
  let f := Qfloor q in
  let r := (q - inject_Z f)%Q in
  match (r ?= 1 # 2)%Q with
  | Lt => f
  | Gt => (f + 1)%Z
  | Eq => if Z.even f then f else (f + 1)%Z
  end.

(** *** Rounding to binary64 *)

(** [2^e] for an integer exponent. *)
Definition pow2 (e : Z) : Q :=
  match e with
  | Z0 => 1
  | Zpos p => inject_Z (2 ^ Zpos p)
  | Zneg p => 1 # (2 ^ p)
  end.

(** The exponent [k] with [2^k <= q < 2^(k+1)], for [q > 0]: it is
    the difference of the bit lengths of numerator and denominator, or
    one less. *)
Definition Qlog2 (q : Q) : Z :=
  let k := (Z.log2 (Qnum q) - Z.log2 (Zpos (Qden q)))%Z in
  if Qle_bool (pow2 k) q then k else (k - 1)%Z.

(** The binary64 number nearest to a rational, a tie going to the even
    significand (the rounding mode of Python and numpy).  The
    significand has 53 bits, the smallest exponent of its last bit is
    [-1074] (subnormal numbers), and a magnitude that rounds to [2^1024]
    or more overflows to an infinity. *)
Definition round64 (q : Q) : float :=
  let q := Qred q in
  if is_zero q then Finite 0
  else
    let a := Qabs q in
    let e := Z.max (Qlog2 a - 52) (-1074) in
    let m := Qround_half_even (a / pow2 e) in
    let r := (inject_Z m * pow2 e)%Q in
    if Qle_bool (pow2 1024) r then Inf (is_neg q)
    else Finite (Qred (if is_neg q then - r else r)).


(** [a * b] on [numpy.float64] *)
Definition fmul (a b : float) : float :=
  match a, b with
  | NaN, _ | _, NaN => NaN
  | Finite x, Finite y => round64 (x * y)
  | Finite x, Inf s | Inf s, Finite x =>
      if is_zero x then NaN else Inf (xorb s (is_neg x))
  | Inf s, Inf t => Inf (xorb s t)
  end.

(** [a / b] on [numpy.float64]: a zero divisor gives an infinity or
    not-a-number (with a warning), never an exception. *)
Definition fdiv (a b : float) : float :=
  match a, b with
  | NaN, _ | _, NaN => NaN
  | Finite x, Finite y =>
      if is_zero y then (if is_zero x then NaN else Inf (is_neg x))
      else round64 (x / y)
  | Finite _, Inf _ => Finite 0
  | Inf s, Finite y => Inf (xorb s (is_neg y))
  | Inf _, Inf _ => NaN
  end.

(** An [int] entering float arithmetic. *)
Definition of_int (z : Z) : float := round64 (inject_Z z).

(** [int(x)]: truncation toward zero; the special values raise. *)
Definition to_int (x : float) : result Z :=
  match x with
  | Finite q => Ok (Qtrunc q)
  | Inf _ => Raise OverflowError
  | NaN => Raise ValueError
  end.

End PyFloat.

(** ** The world monad *)

Definition M (W A : Type) : Type := W -> W * result A.

#[export] Instance M_ret {W} : MRet (M W) := fun A a w => (w, Ok a).

#[export] Instance M_bind {W} : MBind (M W) := fun A B k m w =>
  match m w with
  | (w', Ok a) => k a w'
  | (w', Raise e) => (w', Raise e)
  end.

Definition raise {W A} (e : PyErr) : M W A := fun w => (w, Raise e).
Definition get {W} : M W W := fun w => (w, Ok w).
Definition gets {W A} (f : W -> A) : M W A := fun w => (w, Ok (f w)).
Definition modify {W} (f : W -> W) : M W unit := fun w => (f w, Ok tt).
Definition lift {W A} (r : result A) : M W A := fun w => (w, r).

(** A [for] loop whose body has effects. *)
Fixpoint for_each {W A} (l : list A) (body : A -> M W unit) : M W unit :=
  match l with
  | [] => mret tt
  | x :: l' => body x ;; for_each l' body
  end.

(** ** Geometry of a grid *)

Module GridNodeHelper.
Import PyFloat.

Definition vec3 (A : Type) : Type := (A * A * A)%type.

Definition map3 {A B} (f : A -> B) (v : vec3 A) : vec3 B :=
  let '(a, b, c) := v in (f a, f b, f c).

Definition zip3 {A B C} (f : A -> B -> C) (v : vec3 A) (w : vec3 B) : vec3 C :=
  let '(a, b, c) := v in let '(a', b', c') := w in (f a a', f b b', f c c').

(** The three values a grid definition is made of. *)
Record GridDefinition : Type := {
  size : vec3 Z;
  origin : vec3 float;
  spacing : vec3 float;
}.

(** Number of voxels of a grid of the given dimensions. *)
Definition voxels (dims : vec3 Z) : nat :=
  let '(a, b, c) := dims in Z.to_nat (a * b * c).

End GridNodeHelper.

(** ** An instance of [float(s)] *)

Module PyFloatParse.
Import PyFloat.
Local Open Scope string_scope.

Definition digit (c : ascii) : option Z :=
  let n := nat_of_ascii c in
  if (48 <=? n)%nat && (n <=? 57)%nat then Some (Z.of_nat (n - 48)) else None.

(** Value of a string of decimal digits, after the digits in [acc]. *)
Fixpoint digits (s : string) (acc : Z) : option Z :=
  match s with
  | EmptyString => Some acc
  | String c s' =>
      match digit c with
      | Some d => digits s' (10 * acc + d)%Z
      | None => None
      end
  end.

(** The text before and after the first decimal point. *)
Fixpoint split_point (s : string) : string * string :=
  match s with
  | EmptyString => (EmptyString, EmptyString)
  | String c s' =>
      if Ascii.eqb c "." then (EmptyString, s')
      else let '(a, b) := split_point s' in (String c a, b)
  end.

(** [float(s)] for a plain decimal literal: an optional minus sign,
    digits, and an optional point followed by digits.  The other forms
    Python accepts (exponents, [inf], [nan], blanks) raise here. *)
Definition float_of_decimal (s : string) : result float :=
  let '(neg, body) :=
    match s with
    | String "-" r => (true, r)
    | _ => (false, s)
    end in
  let '(ip, fp) := split_point body in
  if String.eqb ip EmptyString && String.eqb fp EmptyString then Raise ValueError
  else
    match digits ip 0, digits fp 0 with
    | Some i, Some f =>
        let q := (inject_Z i + inject_Z f / inject_Z (10 ^ Z.of_nat (String.length fp)))%Q in
        Ok (round64 (if neg then - q else q))
    | _, _ => Raise ValueError
    end.

End PyFloatParse.

(** ** JSON values, [json.loads] and [json.dumps] *)

Module Json.
Import PyStr.
Local Open Scope string_scope.

Local Unset Elimination Schemes.

(** A decoded JSON document.  An object is a Python [dict]: its keys
    are kept in insertion order. *)
Inductive json : Type :=
  | JNull
  | JBool (b : bool)
  | JInt (z : Z)
  | JString (s : string)
  | JArray (l : list json)
  | JObject (members : list (string * json)).

Local Set Elimination Schemes.

(** [d[key] = value] on a dict: an existing key keeps its place, a new
    key goes last. *)
Fixpoint dict_set (key : string) (value : json) (d : list (string * json)) : list (string * json) :=
  match d with
  | [] => [(key, value)]
  | (k, v) :: d' =>
      if String.eqb k key then (k, value) :: d' else (k, v) :: dict_set key value d'
  end.

(** [d.get(key)] *)
Fixpoint dict_get (key : string) (d : list (string * json)) : option json :=
  match d with
  | [] => None
  | (k, v) :: d' => if String.eqb k key then Some v else dict_get key d'
  end.

(** [obj[key] = value]: only a dict takes a string key. *)
Definition setitem (obj : json) (key : string) (value : json) : result json :=
  match obj with
  | JObject d => Ok (JObject (dict_set key value d))
  | _ => Raise TypeError
  end.

(** The double quote and the backslash. *)
Definition dquote : ascii := "034"%char.
Definition backslash : ascii := "092"%char.

(** [s] between double quotes. *)
Definition quoted (s : string) : string :=
  String dquote (s +:+ String dquote EmptyString).

Definition is_space (c : ascii) : bool :=
  Ascii.eqb c " " || Ascii.eqb c "009" || Ascii.eqb c "010" || Ascii.eqb c "013".

Fixpoint skip_ws (s : string) : string :=
  match s with
  | String c s' => if is_space c then skip_ws s' else s
  | EmptyString => s
  end.

(** The characters up to the closing quote; escapes are not decoded. *)
Fixpoint string_body (s : string) : option (string * string) :=
  match s with
  | EmptyString => None
  | String c s' =>
      if Ascii.eqb c dquote then Some (EmptyString, s')
      else if Ascii.eqb c backslash then None
      else match string_body s' with
           | Some (a, r) => Some (String c a, r)
           | None => None
           end
  end.

(** The leading decimal digits and their count. *)
Fixpoint number_body (s : string) (acc : Z) (n : nat) : Z * nat * string :=
  match s with
  | String c s' =>
      match PyFloatParse.digit c with
      | Some d => number_body s' (10 * acc + d)%Z (S n)
      | None => (acc, n, s)
      end
  | EmptyString => (acc, n, s)
  end.

Definition number (s : string) : option (json * string) :=
  let '(neg, body) :=
    match s with
    | String "-" r => (true, r)
    | _ => (false, s)
    end in
  let '(z, n, r) := number_body body 0 0 in
  match n with
  | O => None
  | S _ => Some (JInt (if neg then - z else z)%Z, r)
  end.

Definition literal (s lit : string) (v : json) : option (json * string) :=
  if startswith s lit then Some (v, String.substring (String.length lit) (String.length s) s)
  else None.

(** A recursive-descent decoder for the JSON subset of null, booleans,
    integers, strings without escapes, arrays and objects.  [fuel]
    bounds the nesting of calls; [members] carries the dict built so
    far, so that a repeated key keeps its first place and its last
    value. *)
Fixpoint value (fuel : nat) (s : string) : option (json * string) :=
  match fuel with
  | O => None
  | S fuel =>
      match skip_ws s with
      | EmptyString => None
      | String c r as s0 =>
          if Ascii.eqb c "n" then literal s0 "null" JNull
          else if Ascii.eqb c "t" then literal s0 "true" (JBool true)
          else if Ascii.eqb c "f" then literal s0 "false" (JBool false)
          else if Ascii.eqb c dquote then
            match string_body r with
            | Some (a, r') => Some (JString a, r')
            | None => None
            end
          else if Ascii.eqb c "[" then
            match skip_ws r with
            | String "]" r' => Some (JArray [], r')
            | r0 =>
                match elements fuel r0 with
                | Some (l, r') => Some (JArray l, r')
                | None => None
                end
            end
          else if Ascii.eqb c "{" then
            match skip_ws r with
            | String "}" r' => Some (JObject [], r')
            | r0 =>
                match members fuel r0 [] with
                | Some (d, r') => Some (JObject d, r')
                | None => None
                end
            end
          else number s0
      end
  end
with elements (fuel : nat) (s : string) : option (list json * string) :=
  match fuel with
  | O => None
  | S fuel =>
      match value fuel s with
      | Some (v, r) =>
          match skip_ws r with
          | String "," r' =>
              match elements fuel r' with
              | Some (l, r'') => Some (v :: l, r'')
              | None => None
              end
          | String "]" r' => Some ([v], r')
          | _ => None
          end
      | None => None
      end
  end
with members (fuel : nat) (s : string) (acc : list (string * json))
    : option (list (string * json) * string) :=
  match fuel with
  | O => None
  | S fuel =>
      match skip_ws s with
      | String c r =>
          if Ascii.eqb c dquote then
            match string_body r with
            | Some (k, r1) =>
                match skip_ws r1 with
                | String ":" r2 =>
                    match value fuel r2 with
                    | Some (v, r3) =>
                        match skip_ws r3 with
                        | String "," r4 => members fuel r4 (dict_set k v acc)
                        | String "}" r4 => Some (dict_set k v acc, r4)
                        | _ => None
                        end
                    | None => None
                    end
                | _ => None
                end
            | None => None
            end
          else None
      | EmptyString => None
      end
  end.

(** [json.loads(s)] *)
Definition loads (s : string) : result json :=
  match value (2 * String.length s + 2) s with
  | Some (v, r) =>
      match skip_ws r with
      | EmptyString => Ok v
      | _ => Raise JSONDecodeError
      end
  | None => Raise JSONDecodeError
  end.

(** [json.dumps(v)] with the default separators. *)
Fixpoint dumps (v : json) : string :=
  match v with
  | JNull => "null"
  | JBool true => "true"
  | JBool false => "false"
  | JInt z => pretty z
  | JString s => quoted s
  | JArray l =>
      "[" +:+
      (fix items (l : list json) : string :=
         match l with
         | [] => EmptyString
         | [x] => dumps x
         | x :: l' => dumps x +:+ ", " +:+ items l'
         end) l +:+ "]"
  | JObject d =>
      "{" +:+
      (fix items (d : list (string * json)) : string :=
         match d with
         | [] => EmptyString
         | [(k, x)] => quoted k +:+ ": " +:+ dumps x
         | (k, x) :: d' => quoted k +:+ ": " +:+ dumps x +:+ ", " +:+ items d'
         end) d +:+ "}"
  end.

End Json.

(** ** The file system and the processes *)

Module OS.
Import PyStr.
Local Open Scope string_scope.

(** A value stored under a key of a MAT-file. *)
Inductive NdArray : Type :=
  | Int1 (xs : list Z)             (** [np.array([...])] *)
  | UInt8_2 (xss : list (list Z))  (** [np.array([[...]], dtype='uint8')] *)
  | Stored (tag : nat).            (** any other stored value *)

Inductive FileData : Type :=
  | TextFile (content : string)
  | MatFile73 (vars : gmap string NdArray)  (** HDF5 container, read by [h5py] *)
  | MatFile5 (vars : gmap string NdArray)   (** read by [scipy.io.loadmat] only *)
  | DataFile.                               (** images and transforms *)

Record World : Type := {
  (** regular files, by absolute path *)
  files : gmap string FileData;
  (** directories, by absolute path *)
  dirs : gset string;
  cwd : string;
  (** command lines handed to [subprocess.call], oldest first *)
  commands : list string;
  (** paths handed to [slicer.util.loadTransform], oldest first *)
  loadedTransforms : list string;
}.

Definition with_files (f : gmap string FileData -> gmap string FileData) (w : World) : World :=
  {| files := f (files w); dirs := dirs w; cwd := cwd w;
     commands := commands w; loadedTransforms := loadedTransforms w |}.

Definition with_dirs (f : gset string -> gset string) (w : World) : World :=
  {| files := files w; dirs := f (dirs w); cwd := cwd w;
     commands := commands w; loadedTransforms := loadedTransforms w |}.

Definition with_cwd (d : string) (w : World) : World :=
  {| files := files w; dirs := dirs w; cwd := d;
     commands := commands w; loadedTransforms := loadedTransforms w |}.

Definition with_commands (f : list string -> list string) (w : World) : World :=
  {| files := files w; dirs := dirs w; cwd := cwd w;
     commands := f (commands w); loadedTransforms := loadedTransforms w |}.

Definition with_loadedTransforms (f : list string -> list string) (w : World) : World :=
  {| files := files w; dirs := dirs w; cwd := cwd w;
     commands := commands w; loadedTransforms := f (loadedTransforms w) |}.

(** A path as the process sees it: relative paths start at [cwd].
    Paths are compared as strings, without normalisation. *)
Definition abspath (w : World) (p : string) : string := path_join (cwd w) p.

(** [os.path.isfile(p)] *)
Definition isfile (w : World) (p : string) : bool :=
  bool_decide (is_Some (files w !! abspath w p)).

(** [os.path.isdir(p)] *)
Definition isdir (w : World) (p : string) : bool :=
  bool_decide (abspath w p ∈ dirs w).

(** [os.getcwd()] *)
Definition getcwd : M World string := gets cwd.

(** [os.chdir(d)] *)
Definition chdir (d : string) : M World unit := fun w =>
  if String.eqb d EmptyString then (w, Raise FileNotFoundError)
  else if isdir w d then (with_cwd (abspath w d) w, Ok tt)
  else (w, Raise FileNotFoundError).

(** [os.remove(p)] *)
Definition remove (p : string) : M World unit := fun w =>
  if isfile w p then (with_files (delete (abspath w p)) w, Ok tt)
  else (w, Raise FileNotFoundError).

(** [subprocess.call(command, shell=True)]: the command line is
    recorded; what the program does to the files is outside the model.
    The exit status is returned. *)
Definition call (command : string) : M World Z :=
  modify (with_commands (fun l => (l ++ [command])%list)) ;; mret 0%Z.

(** [slicer.util.loadTransform(p)]: the loaded path stands for the node. *)
Definition loadTransform (p : string) : M World string := fun w =>
  if isfile w p then (with_loadedTransforms (fun l => (l ++ [p])%list) w, Ok p)
  else (w, Raise RuntimeError).

(** [glob.glob(pattern)] over the regular files.  The order of the
    matches is that of the listing of the map, fixed but arbitrary, as
    a directory listing is.  A relative pattern yields relative paths. *)
Definition strip_prefix (pre s : string) : string :=
  if startswith s pre then String.substring (String.length pre) (String.length s) s else s.

Definition glob (w : World) (pattern : string) : list string :=
  let found := List.filter (glob_match (abspath w pattern)) (map fst (map_to_list (files w))) in
  if startswith pattern "/" then found
  else map (strip_prefix (path_join (cwd w) EmptyString)) found.

(** *** Text streams *)

(** The text of a file; the bytes of files of the other kinds are not
    modelled and read as empty. *)
Definition text_of (d : FileData) : string :=
  match d with
  | TextFile c => c
  | _ => EmptyString
  end.

(** A stream opened with mode ['a+']. *)
Record Stream : Type := {
  stream_path : string;   (** absolute *)
  stream_pos : nat;
}.

Definition content (w : World) (f : Stream) : string :=
  match files w !! stream_path f with
  | Some d => text_of d
  | None => EmptyString
  end.

(** [open(p, 'a+')]: the file is created when missing, and the stream
    is positioned at the end of the file. *)
Definition open_append_plus (p : string) : M World Stream := fun w =>
  let a := abspath w p in
  match files w !! a with
  | Some d => (w, Ok {| stream_path := a; stream_pos := String.length (text_of d) |})
  | None =>
      if bool_decide (dirname a ∈ dirs w)
      then (with_files (insert a (TextFile EmptyString)) w,
            Ok {| stream_path := a; stream_pos := 0 |})
      else (w, Raise FileNotFoundError)
  end.

(** [f.read()]: the text from the position to the end. *)
Definition read (f : Stream) : M World (string * Stream) := fun w =>
  let c := content w f in
  (w, Ok (String.substring (stream_pos f) (String.length c) c,
          {| stream_path := stream_path f; stream_pos := String.length c |})).

(** [f.seek(n)] *)
Definition seek (f : Stream) (n : nat) : Stream :=
  {| stream_path := stream_path f; stream_pos := n |}.

(** [f.write(s)] on a stream in append mode: the text goes to the end
    of the file wherever the position is. *)
Definition write (f : Stream) (s : string) : M World Stream := fun w =>
  let c := content w f +:+ s in
  (with_files (insert (stream_path f) (TextFile c)) w,
   Ok {| stream_path := stream_path f; stream_pos := String.length c |}).

(** [f.truncate()]: the file is cut at the position. *)
Definition truncate (f : Stream) : M World unit := fun w =>
  (with_files (insert (stream_path f)
                 (TextFile (String.substring 0 (stream_pos f) (content w f)))) w,
   Ok tt).

(** *** MAT-files *)

(** [h5py.File(p, 'r')] and the values under its keys. *)
Definition h5py_read (p : string) : M World (gmap string NdArray) := fun w =>
  match files w !! abspath w p with
  | Some (MatFile73 vars) => (w, Ok vars)
  | Some _ => (w, Raise OSError)
  | None => (w, Raise FileNotFoundError)
  end.

(** [scipy.io.loadmat(p)]: the variables of the file. *)
Definition loadmat (p : string) : M World (gmap string NdArray) := fun w =>
  match files w !! abspath w p with
  | Some (MatFile5 vars) => (w, Ok vars)
  | Some (MatFile73 _) => (w, Raise NotImplementedError)
  | Some _ => (w, Raise ValueError)
  | None => (w, Raise FileNotFoundError)
  end.

(** [scipy.io.savemat(p, mdict)] *)
Definition savemat (p : string) (mdict : gmap string NdArray) : M World unit := fun w =>
  (with_files (insert (abspath w p) (MatFile5 mdict)) w, Ok tt).

(** [hdf5storage.write(data, '.', filename, matlab_compatible=True)]:
    the entries of [data] become the variables at the root of the
    container; a container that exists keeps its other variables. *)
Definition hdf5storage_write (data : gmap string NdArray) (filename : string) : M World unit := fun w =>
  let a := abspath w filename in
  match files w !! a with
  | None => (with_files (insert a (MatFile73 data)) w, Ok tt)
  | Some (MatFile73 old) => (with_files (insert a (MatFile73 (data ∪ old))) w, Ok tt)
  | Some _ => (w, Raise OSError)
  end.

(** [try: body except: handler] with a bare [except]. *)
Definition try_except {A} (body handler : M World A) : M World A := fun w =>
  match body w with
  | (w', Ok a) => (w', Ok a)
  | (w', Raise _) => handler w'
  end.

(** *** Directories *)

(** [os.mkdir(p)]: the path must be free and its parent a directory. *)
Definition mkdir (p : string) : M World unit := fun w =>
  let a := abspath w p in
  if bool_decide (is_Some (files w !! a)) || bool_decide (a ∈ dirs w)
  then (w, Raise FileExistsError)
  else if bool_decide (dirname a ∈ dirs w) then (with_dirs (union {[ a ]}) w, Ok tt)
  else (w, Raise FileNotFoundError).

(** The path [p] is [a] or lies below the directory [a]. *)
Definition inside (a p : string) : bool :=
  String.eqb p a || startswith p (path_join a EmptyString).

(** [shutil.rmtree(p)]: the directory goes with all that lies below
    it.  Permissions are not modelled. *)
Definition rmtree (p : string) : M World unit := fun w =>
  let a := abspath w p in
  if bool_decide (a ∈ dirs w) then
    (with_dirs (filter (fun d => inside a d = false))
       (with_files (filter (fun kv => inside a (fst kv) = false)) w),
     Ok tt)
  else if bool_decide (is_Some (files w !! a)) then (w, Raise OSError)
  else (w, Raise FileNotFoundError).

(** A writer of Slicer on a path: the file is written when its
    directory exists and the path is no directory; the result tells. *)
Definition write_data (p : string) : M World bool := fun w =>
  let a := abspath w p in
  if bool_decide (dirname a ∈ dirs w) && negb (bool_decide (a ∈ dirs w))
  then (with_files (insert a DataFile) w, Ok true)
  else (w, Ok false).

End OS.

(** ** The scene and the parameter node *)

Module Scene.
Import PyFloat GridNodeHelper.

Definition NodeId : Type := positive.

(** A control point of a markups fiducial node. *)
Record ControlPoint : Type := {
  position : vec3 float;
  selected : bool;
  description : string;
}.

(** What a transform node holds. *)
Inductive Transform : Type :=
  | IdentityTransform
  | GridTransform (grid : GridDefinition) (displacement : list (vec3 float))
  | ThinPlateSplineTransform (source target : list (vec3 float)) (inverted : bool).

(** Parameters handed to [fiducialRegistrationVariableRBF]. *)
Record CliParams : Type := {
  referenceVolume : NodeId;
  fixedFiducials : NodeId;
  movingFiducials : NodeId;
  outputDisplacementField : NodeId;
  RBFRadius : string;
  stiffness : float;
}.

Inductive Node : Type :=
  | MarkupsFiducialNode (points : list ControlPoint)
  | ScalarVolumeNode (geometry : GridDefinition)
  | TransformNode (content : Transform)
  | CommandLineModuleNode (params : CliParams) (status : string)
  | LabelMapVolumeNode (geometry : GridDefinition).

(** The captured variables [o], [v], [a] of the observer lambda. *)
Record Observer : Type := {
  obs_outputNode : option NodeId;
  obs_visualizationNodes : list NodeId;
  obs_auxVolumeNode : NodeId;
}.

Record World : Type := {
  (** [slicer.mrmlScene] *)
  nodes : gmap NodeId Node;
  next_id : NodeId;
  (** per node, the transform node it observes as its parent *)
  transformNodeID : gmap NodeId NodeId;
  (** the parameter node: parameters and node references *)
  parameters : gmap string string;
  nodeReferences : gmap string NodeId;
  (** launched solver processes, oldest first *)
  cliRuns : list (NodeId * CliParams);
  (** observers of [StatusModifiedEvent], per CLI node *)
  observers : gmap NodeId Observer;
  (** node shown by the progress bar *)
  cliWidgetNode : option NodeId;
  (** nodes whose removal is scheduled by a single-shot timer *)
  removalTimers : list NodeId;
  (** per node, the attribute names of its subject hierarchy item *)
  itemAttributes : gmap NodeId (list string);
  (** the URL of the scene *)
  sceneURL : string;
  (** the values [uuid.uuid4().hex] yields, and how many were drawn *)
  entropy : nat -> string;
  drawn : nat;
  (** the file system and the processes *)
  os : OS.World;
}.

Definition with_nodes (f : gmap NodeId Node -> gmap NodeId Node) (w : World) : World :=
  {| nodes := f (nodes w); next_id := next_id w; transformNodeID := transformNodeID w;
     parameters := parameters w; nodeReferences := nodeReferences w; cliRuns := cliRuns w;
     observers := observers w; cliWidgetNode := cliWidgetNode w;
     removalTimers := removalTimers w; itemAttributes := itemAttributes w;
     sceneURL := sceneURL w; entropy := entropy w; drawn := drawn w; os := os w |}.

Definition with_next_id (n : NodeId) (w : World) : World :=
  {| nodes := nodes w; next_id := n; transformNodeID := transformNodeID w;
     parameters := parameters w; nodeReferences := nodeReferences w; cliRuns := cliRuns w;
     observers := observers w; cliWidgetNode := cliWidgetNode w;
     removalTimers := removalTimers w; itemAttributes := itemAttributes w;
     sceneURL := sceneURL w; entropy := entropy w; drawn := drawn w; os := os w |}.

Definition with_transformNodeID (f : gmap NodeId NodeId -> gmap NodeId NodeId) (w : World) : World :=
  {| nodes := nodes w; next_id := next_id w; transformNodeID := f (transformNodeID w);
     parameters := parameters w; nodeReferences := nodeReferences w; cliRuns := cliRuns w;
     observers := observers w; cliWidgetNode := cliWidgetNode w;
     removalTimers := removalTimers w; itemAttributes := itemAttributes w;
     sceneURL := sceneURL w; entropy := entropy w; drawn := drawn w; os := os w |}.

Definition with_parameters (f : gmap string string -> gmap string string) (w : World) : World :=
  {| nodes := nodes w; next_id := next_id w; transformNodeID := transformNodeID w;
     parameters := f (parameters w); nodeReferences := nodeReferences w;
     cliRuns := cliRuns w; observers := observers w; cliWidgetNode := cliWidgetNode w;
     removalTimers := removalTimers w; itemAttributes := itemAttributes w;
     sceneURL := sceneURL w; entropy := entropy w; drawn := drawn w; os := os w |}.

Definition with_cliRuns (f : list (NodeId * CliParams) -> list (NodeId * CliParams)) (w : World) : World :=
  {| nodes := nodes w; next_id := next_id w; transformNodeID := transformNodeID w;
     parameters := parameters w; nodeReferences := nodeReferences w;
     cliRuns := f (cliRuns w); observers := observers w; cliWidgetNode := cliWidgetNode w;
     removalTimers := removalTimers w; itemAttributes := itemAttributes w;
     sceneURL := sceneURL w; entropy := entropy w; drawn := drawn w; os := os w |}.

Definition with_observers (f : gmap NodeId Observer -> gmap NodeId Observer) (w : World) : World :=
  {| nodes := nodes w; next_id := next_id w; transformNodeID := transformNodeID w;
     parameters := parameters w; nodeReferences := nodeReferences w; cliRuns := cliRuns w;
     observers := f (observers w); cliWidgetNode := cliWidgetNode w;
     removalTimers := removalTimers w; itemAttributes := itemAttributes w;
     sceneURL := sceneURL w; entropy := entropy w; drawn := drawn w; os := os w |}.

Definition with_cliWidgetNode (c : option NodeId) (w : World) : World :=
  {| nodes := nodes w; next_id := next_id w; transformNodeID := transformNodeID w;
     parameters := parameters w; nodeReferences := nodeReferences w; cliRuns := cliRuns w;
     observers := observers w; cliWidgetNode := c; removalTimers := removalTimers w;
     itemAttributes := itemAttributes w; sceneURL := sceneURL w; entropy := entropy w;
     drawn := drawn w; os := os w |}.

Definition with_removalTimers (f : list NodeId -> list NodeId) (w : World) : World :=
  {| nodes := nodes w; next_id := next_id w; transformNodeID := transformNodeID w;
     parameters := parameters w; nodeReferences := nodeReferences w; cliRuns := cliRuns w;
     observers := observers w; cliWidgetNode := cliWidgetNode w;
     removalTimers := f (removalTimers w); itemAttributes := itemAttributes w;
     sceneURL := sceneURL w; entropy := entropy w; drawn := drawn w; os := os w |}.

Definition with_sceneURL (url : string) (w : World) : World :=
  {| nodes := nodes w; next_id := next_id w; transformNodeID := transformNodeID w;
     parameters := parameters w; nodeReferences := nodeReferences w; cliRuns := cliRuns w;
     observers := observers w; cliWidgetNode := cliWidgetNode w;
     removalTimers := removalTimers w; itemAttributes := itemAttributes w; sceneURL := url;
     entropy := entropy w; drawn := drawn w; os := os w |}.

Definition with_drawn (n : nat) (w : World) : World :=
  {| nodes := nodes w; next_id := next_id w; transformNodeID := transformNodeID w;
     parameters := parameters w; nodeReferences := nodeReferences w; cliRuns := cliRuns w;
     observers := observers w; cliWidgetNode := cliWidgetNode w;
     removalTimers := removalTimers w; itemAttributes := itemAttributes w;
     sceneURL := sceneURL w; entropy := entropy w; drawn := n; os := os w |}.

Definition with_os (f : OS.World -> OS.World) (w : World) : World :=
  {| nodes := nodes w; next_id := next_id w; transformNodeID := transformNodeID w;
     parameters := parameters w; nodeReferences := nodeReferences w; cliRuns := cliRuns w;
     observers := observers w; cliWidgetNode := cliWidgetNode w;
     removalTimers := removalTimers w; itemAttributes := itemAttributes w;
     sceneURL := sceneURL w; entropy := entropy w; drawn := drawn w; os := f (os w) |}.

(** *** Parameter node *)

(** [parameterNode.GetParameter(name)]: the empty string when unset. *)
Definition GetParameter (p : gmap string string) (name : string) : string :=
  default EmptyString (p !! name).

(** [parameterNode.SetParameter(name, value)] *)
Definition SetParameter (name value : string) (p : gmap string string) : gmap string string :=
  <[name := value]> p.

(** [parameterNode.GetNodeReference(role)]: [None] when the role is
    unset or the node has left the scene. *)
Definition GetNodeReference (w : World) (role : string) : option NodeId :=
  match nodeReferences w !! role with
  | Some n => if decide (is_Some (nodes w !! n)) then Some n else None
  | None => None
  end.

(** *** Scene operations *)

(** [slicer.mrmlScene.AddNewNodeByClass(...)] with the node's content. *)
Definition AddNewNode (n : Node) : M World NodeId := fun w =>
  let i := next_id w in
  (with_next_id (Pos.succ i) (with_nodes (insert i n) w), Ok i).

(** [slicer.mrmlScene.RemoveNode(node)] *)
Definition RemoveNode (i : NodeId) : M World unit :=
  modify (with_nodes (delete i)).

(** [node.SetAndObserveTransformNodeID(id)] on a node that may be [None]. *)
Definition SetAndObserveTransformNodeID (node : option NodeId) (t : option NodeId) : M World unit :=
  match node with
  | None => raise AttributeError
  | Some i =>
      modify (with_transformNodeID
                (match t with Some t' => insert i t' | None => delete i end))
  end.

(** The control points of a fiducial node that may be [None]. *)
Definition controlPoints (w : World) (node : option NodeId) : result (list ControlPoint) :=
  match node with
  | None => Raise AttributeError
  | Some i =>
      match nodes w !! i with
      | Some (MarkupsFiducialNode pts) => Ok pts
      | _ => Raise AttributeError
      end
  end.

(** [node.GetID()] on a node that may be [None]. *)
Definition GetID (node : option NodeId) : result NodeId :=
  match node with
  | Some i => Ok i
  | None => Raise AttributeError
  end.

(** *** Saving *)

(** A statement on the file system, within the scene. *)
Definition liftOS {A} (m : M OS.World A) : M World A := fun w =>
  let '(o, r) := m (os w) in (with_os (fun _ => o) w, r).

(** [slicer.mrmlScene.SetURL(url)] *)
Definition SetURL (url : string) : M World unit := modify (with_sceneURL url).

(** [node.IsA(className)] for the two classes asked for; a label map
    is no fiducial and a fiducial no label map. *)
Definition IsA (n : Node) (className : string) : bool :=
  match n with
  | MarkupsFiducialNode _ => String.eqb className "vtkMRMLMarkupsFiducialNode"
  | LabelMapVolumeNode _ => String.eqb className "vtkMRMLLabelMapVolumeNode"
  | _ => false
  end.

(** [slicer.mrmlScene.GetNodesByClass(className)]: the nodes of the
    class in the order they entered the scene, which is the order of
    their identifiers. *)
Definition GetNodesByClass (w : World) (className : string) : list NodeId :=
  List.filter (fun i => match nodes w !! i with
                        | Some n => IsA n className
                        | None => false
                        end)
    (merge_sort Pos.le (map fst (map_to_list (nodes w)))).

(** [shNode.GetItemAttributeNames(shNode.GetItemByDataNode(node))] *)
Definition GetItemAttributeNames (w : World) (node : NodeId) : list string :=
  default [] (itemAttributes w !! node).

(** [uuid.uuid4().hex] *)
Definition uuid4_hex : M World string := fun w =>
  (with_drawn (S (drawn w)) w, Ok (entropy w (drawn w))).

(** [slicer.util.saveNode(node, filename)]: the node is written when
    the directory of the file exists.  A failure is reported by the
    result, not by an exception; the bytes written are not modelled. *)
Definition saveNode (node : NodeId) (filename : string) : M World bool :=
  liftOS (OS.write_data filename).

(** [slicer.mrmlScene.Commit()]: the scene is written to its URL. *)
Definition Commit : M World bool :=
  url ← gets sceneURL;
  liftOS (OS.write_data url).

End Scene.

(** ** [WarpDriveLib/Helpers/GridNodeHelper.py] *)

Module GridNodeOps.
Import PyFloat GridNodeHelper Scene.

(** Modelled from the spec: [GridNodeHelper.getGridDefinition] is not
    part of the sources at hand.  The spec makes the reference's native
    size, origin and spacing the grid of a node that carries a
    displacement grid; here a node without one raises. *)
Definition getGridDefinition (node : option NodeId) : M World GridDefinition := fun w =>
  match node with
  | None => (w, Raise AttributeError)
  | Some i =>
      match nodes w !! i with
      | Some (TransformNode (GridTransform g _)) => (w, Ok g)
      | Some (ScalarVolumeNode g) => (w, Ok g)
      | _ => (w, Raise AttributeError)
      end
  end.

(** Modelled from the spec: [GridNodeHelper.emptyVolume] is not part of
    the sources at hand.  It yields the auxiliary reference volume: a new
    volume node of the given size, origin and spacing. *)
Definition emptyVolume (sz : vec3 Z) (orig sp : vec3 float) : M World NodeId :=
  AddNewNode (ScalarVolumeNode {| size := sz; origin := orig; spacing := sp |}).

(** The identity deformation field over a grid: one zero displacement
    per voxel. *)
Definition zeroField (g : GridDefinition) : Transform :=
  GridTransform g (repeat (Finite 0, Finite 0, Finite 0) (voxels (size g))).

(** Modelled from the spec: [GridNodeHelper.emptyGridTransform] is not
    part of the sources at hand.  The spec has it put an identity
    deformation field (zero displacement everywhere) over the given grid
    on the given transform node; here any other argument raises. *)
Definition emptyGridTransform (sz : vec3 Z) (orig sp : vec3 float)
    (transformNode : option NodeId) : M World unit := fun w =>
  match transformNode with
  | None => (w, Raise AttributeError)
  | Some i =>
      match nodes w !! i with
      | Some (TransformNode _) =>
          (with_nodes
             (insert i (TransformNode
                          (zeroField {| size := sz; origin := orig; spacing := sp |}))) w,
           Ok tt)
      | _ => (w, Raise AttributeError)
      end
  end.

(** [volume.GetImageData().GetDimensions()], [GetOrigin()], [GetSpacing()] *)
Definition volumeGeometry (volume : NodeId) : M World GridDefinition := fun w =>
  match nodes w !! volume with
  | Some (ScalarVolumeNode g) => (w, Ok g)
  | _ => (w, Raise AttributeError)
  end.

End GridNodeOps.

(** ** [WarpDriveLib/Helpers/LeadDBSCall.py] *)

Module LeadDBSCall.
Import PyStr OS Json.
Local Open Scope string_scope.

(** *** [LeadFileManager] *)

Record LeadFileManager : Type := {
  subjectPath : string;
  subjectID : string;
  useBIDS : bool;
}.

(** [LeadFileManager.__init__] *)
Definition LeadFileManager_init (w : World) (subjectPath : string) : LeadFileManager :=
  {| subjectPath := subjectPath;
     subjectID := snd (path_split subjectPath);
     useBIDS := isdir w (path_joins subjectPath ["preprocessing"]) |}.

Definition getNormalizationPath (self : LeadFileManager) : string :=
  path_joins (subjectPath self) ["normalization"].

Definition getNormalizationMethod (self : LeadFileManager) : string :=
  if useBIDS self then
    path_joins (getNormalizationPath self) ["log"; subjectID self +:+ "_desc-normmethod.json"]
  else
    path_joins (subjectPath self) ["ea_coreg_approved.mat"].

(** On the legacy branch the source calls [glob.glon], an attribute the
    module [glob] does not have. *)
Definition getCoregImages (self : LeadFileManager) (modality : string) (w : World) : result (list string) :=
  if useBIDS self then
    Ok (glob w (path_joins (subjectPath self)
                  ["coregistration"; "anat"; subjectID self +:+ "*ses-preop_" +:+ modality +:+ ".nii"]))
  else
    Raise AttributeError.

Definition getNormalizedImages (self : LeadFileManager) (w : World) : list string :=
  if useBIDS self then
    glob w (path_joins (subjectPath self)
              ["normalization"; "anat"; subjectID self +:+ "*ses-preop*.nii"])
  else
    glob w (path_joins (subjectPath self) ["glanat*.nii"]).

Definition getANTSForwardWarp (self : LeadFileManager) : string :=
  if useBIDS self then
    path_joins (getNormalizationPath self)
      ["transformations"; subjectID self +:+ "_from-anchorNative_to-MNI152NLin2009bAsym_desc-ants.nii.gz"]
  else
    path_joins (subjectPath self) ["glanatComposite.nii.gz"].

Definition getANTSInverseWarp (self : LeadFileManager) : string :=
  if useBIDS self then
    path_joins (getNormalizationPath self)
      ["transformations"; subjectID self +:+ "_from-MNI152NLin2009bAsym_to-anchorNative_desc-ants.nii.gz"]
  else
    path_joins (subjectPath self) ["glanatInverseComposite.nii.gz"].

Definition getWarpDrivePath (self : LeadFileManager) : string :=
  path_joins (subjectPath self) ["warpdrive"].

(** The layout kind the flag [useBIDS] stands for. *)
Inductive LayoutKind : Set := Legacy | BIDS.

Definition layoutKind (self : LeadFileManager) : LayoutKind :=
  if useBIDS self then BIDS else Legacy.

(** *** Approval *)

Definition saveApprovedDataJSON (normalizationMethodFile : string) : M World unit :=
  f ← open_append_plus normalizationMethodFile;
  '(text, f) ← read f;
  normalizationMethod ← lift (loads text);
  normalizationMethod ← lift (setitem normalizationMethod "approval" (JInt 1));
  let f := seek f 0 in
  f ← write f (dumps normalizationMethod);
  truncate f.

Definition saveApprovedDataLegacy (normalizationMethodFile : string) : M World unit :=
  present ← gets (fun w => isfile w normalizationMethodFile);
  matfiledata ←
    (if present : bool then
       try_except
         ((* read file and copy data except for glanat *)
          vars ← h5py_read normalizationMethodFile;
          (* now add approved glanat *)
          mret (Some (<["glanat" := Int1 [2%Z]]> (delete "glanat" vars))))
         ((* use other reader for .mat file *)
          vars ← loadmat normalizationMethodFile;
          savemat normalizationMethodFile
            (<["glanat" := UInt8_2 [[2%Z]]]> (delete "glanat" vars)) ;;
          mret None)
     else
       mret (Some (<["glanat" := Int1 [2%Z]]> ∅)));
  match matfiledata with
  | None => mret tt
  | Some matfiledata =>
      (* save *)
      currentDir ← getcwd;
      chdir (dirname normalizationMethodFile) ;;
      hdf5storage_write matfiledata "ea_coreg_approved.mat" ;;
      chdir currentDir
  end.

Definition saveApprovedData (subjectPath : string) : M World unit :=
  w ← get;
  let normalizationMethodFile := getNormalizationMethod (LeadFileManager_init w subjectPath) in
  if endswith normalizationMethodFile "json" then
    saveApprovedDataJSON normalizationMethodFile
  else
    saveApprovedDataLegacy normalizationMethodFile.

(** *** Subject transforms *)

(** [l[0]] *)
Definition first {A} (l : list A) : result A :=
  match l with
  | x :: _ => Ok x
  | [] => Raise IndexError
  end.

Definition updateTranform (directory antsApplyTransformsPath : string) : M World bool :=
  w ← get;
  let bidsSubject := LeadFileManager_init w directory in
  let transforms := [getANTSForwardWarp bidsSubject; getANTSInverseWarp bidsSubject] in
  r1 ← lift (first (getNormalizedImages bidsSubject w));
  r2 ← lift (result_bind (getCoregImages bidsSubject "*" w) first);
  let references := [r1; r2] in
  for_each (zip transforms references) (fun tr =>
    let '(transform, reference) := tr in
    let transformFullPath := path_joins directory [transform +:+ ".h5"] in (* in case inverse doesnt exist *)
    present ← gets (fun w => isfile w transformFullPath);
    if present : bool then
      let h5transform := replace transform ".nii.gz" ".h5" in
      let command := antsApplyTransformsPath +:+ " -r " +:+ reference +:+ " -t " +:+ h5transform
                     +:+ " -o [" +:+ transform +:+ ",1] -v 1" in
      call command ;; (* run antsApplyTransforms *)
      remove h5transform
    else mret tt) ;;
  mret true.

Definition loadSubjectTransform (subjectPath antsApplyTransformsPath : string) : M World string :=
  w ← get;
  let transformPath := getANTSForwardWarp (LeadFileManager_init w subjectPath) in
  (* update subject warp fields to new lead dbs specification *)
  present ← gets (fun w => isfile w (replace transformPath ".nii.gz" ".h5"));
  (if present : bool then updateTranform subjectPath antsApplyTransformsPath ;; mret tt
   else mret tt) ;;
  (* load glanat composite *)
  loadTransform transformPath.

End LeadDBSCall.


(** ** [WarpDriveLib/Helpers/LeadDBSCall.py], on the scene *)

Module LeadDBSCallScene.
Import PyStr Scene.
Local Open Scope string_scope.

(** Save corrections and fixed points in the subject directory. *)
Definition saveCurrentScene (subjectPath : string) : M World unit :=
  w ← get;
  let warpDriveSavePath :=
    LeadDBSCall.getWarpDrivePath (LeadDBSCall.LeadFileManager_init (os w) subjectPath) in
  (* delete previous *)
  present ← gets (fun w => OS.isdir (os w) warpDriveSavePath);
  (if present : bool then liftOS (OS.rmtree warpDriveSavePath) else mret tt) ;;
  (* create directories *)
  liftOS (OS.mkdir warpDriveSavePath) ;;
  liftOS (OS.mkdir (path_joins warpDriveSavePath ["Data"])) ;;
  (* set scene URL *)
  SetURL (path_joins warpDriveSavePath ["WarpDriveScene.mrml"]) ;;
  (* save corrections *)
  for_each [("vtkMRMLMarkupsFiducialNode", ".fcsv"); ("vtkMRMLLabelMapVolumeNode", ".nrrd")]
    (fun te =>
       nodes ← gets (fun w => GetNodesByClass w (fst te));
       for_each nodes (fun node =>
         names ← gets (fun w => GetItemAttributeNames w node);
         if bool_decide ("correction" ∈ names) then
           hex ← uuid4_hex;
           saveNode node (path_joins warpDriveSavePath ["Data"; hex +:+ snd te]) ;;
           mret tt
         else mret tt)) ;;
  (* save scene *)
  Commit ;;
  mret tt.

End LeadDBSCallScene.

(** ** [WarpDrive/WarpDrive.py] *)

Module WarpDrive.
Import PyFloat GridNodeHelper Scene GridNodeOps LeadDBSCallScene.
Local Open Scope string_scope.

(** *** [WarpDriveLogic] *)

(** [if not parameterNode.GetParameter(name): parameterNode.SetParameter(name, value)] *)
Definition setDefault (name value : string) (p : gmap string string) : gmap string string :=
  if String.eqb (GetParameter p name) EmptyString then SetParameter name value p else p.

Definition setDefaultParameters (p : gmap string string) : gmap string string :=
  let p := setDefault "Radius" "15.0" p in
  let p := setDefault "Spacing" "2.0" p in
  let p := setDefault "RBFRadius" "30" p in
  let p := setDefault "Stiffness" "0.1" p in
  let p := setDefault "DrawMode" "To Nearest Model" p in
  let p := setDefault "Running" "false" p in
  p.

(** [slicer.cli.run(module, None, cliParams, wait_for_completion=False)]:
    a new CLI node is created and scheduled; the call does not wait. *)
Definition cli_run (cliParams : CliParams) : M World NodeId :=
  c ← AddNewNode (CommandLineModuleNode cliParams "Scheduled");
  modify (with_cliRuns (fun l => (l ++ [(c, cliParams)])%list)) ;;
  mret c.

Definition computeWarp (referenceVolume : NodeId) (outputNode sourceFiducial targetFiducial : option NodeId)
    (RBFRadius : string) (stiffness : float) : M World NodeId :=
  fixed ← lift (GetID targetFiducial);
  moving ← lift (GetID sourceFiducial);
  out ← lift (GetID outputNode);
  cli_run {| Scene.referenceVolume := referenceVolume;
             fixedFiducials := fixed;
             movingFiducials := moving;
             outputDisplacementField := out;
             Scene.RBFRadius := RBFRadius;
             Scene.stiffness := stiffness |}.

Definition run (referenceVolume : NodeId) (outputNode sourceFiducial targetFiducial : option NodeId)
    (RBFRadius : string) (stiffness : float) : M World (option NodeId) :=
  pts ← (fun w => (w, controlPoints w sourceFiducial));
  if negb (Nat.eqb (length pts) 0) then
    cliNode ← computeWarp referenceVolume outputNode sourceFiducial targetFiducial RBFRadius stiffness;
    mret (Some cliNode)
  else
    g ← volumeGeometry referenceVolume;
    emptyGridTransform (size g) (origin g) (spacing g) outputNode ;;
    mret None.

(** Indices and points of the selected control points. *)
Definition selectedPoints (pts : list ControlPoint) : list (nat * ControlPoint) :=
  List.filter (fun ip => selected (snd ip)) (imap pair pts).

(** [node.GetNthControlPointPosition(i)]: [None] when there is no such
    point. *)
Definition nthPosition (pts : list ControlPoint) (i : nat) : option (vec3 float) :=
  position <$> pts !! i.

(** [points.InsertNextPoint(x)] for each [x] in turn; [None] is no
    point. *)
Fixpoint insertPoints (xs : list (option (vec3 float))) : result (list (vec3 float)) :=
  match xs with
  | [] => Ok []
  | None :: _ => Raise TypeError
  | Some v :: xs' => result_bind (insertPoints xs') (fun l => Ok (v :: l))
  end.

Definition previewWarp (sourceNode targetNode : option NodeId) : M World (NodeId * NodeId) :=
  tpts ← (fun w => (w, controlPoints w targetNode));
  let sel := selectedPoints tpts in
  spts ← (fun w => (w, match sel with
                       | [] => Ok []
                       | _ => controlPoints w sourceNode
                       end));
  sourcePoints ← lift (insertPoints (map (fun ip => nthPosition spts (fst ip)) sel));
  let targetPoints := map (fun ip => position (snd ip)) sel in
  sourceDisplayFiducial ←
    AddNewNode (MarkupsFiducialNode
                  (map (fun p => {| position := p; selected := true; description := EmptyString |})
                     sourcePoints));
  transformNode ←
    AddNewNode (TransformNode (ThinPlateSplineTransform sourcePoints targetPoints true));
  mret (transformNode, sourceDisplayFiducial).

(** *** [WarpDriveWidget] *)

(** The grid of the auxiliary volume, lines 361 to 364 of
    [onCalculateButton]: the size is scaled by spacing over user
    spacing and each component passes through [int]. *)
Definition resolveGrid (g : GridDefinition) (u : float) : result GridDefinition :=
  let userSpacing := (u, u, u) in
  let '(s1, s2, s3) := zip3 fmul (map3 of_int (size g)) (zip3 fdiv (spacing g) userSpacing) in
  result_bind (to_int s1) (fun i1 =>
  result_bind (to_int s2) (fun i2 =>
  result_bind (to_int s3) (fun i3 =>
  Ok {| size := (i1, i2, i3); origin := origin g; spacing := userSpacing |}))).

(** The radius parameter, lines 368 to 372 of [onCalculateButton]. *)
Definition joinRadius (tpts : list ControlPoint) : string :=
  PyStr.join "," (map description (List.filter selected tpts)).

Definition onStatusModifiedEvent (caller outputNode : option NodeId)
    (visualizationNodes : list NodeId) (auxVolumeNode : NodeId) : M World unit :=
  w ← get;
  let finish : M World unit :=
    (* set new warp *)
    inputNode ← gets (fun w => GetNodeReference w "InputNode");
    match inputNode with
    | None => raise AttributeError
    | Some _ =>
        out ← lift (GetID outputNode);
        SetAndObserveTransformNodeID inputNode (Some out) ;;
        (* remove aux *)
        for_each visualizationNodes RemoveNode ;;
        RemoveNode auxVolumeNode ;;
        (* set parameter *)
        modify (with_parameters (SetParameter "Running" "false"))
    end in
  match caller with
  | Some c =>
      match nodes w !! c with
      | Some (CommandLineModuleNode _ status) =>
          if String.eqb status "Completed" then
            (* delete cli Node *)
            modify (with_removalTimers (fun l => (l ++ [c])%list)) ;;
            finish
          else mret tt
      | _ => finish
      end
  | None => finish
  end.

Section Widget.

(** [float(s)] on a string: a parameter of the development. *)
Variable py_float : string -> result float.

Definition onCalculateButton : M World unit :=
  (* create nodes *)
  sourceFiducial ← gets (fun w => GetNodeReference w "SourceFiducial");
  targetFiducial ← gets (fun w => GetNodeReference w "TargetFiducial");
  (* reference *)
  inputNode ← gets (fun w => GetNodeReference w "InputNode");
  g ← getGridDefinition inputNode;
  u ← (fun w => (w, py_float (GetParameter (parameters w) "Spacing")));
  g' ← lift (resolveGrid g u);
  auxVolumeNode ← emptyVolume (size g') (origin g') (spacing g');
  (* output *)
  outputNode ← gets (fun w => GetNodeReference w "OutputGridTransform");
  (* params *)
  tpts ← (fun w => (w, controlPoints w targetFiducial));
  let RBFRadius := joinRadius tpts in
  stiffness ← (fun w => (w, py_float (GetParameter (parameters w) "Stiffness")));
  (* save current state if leadDBS call in case of error *)
  subjectPath ← gets (fun w => GetParameter (parameters w) "subjectPath");
  (if String.eqb subjectPath EmptyString then mret tt
   else saveCurrentScene subjectPath) ;;
  (* unset current warp *)
  inputNode ← gets (fun w => GetNodeReference w "InputNode");
  SetAndObserveTransformNodeID inputNode None ;;
  (* preview *)
  '(transformNode, sourceDisplayFiducial) ← previewWarp sourceFiducial targetFiducial;
  let visualizationNodes := [transformNode; sourceDisplayFiducial] in
  (* run *)
  modify (with_parameters (SetParameter "Running" "true")) ;;
  cliNode ← run auxVolumeNode outputNode sourceFiducial targetFiducial RBFRadius stiffness;
  match cliNode with
  | Some c =>
      modify (with_cliWidgetNode (Some c)) ;;
      modify (with_observers
                (insert c {| obs_outputNode := outputNode;
                             obs_visualizationNodes := visualizationNodes;
                             obs_auxVolumeNode := auxVolumeNode |}))
  | None => onStatusModifiedEvent None outputNode visualizationNodes auxVolumeNode
  end.

End Widget.

(** The solver reports a new status: the CLI node takes it and the
    observer installed by [onCalculateButton], if any, is called with
    the node as caller. *)
Definition StatusModifiedEvent (c : NodeId) (status : string) : M World unit :=
  w ← get;
  match nodes w !! c with
  | Some (CommandLineModuleNode p _) =>
      modify (with_nodes (insert c (CommandLineModuleNode p status))) ;;
      match observers w !! c with
      | Some o => onStatusModifiedEvent (Some c) (obs_outputNode o)
                    (obs_visualizationNodes o) (obs_auxVolumeNode o)
      | None => mret tt
      end
  | _ => mret tt
  end.

End WarpDrive.

(** ** What saving leaves of the scene *)

Module SceneFrame.
Import Scene.

(** [w'] differs from [w] at most in the files, in the URL of the
    scene and in the number of names drawn. *)
Definition sameScene (w w' : World) : Prop :=
  w' = with_os (fun _ => os w') (with_drawn (drawn w') (with_sceneURL (sceneURL w') w)).

Definition frames {A} (m : M World A) : Prop :=
  forall w, sameScene w (fst (m w)).

End SceneFrame.

(** ** The state a commit leaves *)

Module CommitState.
Import PyFloat GridNodeHelper Scene LeadDBSCallScene WarpDrive.
Local Open Scope string_scope.

Section Committed.

Variables (w : World) (inp out src tgt : NodeId).
Variables (spts tpts : list ControlPoint) (g' : GridDefinition) (k : float).

(** The nodes a commit creates, in the order of their creation. *)
Definition aux : NodeId := next_id w.
Definition display : NodeId := Pos.succ aux.
Definition preview : NodeId := Pos.succ display.
Definition cli : NodeId := Pos.succ preview.

Definition cliParams : CliParams :=
  {| referenceVolume := aux;
     fixedFiducials := tgt;
     movingFiducials := src;
     outputDisplacementField := out;
     RBFRadius := PyStr.join "," (map description (List.filter selected tpts));
     stiffness := k |}.

Definition sourcePoints : list (vec3 float) :=
  omap (fun ip => nthPosition spts (fst ip)) (selectedPoints tpts).

Definition targetPoints : list (vec3 float) :=
  map (fun ip => position (snd ip)) (selectedPoints tpts).

(** The world once the auxiliary volume is added. *)
Definition withAux : World :=
  with_next_id (Pos.succ aux) (with_nodes (insert aux (ScalarVolumeNode g')) w).

(** The world once the current scene is saved, which is done when a
    subject is set. *)
Definition saved : World :=
  let subjectPath := GetParameter (parameters w) "subjectPath" in
  if String.eqb subjectPath EmptyString then withAux
  else fst (saveCurrentScene subjectPath withAux).

(** The world in which [onCalculateButton] returns once the solver is
    launched: the auxiliary volume, the two preview nodes and the CLI
    node are added, the input node observes no transform, [Running]
    is [true] and the observer of the CLI node is installed.  The
    files are those the saving of the scene left. *)
Definition committed : World :=
  {| nodes :=
       <[cli := CommandLineModuleNode cliParams "Scheduled"]>
         (<[preview := TransformNode (ThinPlateSplineTransform sourcePoints targetPoints true)]>
            (<[display := MarkupsFiducialNode
                            (map (fun p => {| position := p; selected := true; description := EmptyString |})
                               sourcePoints)]>
               (<[aux := ScalarVolumeNode g']> (nodes w))));
     next_id := Pos.succ cli;
     transformNodeID := delete inp (transformNodeID w);
     parameters := <["Running" := "true"]> (parameters w);
     nodeReferences := nodeReferences w;
     cliRuns := (cliRuns w ++ [(cli, cliParams)])%list;
     observers :=
       <[cli := {| obs_outputNode := Some out;
                   obs_visualizationNodes := [preview; display];
                   obs_auxVolumeNode := aux |}]> (observers w);
     cliWidgetNode := Some cli;
     removalTimers := removalTimers w;
     itemAttributes := itemAttributes w;
     sceneURL := sceneURL saved;
     entropy := entropy w;
     drawn := drawn saved;
     os := os saved |}.

End Committed.

End CommitState.

(** ** The spec's rounding rule *)

Module GridSpec.
Import PyFloat GridNodeHelper.




End GridSpec.

Module SubjectExamples.
Import PyStr OS Json LeadDBSCall.
Local Open Scope string_scope.

Definition antsApplyTransforms : string :=
  "/opt/leaddbs/ext_libs/ANTs/antsApplyTransforms.glnxa64".

Definition transformations : string :=
  "/data/sub-01/normalization/transformations/".

Definition forwardWarp : string :=
  transformations +:+ "sub-01_from-anchorNative_to-MNI152NLin2009bAsym_desc-ants".

Definition inverseWarp : string :=
  transformations +:+ "sub-01_from-MNI152NLin2009bAsym_to-anchorNative_desc-ants".

Definition normmethod : string :=
  "/data/sub-01/normalization/log/sub-01_desc-normmethod.json".

(** The text [{"approval": 0, "method": "ANTs"}]. *)
Definition normmethodText : string :=
  "{" +:+ quoted "approval" +:+ ": 0, " +:+ quoted "method" +:+ ": " +:+ quoted "ANTs" +:+ "}".

(** A subject in the BIDS layout whose two warp fields are still stored
    as composite [.h5] transforms, and whose normalization is not
    approved. *)
Definition bidsSubject : World :=
  {| files :=
       {[ forwardWarp +:+ ".h5" := DataFile;
          inverseWarp +:+ ".h5" := DataFile;
          "/data/sub-01/normalization/anat/sub-01_ses-preop_space-MNI152NLin2009bAsym_T1w.nii"
            := DataFile;
          "/data/sub-01/coregistration/anat/sub-01_ses-preop_T1w.nii" := DataFile;
          normmethod := TextFile normmethodText ]};
     dirs :=
       {[ "/"; "/data"; "/data/sub-01"; "/data/sub-01/preprocessing";
          "/data/sub-01/coregistration"; "/data/sub-01/coregistration/anat";
          "/data/sub-01/normalization"; "/data/sub-01/normalization/anat";
          "/data/sub-01/normalization/log"; "/data/sub-01/normalization/transformations" ]};
     cwd := "/";
     commands := [];
     loadedTransforms := [] |}.

(** A subject in the legacy layout, not yet approved. *)
Definition legacySubject : World :=
  {| files :=
       {[ "/data/patient1/glanatComposite.nii.gz" := DataFile;
          "/data/patient1/glanatInverseComposite.nii.gz" := DataFile;
          "/data/patient1/glanat.nii" := DataFile;
          "/data/patient1/anat_t1.nii" := DataFile ]};
     dirs := {[ "/"; "/data"; "/data/patient1" ]};
     cwd := "/data";
     commands := [];
     loadedTransforms := [] |}.

End SubjectExamples.

(** ** Concrete inputs *)

Module Examples.
Import PyFloat GridNodeHelper Scene.
Local Open Scope string_scope.

Definition zero3 : vec3 float := (Finite 0, Finite 0, Finite 0).

(** Seven voxels of spacing 1 per axis. *)
Definition grid7 : GridDefinition :=
  {| size := (7, 7, 7)%Z; origin := zero3;
     spacing := (Finite 1, Finite 1, Finite 1) |}.


(** A node on which the user has set the spacing and the draw mode. *)
Definition userParameters : gmap string string :=
  {[ "Spacing" := "0.5"; "DrawMode" := "To Nearest Point" ]}.

(** The binary64 number nearest to one tenth. *)
Definition tenth : Q := 3602879701896397 # 36028797018963968.

(** Names in place of the random ones of [uuid.uuid4]. *)
Definition hex (n : nat) : string := "c0ffee" +:+ pretty n.

(** A session of Slicer that Lead-DBS did not start. *)
Definition plainSession : OS.World :=
  {| OS.files := ∅; OS.dirs := {[ "/"; "/home" ]}; OS.cwd := "/home";
     OS.commands := []; OS.loadedTransforms := [] |}.

Definition point (sel : bool) (radius : string) : ControlPoint :=
  {| position := zero3; selected := sel; description := radius |}.

(** Four correspondence points, the second one fixed. *)
Definition fourPoints : list ControlPoint :=
  [point true "30"; point false "5"; point true "25"; point true "10"].

(** A scene before a commit: the input transform (node 1) observes the
    output transform (node 2); nodes 3 and 4 are the source and target
    fiducials. *)
Definition sceneWith (pts : list ControlPoint) : World :=
  {| nodes := {[ 1%positive := TransformNode (GridTransform grid7 []);
                 2%positive := TransformNode IdentityTransform;
                 3%positive := MarkupsFiducialNode pts;
                 4%positive := MarkupsFiducialNode pts ]};
     next_id := 5%positive;
     transformNodeID := {[ 1%positive := 2%positive ]};
     parameters := {[ "Spacing" := "2.0"; "Stiffness" := "0.1"; "Running" := "false" ]};
     nodeReferences := {[ "InputNode" := 1%positive; "OutputGridTransform" := 2%positive;
                          "SourceFiducial" := 3%positive; "TargetFiducial" := 4%positive ]};
     cliRuns := []; observers := ∅; cliWidgetNode := None;
     removalTimers := [];
     itemAttributes := ∅; sceneURL := EmptyString; entropy := hex; drawn := 0;
     os := plainSession |}.

Definition commitScene : World := sceneWith fourPoints.

(** The same scene in a session Lead-DBS started on the BIDS subject:
    the subject path is set and the two fiducials are corrections. *)
Definition subjectScene : World :=
  {| nodes := nodes commitScene;
     next_id := next_id commitScene;
     transformNodeID := transformNodeID commitScene;
     parameters := <["subjectPath" := "/data/sub-01"]> (parameters commitScene);
     nodeReferences := nodeReferences commitScene;
     cliRuns := []; observers := ∅; cliWidgetNode := None;
     removalTimers := [];
     itemAttributes := {[ 3%positive := ["correction"]; 4%positive := ["correction"; "target"] ]};
     sceneURL := EmptyString; entropy := hex; drawn := 0;
     os := SubjectExamples.bidsSubject |}.

(** The same, for a subject whose directory does not exist. *)
Definition lostSubjectScene : World :=
  with_parameters (<["subjectPath" := "/data/sub-02"]>) subjectScene.

(** The scene with no correspondence point, the auxiliary volume
    (node 5) already made. *)
Definition emptyCommitScene : World :=
  with_next_id 6%positive
    (with_nodes (insert 5%positive
                   (ScalarVolumeNode {| size := (3, 3, 3)%Z; origin := zero3;
                                        spacing := (Finite 2, Finite 2, Finite 2) |}))
       (sceneWith [])).

End Examples.

(** ** More concrete inputs *)

Module MoreExamples.
Import PyFloat GridNodeHelper Scene WarpDrive PyFloatParse Examples.
Local Open Scope string_scope.

(** The parameters of the solver launched from [commitScene]. *)
Definition solverParams : CliParams :=
  {| referenceVolume := 5%positive;
     fixedFiducials := 4%positive;
     movingFiducials := 3%positive;
     outputDisplacementField := 2%positive;
     RBFRadius := "30,25,10";
     stiffness := Finite (3602879701896397 # 36028797018963968) |}.

(** The scene after the commit from [commitScene], once the solver
    (node 8) has reported [Completed]. *)
Definition completedScene : World :=
  with_nodes (insert 8%positive (CommandLineModuleNode solverParams "Completed"))
    (fst (onCalculateButton float_of_decimal commitScene)).

(** The commit scene with a stiffness that is not a number. *)
Definition badStiffnessScene : World :=
  with_parameters (SetParameter "Stiffness" "stiff") commitScene.

(** The commit scene with a spacing of zero. *)
Definition zeroSpacingScene : World :=
  with_parameters (SetParameter "Spacing" "0") commitScene.

(** Two fixed points: none is selected. *)
Definition fixedPoints : list ControlPoint :=
  [point false "30"; point false "5"].

Definition at_ (x y z : Z) : vec3 float :=
  (Finite (inject_Z x), Finite (inject_Z y), Finite (inject_Z z)).

(** Four source points and the four points they are dragged to; the
    second pair is a fixed point, which is not selected. *)
Definition sourceMarks : list ControlPoint :=
  [ {| position := at_ 10 0 0; selected := true; description := "30" |};
    {| position := at_ 0 20 0; selected := false; description := "5" |};
    {| position := at_ 0 0 30; selected := true; description := "25" |};
    {| position := at_ 4 5 6; selected := true; description := "10" |} ].

Definition targetMarks : list ControlPoint :=
  [ {| position := at_ 11 1 0; selected := true; description := "30" |};
    {| position := at_ 0 20 0; selected := false; description := "5" |};
    {| position := at_ 0 (-2) 33; selected := true; description := "25" |};
    {| position := at_ 4 5 7; selected := true; description := "10" |} ].

(** The scene of a commit with these points: node 3 holds the source
    points and node 4 the target points. *)
Definition draggedScene : World :=
  with_nodes (insert 3%positive (MarkupsFiducialNode sourceMarks)) (sceneWith targetMarks).

End MoreExamples.

(** ** The separator [posixpath.join] inserts *)

Module PathSpec.
Import PyStr.
Local Open Scope string_scope.

(** What [path_join] puts before a second path that is not absolute:
    the first path, followed by a separator unless it is empty or ends
    in one. *)
Definition join_prefix (a : string) : string :=
  if String.eqb a EmptyString || endswith a "/" then a else a +:+ "/".

End PathSpec.

(** ** [WarpDriveWidget.onOutputNodeChanged] *)

Module WidgetSlots.
Import Scene.

(** The current node of the input and of the output selector; [None]
    when a selector shows no node (its [currentNodeID] is then empty). *)
Record Selectors : Type := {
  inputSelector : option NodeId;
  outputSelector : option NodeId;
}.

Definition onOutputNodeChanged (ui : Selectors) : M World Selectors :=
  (* unset if output is the same as input *)
  let currentNodeID := outputSelector ui in
  let ui :=
    if decide (currentNodeID = inputSelector ui)
    then {| inputSelector := inputSelector ui; outputSelector := None |}
    else ui in
  (* observe *)
  match inputSelector ui with
  | Some _ =>
      SetAndObserveTransformNodeID (inputSelector ui) (outputSelector ui) ;;
      mret ui
  | None => mret ui
  end.

End WidgetSlots.

(** ** [LeadDBSCall.updateParameterNodeFromArgs] *)

Module LeadDBSArgs.
Import PyStr Scene.
Local Open Scope string_scope.

(** [s.split(sep)[0]] for a non-empty [sep]: the text before the first
    occurrence of [sep], or all of [s] when there is none. *)
Fixpoint before_sep (sep s : string) : string :=
  if startswith s sep then EmptyString
  else match s with
       | EmptyString => EmptyString
       | String c s' => String c (before_sep sep s')
       end.

(** [s.split(sep)[0]]; an empty separator raises. *)
Definition split_first (s sep : string) : result string :=
  if String.eqb sep EmptyString then Raise ValueError else Ok (before_sep sep s).

(** What the function reads from the process: the command line, the
    platform name, the value the next [uuid.uuid4().hex] yields, and the
    atlases path that [ImportAtlas] reports. *)
Record Process : Type := {
  argv : list string;
  platform : string;
  uuid4_hex : string;
  atlasesPath : string;
}.

(** The parameter node and the application settings. *)
Record Session : Type := {
  parameters : gmap string string;
  nodeReferences : gmap string NodeId;
  settings : gmap string string;
}.

Definition SetParameters (kvs : list (string * string)) (p : gmap string string)
    : gmap string string :=
  foldl (fun p kv => SetParameter (fst kv) (snd kv) p) p kvs.

(** [argv[2:]] *)
Definition subjects (args : list string) : list string := drop 2 args.

(** The extension of the ANTs executables on the platform. *)
Definition ants_ext (platform : string) : string :=
  if String.eqb platform "darwin" then "maci64"
  else if startswith platform "win" then "exe"
  else "glnxa64".

(** The result is [None] where the function returns without a value. *)
Definition updateParameterNodeFromArgs (proc : Process) (fs : OS.World)
    : M Session (option bool) := fun node =>
  if negb (String.eqb (GetParameter (parameters node) "MNIPath") EmptyString) then
    (node, Ok None) (* was already called *)
  else
    match argv proc with
    | _ :: leadDBSPath :: _ :: _ =>
        if OS.isfile fs (path_joins leadDBSPath ["lead.m"]) then
          let pathsSeparator := uuid4_hex proc in
          let subjectPaths := join pathsSeparator (subjects (argv proc)) in
          match split_first subjectPaths pathsSeparator with
          | Raise e => (node, Raise e)
          | Ok subjectPath =>
              let MNIAtlasPath := atlasesPath proc in
              let MNIPath := dirname MNIAtlasPath in
              let ext := ants_ext (platform proc) in
              let antsApplyTransformsPath :=
                path_joins leadDBSPath ["ext_libs"; "ANTs"; "antsApplyTransforms." +:+ ext] in
              ({| parameters :=
                    SetParameters
                      [("separator", pathsSeparator);
                       ("subjectPaths", subjectPaths);
                       ("subjectN", "0");
                       ("subjectPath", subjectPath);
                       ("MNIPath", MNIPath);
                       ("MNIAtlasPath", MNIAtlasPath);
                       ("antsApplyTransformsPath", antsApplyTransformsPath)]
                      (parameters node);
                  nodeReferences :=
                    delete "TemplateNode" (delete "ImageNode" (nodeReferences node));
                  settings :=
                    <["NetstimPreferences/leadDBSPath" := leadDBSPath]> (settings node) |},
               Ok (Some true))
          end
        else (node, Ok None)
    | _ => (node, Ok None)
    end.

(** [sep] occurs in [s]. *)
Fixpoint occurs (sep s : string) : bool :=
  startswith s sep ||
  match s with
  | EmptyString => false
  | String _ s' => occurs sep s'
  end.

(** A string without its last character. *)
Fixpoint init (s : string) : string :=
  match s with
  | EmptyString => EmptyString
  | String c EmptyString => EmptyString
  | String c s' => String c (init s')
  end.

End LeadDBSArgs.

(** ** More subjects and a command line *)

Module MoreSubjects.
Import PyStr OS Json LeadDBSCall SubjectExamples.
Local Open Scope string_scope.

Definition approvalFile : string := "/data/patient1/ea_coreg_approved.mat".

Definition normalizedImage : string :=
  "/data/sub-01/normalization/anat/sub-01_ses-preop_space-MNI152NLin2009bAsym_T1w.nii".

Definition coregImage : string :=
  "/data/sub-01/coregistration/anat/sub-01_ses-preop_T1w.nii".

(** The legacy subject with an approval file in the HDF5 format that
    records a second image. *)
Definition legacyReviewed : World :=
  with_files
    (insert approvalFile
       (MatFile73 {[ "glanat" := Int1 [0%Z]; "anat_t1" := Int1 [1%Z] ]}))
    legacySubject.

(** The same, with the approval file in the older MAT format. *)
Definition legacyReviewedOld : World :=
  with_files
    (insert approvalFile (MatFile5 {[ "anat_t1" := UInt8_2 [[1%Z]] ]}))
    legacySubject.

(** The same, with an approval file that is no MAT file at all. *)
Definition legacyDamaged : World :=
  with_files (insert approvalFile (TextFile "corrupt")) legacySubject.

(** The BIDS subject without its metadata file. *)
Definition bidsWithoutMethod : World :=
  with_files (delete normmethod) bidsSubject.

(** The BIDS subject with a file named after the forward warp
    followed by [.h5]. *)
Definition bidsGuarded : World :=
  with_files (insert (forwardWarp +:+ ".nii.gz.h5") DataFile) bidsSubject.

(** The same, without the composite transform of the forward warp. *)
Definition bidsGuardedOnly : World :=
  with_files (delete (forwardWarp +:+ ".h5")) bidsGuarded.

End MoreSubjects.

Module ArgsExamples.
Import PyStr Scene LeadDBSArgs.
Local Open Scope string_scope.

Definition separator : string := "0f8a5c3e9b7d4216a4c1e2f3d5b6a798".

(** Slicer started by Lead-DBS on two subjects. *)
Definition leadProcess : Process :=
  {| argv := ["Slicer"; "/opt/leaddbs"; "/data/sub-01"; "/data/sub-02"];
     platform := "linux";
     uuid4_hex := separator;
     atlasesPath := "/opt/leaddbs/templates/space/MNI152NLin2009bAsym/atlases" |}.

(** Slicer started on its own. *)
Definition plainProcess : Process :=
  {| argv := ["Slicer"];
     platform := "win32";
     uuid4_hex := separator;
     atlasesPath := EmptyString |}.

Definition leadInstall : OS.World :=
  {| OS.files := {[ "/opt/leaddbs/lead.m" := OS.DataFile ]};
     OS.dirs := {[ "/"; "/opt"; "/opt/leaddbs" ]};
     OS.cwd := "/";
     OS.commands := [];
     OS.loadedTransforms := [] |}.

(** A fresh parameter node whose image reference is set. *)
Definition freshSession : Session :=
  {| parameters := ∅;
     nodeReferences := {[ "ImageNode" := 3%positive ]};
     settings := ∅ |}.

End ArgsExamples.

(** * Properties *)

(** ** Stepping through the world monad *)

Section MonadSteps.
Context {W : Type}.

Lemma bind_ok {A B} (m : M W A) (k : A -> M W B) (w w' : W) (a : A) :
  m w = (w', Ok a) -> (m ≫= k) w = k a w'.
Proof. intros H. unfold mbind, M_bind. by rewrite H. Qed.

Lemma bind_raise {A B} (m : M W A) (k : A -> M W B) (w w' : W) (e : PyErr) :
  m w = (w', Raise e) -> (m ≫= k) w = (w', Raise e).
Proof. intros H. unfold mbind, M_bind. by rewrite H. Qed.

End MonadSteps.

(** ** Default parameters *)

Section DefaultParameters.
Import Scene WarpDrive Examples.
Local Open Scope string_scope.

Implicit Types p : gmap string string.

Lemma GetParameter_SetParameter_eq p name value :
  GetParameter (SetParameter name value p) name = value.
Proof. unfold GetParameter, SetParameter. by rewrite lookup_insert_eq. Qed.

Lemma GetParameter_SetParameter_ne p name name' value :
  name ≠ name' -> GetParameter (SetParameter name value p) name' = GetParameter p name'.
Proof. intros H. unfold GetParameter, SetParameter. by rewrite lookup_insert_ne. Qed.

Lemma setDefault_set p name value :
  GetParameter p name ≠ EmptyString -> setDefault name value p = p.
Proof.
  intros H. unfold setDefault.
  destruct (String.eqb_spec (GetParameter p name) EmptyString); congruence.
Qed.

Lemma setDefault_unset p name value :
  GetParameter p name = EmptyString -> setDefault name value p = SetParameter name value p.
Proof. intros H. unfold setDefault. by rewrite H. Qed.

(** A value that is set survives a default for any name. *)
Lemma setDefault_keeps p name value k :
  GetParameter p k ≠ EmptyString -> GetParameter (setDefault name value p) k = GetParameter p k.
Proof.
  intros H. destruct (decide (name = k)) as [->|Hne].
  - by rewrite setDefault_set.
  - unfold setDefault. destruct (String.eqb _ _); [|done].
    by apply GetParameter_SetParameter_ne.
Qed.

Lemma setDefault_filled p name value :
  value ≠ EmptyString -> GetParameter (setDefault name value p) name ≠ EmptyString.
Proof.
  intros Hv. destruct (decide (GetParameter p name = EmptyString)) as [He|Hne].
  - rewrite setDefault_unset by done. by rewrite GetParameter_SetParameter_eq.
  - by rewrite setDefault_set.
Qed.

Lemma setDefault_stays_filled p name value k :
  GetParameter p k ≠ EmptyString -> GetParameter (setDefault name value p) k ≠ EmptyString.
Proof. intros H. by rewrite setDefault_keeps. Qed.

Lemma setDefaultParameters_keeps p k :
  GetParameter p k ≠ EmptyString -> GetParameter (setDefaultParameters p) k = GetParameter p k.
Proof.
  intros H. unfold setDefaultParameters.
  repeat (rewrite setDefault_keeps; [|by repeat rewrite setDefault_keeps]).
  done.
Qed.

Lemma setDefaultParameters_fixpoint p :
  setDefaultParameters (setDefaultParameters p) = setDefaultParameters p.
Proof.
  set (q := setDefaultParameters p).
  assert (Hq : forall k, k ∈ ["Radius"; "Spacing"; "RBFRadius"; "Stiffness"; "DrawMode"; "Running"] ->
                         GetParameter q k ≠ EmptyString).
  { intros k Hk. unfold q, setDefaultParameters.
    repeat (apply elem_of_cons in Hk as [->|Hk]);
      [ .. | by apply elem_of_nil in Hk ];
      repeat first [ by apply setDefault_filled | apply setDefault_stays_filled ]. }
  unfold setDefaultParameters at 1.
  repeat (rewrite (setDefault_set q); [| apply Hq; set_solver ]).
  done.
Qed.

(** C10.  [setDefaultParameters] leaves every parameter that holds a
    non-empty value as it is, assigns a value only where the parameter
    was empty, and applying it twice is the same as applying it once. *)
Theorem setDefaultParameters_fills_only_empty p :
  (forall name, GetParameter p name ≠ EmptyString ->
                GetParameter (setDefaultParameters p) name = GetParameter p name)
  /\ (forall name, GetParameter (setDefaultParameters p) name ≠ GetParameter p name ->
                   GetParameter p name = EmptyString)
  /\ setDefaultParameters (setDefaultParameters p) = setDefaultParameters p.
Proof.
  split; [|split].
  - intros name. apply setDefaultParameters_keeps.
  - intros name H. destruct (decide (GetParameter p name = EmptyString)) as [|Hk]; [done|].
    exfalso. apply H. by apply setDefaultParameters_keeps.
  - apply setDefaultParameters_fixpoint.
Qed.

Lemma setDefaultParameters_fills_only_empty_witness :
  GetParameter userParameters "Spacing" ≠ EmptyString
  /\ GetParameter (setDefaultParameters userParameters) "Spacing" = "0.5"
  /\ GetParameter (setDefaultParameters userParameters) "Radius" = "15.0"
  /\ setDefaultParameters (setDefaultParameters userParameters) = setDefaultParameters userParameters.
Proof.
  pose proof (setDefaultParameters_fills_only_empty userParameters) as [Hkeep [_ Hidem]].
  assert (Hne : GetParameter userParameters "Spacing" ≠ EmptyString) by (vm_compute; discriminate).
  split; [exact Hne|].
  split; [exact (Hkeep "Spacing" Hne)|].
  split; [reflexivity | exact Hidem].
Defined.

End DefaultParameters.

(** ** Grid geometry *)

Section GridGeometry.
Import PyFloat GridNodeHelper WarpDrive GridSpec PyFloatParse Examples.
Local Open Scope Q_scope.







(** *** Rounding *)





(** *** The resolved grid *)






(** Where an operation rounds, the truncation applies to the rounded
    product.  On 49 voxels of spacing 1 and the override 49 the quotient
    [1/49] rounds down and the size is 0; on one voxel of spacing 1 and
    the override nearest to [0.1] the quotient rounds up to 10 and the
    extent is exceeded; the override nearest to [1e-310] overflows. *)
Example resolveGrid_rounds :
  resolveGrid {| size := (49, 49, 49)%Z; origin := zero3;
                 spacing := (Finite 1, Finite 1, Finite 1) |} (Finite 49)
  = Ok {| size := (0, 0, 0)%Z; origin := zero3;
          spacing := (Finite 49, Finite 49, Finite 49) |}
  /\ (forall u, float_of_decimal "0.1" = Ok u ->
      exists q, u = Finite q /\ 1 # 10 < q /\
      resolveGrid {| size := (1, 1, 1)%Z; origin := zero3;
                     spacing := (Finite 1, Finite 1, Finite 1) |} u
      = Ok {| size := (10, 10, 10)%Z; origin := zero3; spacing := (u, u, u) |})
  /\ resolveGrid {| size := (1, 1, 1)%Z; origin := zero3;
                    spacing := (Finite 1, Finite 1, Finite 1) |}
       (Finite (1 # 2 ^ 1030))
     = Raise OverflowError.
Proof.
  split; [vm_compute; reflexivity|]. split.
  - intros u Hu. vm_compute in Hu. injection Hu as <-.
    eexists. split; [reflexivity|]. split; vm_compute; reflexivity.
  - vm_compute. reflexivity.
Qed.





End GridGeometry.

(** ** The empty commit *)

Section Run.
Import PyFloat GridNodeHelper Scene GridNodeOps WarpDrive Examples.
Local Open Scope string_scope.

Lemma zeroField_zero (g : GridDefinition) :
  exists field,
    zeroField g = GridTransform g field
    /\ length field = voxels (size g)
    /\ Forall (fun d => d = (Finite 0, Finite 0, Finite 0)) field.
Proof.
  eexists. split; [reflexivity|]. split.
  - apply repeat_length.
  - apply Forall_forall. intros d Hd. apply list_elem_of_In in Hd. by apply repeat_spec in Hd.
Qed.

(** C2.  With a source fiducial of zero control points, [run] puts on
    the output node a grid transform over the geometry of the reference
    volume whose displacement is zero at every voxel, returns no CLI
    node, launches no solver and leaves every other node as it was. *)
Theorem run_empty_yields_identity_field
    (w : World) (referenceVolume out src : NodeId) (targetFiducial : option NodeId)
    (g : GridDefinition) (t0 : Transform) (RBFRadius : string) (stiffness : float) :
  nodes w !! src = Some (MarkupsFiducialNode []) ->
  nodes w !! referenceVolume = Some (ScalarVolumeNode g) ->
  nodes w !! out = Some (TransformNode t0) ->
  exists (w' : World) (field : list (vec3 float)),
    run referenceVolume (Some out) (Some src) targetFiducial RBFRadius stiffness w = (w', Ok None)
    /\ nodes w' !! out = Some (TransformNode (GridTransform g field))
    /\ length field = voxels (size g)
    /\ Forall (fun d => d = (Finite 0, Finite 0, Finite 0)) field
    /\ cliRuns w' = cliRuns w
    /\ (forall i, i ≠ out -> nodes w' !! i = nodes w !! i).
Proof.
  intros Hsrc Href Hout.
  destruct (zeroField_zero g) as (field & Hfield & Hlen & Hzero).
  exists (with_nodes (insert out (TransformNode (zeroField g))) w), field.
  split; [|split; [|split; [|split; [|split]]]].
  - unfold run.
    erewrite bind_ok; [|simpl; by rewrite Hsrc].
    simpl.
    erewrite bind_ok; [|unfold volumeGeometry; by rewrite Href].
    erewrite bind_ok; [reflexivity|].
    unfold emptyGridTransform. rewrite Hout. by destruct g.
  - simpl. rewrite lookup_insert_eq. by rewrite Hfield.
  - exact Hlen.
  - exact Hzero.
  - reflexivity.
  - intros i Hi. simpl. by rewrite lookup_insert_ne.
Qed.

Lemma run_empty_yields_identity_field_witness :
  exists (w' : World) (field : list (vec3 float)),
    run 5%positive (Some 2%positive) (Some 3%positive) (Some 4%positive) EmptyString (Finite (1 # 10))
      emptyCommitScene = (w', Ok None)
    /\ nodes w' !! 2%positive
       = Some (TransformNode
                 (GridTransform {| size := (3, 3, 3)%Z; origin := zero3;
                                   spacing := (Finite 2, Finite 2, Finite 2) |} field))
    /\ length field = 27%nat
    /\ Forall (fun d => d = (Finite 0, Finite 0, Finite 0)) field
    /\ cliRuns w' = []
    /\ (forall i, i ≠ 2%positive -> nodes w' !! i = nodes emptyCommitScene !! i).
Proof.
  exact (run_empty_yields_identity_field emptyCommitScene 5%positive 2%positive 3%positive (Some 4%positive)
           {| size := (3, 3, 3)%Z; origin := zero3;
              spacing := (Finite 2, Finite 2, Finite 2) |}
           IdentityTransform EmptyString (Finite (1 # 10))
           eq_refl eq_refl eq_refl).
Defined.

End Run.

(** ** Steps of the scene operations *)

Section SceneSteps.
Import PyFloat GridNodeHelper Scene GridNodeOps WarpDrive.
Local Open Scope string_scope.

Lemma GetNodeReference_Some (w0 : World) (role : string) (i : NodeId) (n : Node) :
  nodeReferences w0 !! role = Some i -> nodes w0 !! i = Some n ->
  GetNodeReference w0 role = Some i.
Proof.
  intros Hr Hn. unfold GetNodeReference. rewrite Hr, Hn.
  destruct (decide (is_Some (Some n))) as [|Hno]; [done|]. destruct Hno. by eexists.
Qed.

Lemma GridDefinition_eta (g0 : GridDefinition) :
  {| size := size g0; origin := origin g0; spacing := spacing g0 |} = g0.
Proof. by destruct g0. Qed.

Lemma if_modify {W} (b : bool) (f : W -> W) (w0 : W) :
  (if b then mret tt else modify f) w0 = (if b then w0 else f w0, Ok tt).
Proof. by destruct b. Qed.

(** A selected point is a point of the list, at its index. *)
Lemma selectedPoints_lookup (tpts : list ControlPoint) (k i : nat) (p : ControlPoint) :
  selectedPoints tpts !! k = Some (i, p) -> tpts !! i = Some p /\ selected p = true.
Proof.
  intros Hk. apply list_elem_of_lookup_2 in Hk. apply list_elem_of_In in Hk.
  unfold selectedPoints in Hk. apply filter_In in Hk as [Hin Hsel].
  apply list_elem_of_In in Hin. apply elem_of_lookup_imap in Hin as (j & y & [= -> ->] & Hj).
  by split.
Qed.

(** When every index of the target list is an index of the source
    list, each selected point has a source position. *)
Lemma selected_in_range (spts tpts : list ControlPoint) :
  (length tpts <= length spts)%nat ->
  Forall (fun ip => is_Some (nthPosition spts (fst ip))) (selectedPoints tpts).
Proof.
  intros Hlen. apply Forall_lookup. intros k [i p] Hk. simpl.
  destruct (selectedPoints_lookup tpts k i p Hk) as [Hi _].
  apply lookup_lt_Some in Hi. unfold nthPosition.
  destruct (lookup_lt_is_Some_2 spts i) as [q Hq]; [lia|]. rewrite Hq. by eexists.
Qed.

Lemma insertPoints_map {A} (f : A -> option (vec3 float)) (l : list A) :
  Forall (fun a => is_Some (f a)) l -> insertPoints (map f l) = Ok (omap f l).
Proof.
  induction l as [|a l IH]; intros Hall; [done|].
  apply Forall_cons in Hall as [[v Hv] Hall].
  cbn [map insertPoints omap list_omap]. rewrite Hv. by rewrite (IH Hall).
Qed.

Lemma omap_lookup {A B} (f : A -> option B) (l : list A) (k : nat) (a : A) (b : B) :
  Forall (fun a => is_Some (f a)) l ->
  l !! k = Some a -> f a = Some b -> omap f l !! k = Some b.
Proof.
  revert k. induction l as [|x l IH]; intros k Hall Hk Hb; [done|].
  apply Forall_cons in Hall as [[v Hv] Hall].
  cbn [omap list_omap]. rewrite Hv.
  destruct k as [|k]; simpl in *.
  - injection Hk as ->. congruence.
  - by apply IH.
Qed.

Lemma length_omap {A B} (f : A -> option B) (l : list A) :
  Forall (fun a => is_Some (f a)) l -> length (omap f l) = length l.
Proof.
  induction l as [|x l IH]; intros Hall; [done|].
  apply Forall_cons in Hall as [[v Hv] Hall].
  cbn [omap list_omap]. rewrite Hv. simpl. by rewrite IH.
Qed.

(** The preview adds the display fiducial, then the spline transform. *)
Lemma previewWarp_adds (w0 : World) (src tgt : NodeId) (spts tpts : list ControlPoint) :
  nodes w0 !! src = Some (MarkupsFiducialNode spts) ->
  nodes w0 !! tgt = Some (MarkupsFiducialNode tpts) ->
  (length tpts <= length spts)%nat ->
  let sourcePoints := omap (fun ip => nthPosition spts (fst ip)) (selectedPoints tpts) in
  let targetPoints := map (fun ip => position (snd ip)) (selectedPoints tpts) in
  let display := next_id w0 in
  let preview := Pos.succ display in
  previewWarp (Some src) (Some tgt) w0
  = (with_next_id (Pos.succ preview)
       (with_nodes
          (fun m =>
             <[preview := TransformNode (ThinPlateSplineTransform sourcePoints targetPoints true)]>
               (<[display := MarkupsFiducialNode
                               (map (fun p => {| position := p; selected := true;
                                                 description := EmptyString |}) sourcePoints)]> m))
          w0),
     Ok (preview, display)).
Proof.
  intros Hsrc Htgt Hlen. simpl. unfold previewWarp.
  erewrite bind_ok; [|simpl; by rewrite Htgt].
  pose proof (insertPoints_map (fun ip => nthPosition spts (fst ip)) (selectedPoints tpts)
                (selected_in_range spts tpts Hlen)) as Hins.
  destruct (selectedPoints tpts) as [|ip sel] eqn:Esel.
  - erewrite bind_ok; [|reflexivity].
    erewrite bind_ok; [|reflexivity]. reflexivity.
  - erewrite bind_ok; [|simpl; by rewrite Hsrc].
    erewrite bind_ok; [|unfold lift; by rewrite Hins]. reflexivity.
Qed.

(** With control points in the source fiducial, [run] launches the
    solver once and returns its node. *)
Lemma run_launches (w0 : World) (referenceVolume out src tgt : NodeId)
    (spts : list ControlPoint) (radius : string) (stiff : float) :
  nodes w0 !! src = Some (MarkupsFiducialNode spts) ->
  spts ≠ [] ->
  let cli := next_id w0 in
  let cliParams :=
    {| Scene.referenceVolume := referenceVolume;
       fixedFiducials := tgt;
       movingFiducials := src;
       outputDisplacementField := out;
       Scene.RBFRadius := radius;
       Scene.stiffness := stiff |} in
  run referenceVolume (Some out) (Some src) (Some tgt) radius stiff w0
  = (with_cliRuns (fun l => (l ++ [(cli, cliParams)])%list)
       (with_next_id (Pos.succ cli)
          (with_nodes (insert cli (CommandLineModuleNode cliParams "Scheduled")) w0)),
     Ok (Some cli)).
Proof.
  intros Hsrc Hne. simpl. unfold run.
  erewrite bind_ok; [|simpl; by rewrite Hsrc].
  destruct spts as [|p spts']; [done|]. reflexivity.
Qed.

End SceneSteps.

(** ** Saving the current scene *)

Section Saving.
Import PyStr Scene LeadDBSCallScene SceneFrame.
Local Open Scope string_scope.

Lemma sameScene_refl (w : World) : sameScene w w.
Proof. by destruct w. Qed.

Lemma sameScene_trans (w1 w2 w3 : World) :
  sameScene w1 w2 -> sameScene w2 w3 -> sameScene w1 w3.
Proof.
  unfold sameScene. intros H12 H23. rewrite H23 at 1. rewrite H12 at 1. reflexivity.
Qed.

Lemma frames_ret {A} (a : A) : frames (mret a).
Proof. intros w. apply sameScene_refl. Qed.

Lemma frames_bind {A B} (m : M World A) (k : A -> M World B) :
  frames m -> (forall a, frames (k a)) -> frames (m ≫= k).
Proof.
  intros Hm Hk w. specialize (Hm w). unfold mbind, M_bind.
  destruct (m w) as [w' [a|e]]; simpl in *; [|exact Hm].
  eapply sameScene_trans; [exact Hm|apply Hk].
Qed.

Lemma frames_gets {A} (f : World -> A) : frames (gets f).
Proof. intros w. apply sameScene_refl. Qed.

Lemma frames_liftOS {A} (m : M OS.World A) : frames (liftOS m).
Proof. intros w. unfold liftOS. destruct (m (os w)) as [o r]. by destruct w. Qed.

Lemma frames_SetURL (url : string) : frames (SetURL url).
Proof. intros w. by destruct w. Qed.

Lemma frames_uuid4_hex : frames uuid4_hex.
Proof. intros w. by destruct w. Qed.

Lemma frames_for_each {A} (l : list A) (body : A -> M World unit) :
  (forall x, frames (body x)) -> frames (for_each l body).
Proof.
  intros Hbody. induction l as [|x l IH]; [apply frames_ret|].
  apply frames_bind; [apply Hbody|intros _; exact IH].
Qed.

(** Saving the scene touches the files, the URL and the names drawn,
    and nothing else of the scene. *)
Lemma frames_saveCurrentScene (subjectPath : string) : frames (saveCurrentScene subjectPath).
Proof.
  unfold saveCurrentScene.
  apply frames_bind; [apply frames_gets|intros w0].
  apply frames_bind; [apply frames_gets|intros present].
  apply frames_bind; [destruct present; [apply frames_liftOS|apply frames_ret]|intros _].
  apply frames_bind; [apply frames_liftOS|intros _].
  apply frames_bind; [apply frames_liftOS|intros _].
  apply frames_bind; [apply frames_SetURL|intros _].
  apply frames_bind.
  - apply frames_for_each. intros te.
    apply frames_bind; [apply frames_gets|intros l].
    apply frames_for_each. intros node.
    apply frames_bind; [apply frames_gets|intros names].
    destruct (bool_decide _); [|apply frames_ret].
    apply frames_bind; [apply frames_uuid4_hex|intros hex].
    apply frames_bind; [apply frames_liftOS|intros _; apply frames_ret].
  - intros _. apply frames_bind; [|intros _; apply frames_ret].
    apply frames_bind; [apply frames_gets|intros url; apply frames_liftOS].
Qed.

End Saving.

(** ** The commit with correspondence points *)

Section Commit.
Import PyFloat GridNodeHelper Scene GridNodeOps LeadDBSCallScene SceneFrame WarpDrive.
Local Open Scope string_scope.

Variable py_float : string -> result float.
Variables (w : World) (inp out src tgt : NodeId).
Variables (ninp nout : Node) (spts tpts : list ControlPoint).
Variables (g g' : GridDefinition) (u k : float).

(** Identifiers handed out so far are below the next one. *)
Hypothesis scene_fresh : forall i n, nodes w !! i = Some n -> (i < next_id w)%positive.
Hypothesis ref_input : nodeReferences w !! "InputNode" = Some inp.
Hypothesis ref_output : nodeReferences w !! "OutputGridTransform" = Some out.
Hypothesis ref_source : nodeReferences w !! "SourceFiducial" = Some src.
Hypothesis ref_target : nodeReferences w !! "TargetFiducial" = Some tgt.
Hypothesis node_input : nodes w !! inp = Some ninp.
Hypothesis node_output : nodes w !! out = Some nout.
Hypothesis node_source : nodes w !! src = Some (MarkupsFiducialNode spts).
Hypothesis node_target : nodes w !! tgt = Some (MarkupsFiducialNode tpts).
Hypothesis grid_input : getGridDefinition (Some inp) w = (w, Ok g).
Hypothesis spacing_ok : py_float (GetParameter (parameters w) "Spacing") = Ok u.
Hypothesis grid_ok : resolveGrid g u = Ok g'.
Hypothesis stiffness_ok : py_float (GetParameter (parameters w) "Stiffness") = Ok k.
Hypothesis source_nonempty : spts ≠ [].
(** Every index of the target fiducial is an index of the source
    fiducial. *)
Hypothesis points_paired : (length tpts <= length spts)%nat.
(** No subject is set, or the saving of the current scene succeeds. *)
Hypothesis scene_saved :
  GetParameter (parameters w) "subjectPath" = EmptyString
  \/ snd (saveCurrentScene (GetParameter (parameters w) "subjectPath")
            (CommitState.withAux w g')) = Ok tt.

Local Abbreviation committed := (CommitState.committed w inp out src tgt spts tpts g' k).
Local Abbreviation cliParams := (CommitState.cliParams w out src tgt tpts k).
Local Abbreviation aux := (CommitState.aux w).
Local Abbreviation display := (CommitState.display w).
Local Abbreviation preview := (CommitState.preview w).
Local Abbreviation cli := (CommitState.cli w).
Local Abbreviation withAux := (CommitState.withAux w g').
Local Abbreviation saved := (CommitState.saved w g').

(** The step of the commit that saves the scene. *)
Lemma save_step :
  (if String.eqb (GetParameter (parameters w) "subjectPath") EmptyString then mret tt
   else saveCurrentScene (GetParameter (parameters w) "subjectPath")) withAux
  = (with_os (fun _ => os saved) (with_drawn (drawn saved) (with_sceneURL (sceneURL saved) withAux)),
     Ok tt).
Proof.
  unfold CommitState.saved.
  destruct (String.eqb_spec (GetParameter (parameters w) "subjectPath") EmptyString) as [He|Hne].
  - unfold mret, M_ret. f_equal.
  - destruct scene_saved as [He|Hok]; [done|].
    pose proof (frames_saveCurrentScene (GetParameter (parameters w) "subjectPath") withAux)
      as Hframe.
    destruct (saveCurrentScene (GetParameter (parameters w) "subjectPath") withAux)
      as [ws r] eqn:E.
    simpl in Hok, Hframe. subst r. simpl. f_equal. exact Hframe.
Qed.

Lemma onCalculateButton_commits :
  onCalculateButton py_float w = (committed, Ok tt).
Proof.
  pose proof (scene_fresh _ _ node_input) as Finp.
  pose proof (scene_fresh _ _ node_output) as Fout.
  pose proof (scene_fresh _ _ node_source) as Fsrc.
  pose proof (scene_fresh _ _ node_target) as Ftgt.
  unfold onCalculateButton.
  erewrite bind_ok; [|unfold gets; by erewrite GetNodeReference_Some].
  erewrite bind_ok; [|unfold gets; by erewrite GetNodeReference_Some].
  erewrite bind_ok; [|unfold gets; by erewrite GetNodeReference_Some].
  erewrite bind_ok; [|exact grid_input].
  erewrite bind_ok; [|by rewrite spacing_ok].
  erewrite bind_ok; [|unfold lift; by rewrite grid_ok].
  erewrite bind_ok; [|reflexivity].
  erewrite bind_ok;
    [|unfold gets; erewrite GetNodeReference_Some;
      [reflexivity | exact ref_output | simpl; rewrite lookup_insert_ne by lia; exact node_output]].
  erewrite bind_ok; [|simpl; rewrite lookup_insert_ne by lia; by rewrite node_target].
  erewrite bind_ok; [|simpl; by rewrite stiffness_ok].
  erewrite bind_ok; [|reflexivity].
  erewrite bind_ok; [|rewrite GridDefinition_eta; exact save_step].
  unfold CommitState.withAux, CommitState.aux.
  erewrite bind_ok;
    [|unfold gets; erewrite GetNodeReference_Some;
      [reflexivity
      | exact ref_input
      | simpl; rewrite lookup_insert_ne by lia; exact node_input]].
  erewrite bind_ok; [|reflexivity].
  erewrite bind_ok;
    [|apply (previewWarp_adds _ src tgt spts tpts); [| |exact points_paired];
      simpl; rewrite lookup_insert_ne by lia; assumption].
  lazy beta iota.
  erewrite bind_ok; [|reflexivity].
  erewrite bind_ok;
    [|apply (run_launches _ _ out src tgt spts); [|exact source_nonempty];
      simpl; rewrite !lookup_insert_ne by lia; assumption].
  lazy beta iota.
  erewrite bind_ok; [|reflexivity].
  unfold CommitState.committed, CommitState.cliParams, CommitState.sourcePoints,
    CommitState.targetPoints, CommitState.cli, CommitState.preview, CommitState.display,
    CommitState.aux, joinRadius.
  reflexivity.
Qed.

(** C8.  A commit whose source fiducial holds control points launches
    the solver exactly once; the radius parameter of that launch is the
    comma-joined list of the descriptions of the selected control points
    of the target fiducial, in order, and of no other point. *)
Theorem onCalculateButton_launches_one_solver :
  exists (w' : World) (c : NodeId) (p : CliParams),
    onCalculateButton py_float w = (w', Ok tt)
    /\ cliRuns w' = (cliRuns w ++ [(c, p)])%list
    /\ nodes w' !! c = Some (CommandLineModuleNode p "Scheduled")
    /\ RBFRadius p = PyStr.join "," (map description (List.filter selected tpts))
    /\ fixedFiducials p = tgt
    /\ movingFiducials p = src
    /\ outputDisplacementField p = out
    /\ stiffness p = k.
Proof.
  exists committed, cli, cliParams.
  split; [exact onCalculateButton_commits|].
  split; [reflexivity|].
  split; [unfold CommitState.committed; simpl; by rewrite lookup_insert_eq|].
  repeat split.
Qed.

(** C3, as the code has it.  When the solver of a commit reports a
    status other than [Completed], the handler returns at once.  The
    preview nodes and the auxiliary volume stay in the scene, the input
    node stays without an observed transform, as the start of the commit
    left it, and [Running] stays [true].  The fiducials and the output
    node are as they were before the commit. *)
Theorem onStatusModifiedEvent_ignores_failure (status : string) :
  status ≠ "Completed" ->
  exists (w1 w2 : World) (c a v1 v2 : NodeId) (p : CliParams),
    onCalculateButton py_float w = (w1, Ok tt)
    /\ observers w1 !! c
       = Some {| obs_outputNode := Some out;
                 obs_visualizationNodes := [v1; v2];
                 obs_auxVolumeNode := a |}
    /\ StatusModifiedEvent c status w1 = (w2, Ok tt)
    /\ w2 = with_nodes (insert c (CommandLineModuleNode p status)) w1
    /\ is_Some (nodes w2 !! a)
    /\ is_Some (nodes w2 !! v1)
    /\ is_Some (nodes w2 !! v2)
    /\ transformNodeID w2 !! inp = None
    /\ GetParameter (parameters w2) "Running" = "true"
    /\ nodes w2 !! src = Some (MarkupsFiducialNode spts)
    /\ nodes w2 !! tgt = Some (MarkupsFiducialNode tpts)
    /\ nodes w2 !! out = Some nout.
Proof.
  intros Hstatus.
  pose proof (scene_fresh _ _ node_output) as Fout.
  pose proof (scene_fresh _ _ node_source) as Fsrc.
  pose proof (scene_fresh _ _ node_target) as Ftgt.
  assert (Hneq : String.eqb status "Completed" = false).
  { destruct (String.eqb_spec status "Completed"); congruence. }
  exists committed, (with_nodes (insert cli (CommandLineModuleNode cliParams status)) committed),
    cli, aux, preview, display, cliParams.
  split; [exact onCalculateButton_commits|].
  split; [unfold CommitState.committed; simpl; by rewrite lookup_insert_eq|].
  split.
  { unfold StatusModifiedEvent.
    erewrite bind_ok; [|reflexivity].
    replace (nodes committed !! cli) with (Some (CommandLineModuleNode cliParams "Scheduled"))
      by (unfold CommitState.committed; simpl; by rewrite lookup_insert_eq).
    erewrite bind_ok; [|reflexivity].
    replace (observers committed !! cli)
      with (Some {| obs_outputNode := Some out;
                    obs_visualizationNodes := [preview; display];
                    obs_auxVolumeNode := aux |})
      by (unfold CommitState.committed; simpl; by rewrite lookup_insert_eq).
    unfold onStatusModifiedEvent.
    erewrite bind_ok; [|reflexivity].
    replace (nodes (with_nodes (insert cli (CommandLineModuleNode cliParams status)) committed) !! cli)
      with (Some (CommandLineModuleNode cliParams status))
      by (unfold CommitState.committed; simpl; by rewrite lookup_insert_eq).
    rewrite Hneq. reflexivity. }
  split; [reflexivity|].
  unfold CommitState.committed, CommitState.cli, CommitState.preview, CommitState.display,
    CommitState.aux in *.
  repeat split; simpl.
  - rewrite !lookup_insert_ne by lia. rewrite lookup_insert_eq. by eexists.
  - rewrite !lookup_insert_ne by lia. rewrite lookup_insert_eq. by eexists.
  - rewrite !lookup_insert_ne by lia. rewrite lookup_insert_eq. by eexists.
  - by rewrite lookup_delete_eq.
  - unfold GetParameter. by rewrite lookup_insert_eq.
  - rewrite !lookup_insert_ne by lia. exact node_source.
  - rewrite !lookup_insert_ne by lia. exact node_target.
  - rewrite !lookup_insert_ne by lia. exact node_output.
Qed.

End Commit.

Section CommitExamples.
Import PyFloat GridNodeHelper Scene GridNodeOps WarpDrive PyFloatParse Examples.
Local Open Scope string_scope.

Lemma sceneWith_fresh (pts : list ControlPoint) (i : NodeId) (n : Node) :
  nodes (sceneWith pts) !! i = Some n -> (i < next_id (sceneWith pts))%positive.
Proof.
  simpl. intros H.
  repeat (apply lookup_insert_Some in H as [[<- _]|[_ H]]; [lia|]).
  apply lookup_singleton_Some in H as [<- _]. lia.
Qed.

Lemma onCalculateButton_launches_one_solver_witness :
  exists (w' : World) (c : NodeId) (p : CliParams),
    onCalculateButton float_of_decimal subjectScene = (w', Ok tt)
    /\ cliRuns w' = [(c, p)]
    /\ nodes w' !! c = Some (CommandLineModuleNode p "Scheduled")
    /\ RBFRadius p = "30,25,10"
    /\ fixedFiducials p = 4%positive
    /\ movingFiducials p = 3%positive
    /\ outputDisplacementField p = 2%positive
    /\ stiffness p = Finite tenth.
Proof.
  exact (onCalculateButton_launches_one_solver float_of_decimal subjectScene
           1%positive 2%positive 3%positive 4%positive
           (TransformNode (GridTransform grid7 [])) (TransformNode IdentityTransform)
           fourPoints fourPoints grid7
           {| size := (3, 3, 3)%Z; origin := zero3; spacing := (Finite 2, Finite 2, Finite 2) |}
           (Finite 2) (Finite tenth)
           (sceneWith_fresh fourPoints)
           eq_refl eq_refl eq_refl eq_refl eq_refl eq_refl eq_refl eq_refl
           eq_refl eq_refl eq_refl eq_refl
           ltac:(discriminate) (le_n 4)
           (or_intror eq_refl)).
Defined.

Lemma onStatusModifiedEvent_ignores_failure_witness :
  exists (w1 w2 : World) (c a v1 v2 : NodeId) (p : CliParams),
    onCalculateButton float_of_decimal commitScene = (w1, Ok tt)
    /\ observers w1 !! c
       = Some {| obs_outputNode := Some 2%positive;
                 obs_visualizationNodes := [v1; v2];
                 obs_auxVolumeNode := a |}
    /\ StatusModifiedEvent c "Cancelled" w1 = (w2, Ok tt)
    /\ w2 = with_nodes (insert c (CommandLineModuleNode p "Cancelled")) w1
    /\ is_Some (nodes w2 !! a)
    /\ is_Some (nodes w2 !! v1)
    /\ is_Some (nodes w2 !! v2)
    /\ transformNodeID w2 !! 1%positive = None
    /\ GetParameter (parameters w2) "Running" = "true"
    /\ nodes w2 !! 3%positive = Some (MarkupsFiducialNode fourPoints)
    /\ nodes w2 !! 4%positive = Some (MarkupsFiducialNode fourPoints)
    /\ nodes w2 !! 2%positive = Some (TransformNode IdentityTransform).
Proof.
  exact (onStatusModifiedEvent_ignores_failure float_of_decimal commitScene
           1%positive 2%positive 3%positive 4%positive
           (TransformNode (GridTransform grid7 [])) (TransformNode IdentityTransform)
           fourPoints fourPoints grid7
           {| size := (3, 3, 3)%Z; origin := zero3; spacing := (Finite 2, Finite 2, Finite 2) |}
           (Finite 2) (Finite tenth)
           (sceneWith_fresh fourPoints)
           eq_refl eq_refl eq_refl eq_refl eq_refl eq_refl eq_refl eq_refl
           eq_refl eq_refl eq_refl eq_refl
           ltac:(discriminate) (le_n 4) (or_introl eq_refl) "Cancelled" ltac:(discriminate)).
Defined.

(** C3, counterexample.  In a scene whose input node observes the
    output transform, a commit is made and its solver then reports
    [Completed with errors].  Afterwards the auxiliary volume (node 5)
    and the two preview nodes (6 and 7) are still in the scene, and the
    input node observes no transform any more. *)
Lemma failed_solver_leaves_artifacts_and_detached_input :
  let w1 := fst (onCalculateButton float_of_decimal commitScene) in
  let w2 := fst (StatusModifiedEvent 8%positive "Completed with errors" w1) in
  snd (onCalculateButton float_of_decimal commitScene) = Ok tt
  /\ snd (StatusModifiedEvent 8%positive "Completed with errors" w1) = Ok tt
  /\ observers w1 !! 8%positive
     = Some {| obs_outputNode := Some 2%positive;
               obs_visualizationNodes := [7%positive; 6%positive];
               obs_auxVolumeNode := 5%positive |}
  /\ transformNodeID commitScene !! 1%positive = Some 2%positive
  /\ transformNodeID w2 !! 1%positive = None
  /\ transformNodeID w2 !! 1%positive ≠ transformNodeID commitScene !! 1%positive
  /\ is_Some (nodes w2 !! 5%positive)
  /\ is_Some (nodes w2 !! 6%positive)
  /\ is_Some (nodes w2 !! 7%positive)
  /\ GetParameter (parameters w2) "Running" = "true".
Proof.
  vm_compute. repeat split; try (by eexists). discriminate.
Qed.

(** When the solver reports [Completed], the output transform is
    attached again, the three auxiliary nodes leave the scene, the
    removal of the CLI node is scheduled and [Running] is [false]. *)
Example completed_solver_applies :
  let w1 := fst (onCalculateButton float_of_decimal commitScene) in
  let w2 := fst (StatusModifiedEvent 8%positive "Completed" w1) in
  snd (StatusModifiedEvent 8%positive "Completed" w1) = Ok tt
  /\ transformNodeID w2 !! 1%positive = Some 2%positive
  /\ nodes w2 !! 5%positive = None
  /\ nodes w2 !! 6%positive = None
  /\ nodes w2 !! 7%positive = None
  /\ removalTimers w2 = [8%positive]
  /\ GetParameter (parameters w2) "Running" = "false".
Proof. vm_compute. repeat split. Qed.

(** A commit without correspondence points finishes within the call:
    no solver is launched, the output node holds the zero field over the
    resolved grid of 3 x 3 x 3 voxels, the output transform is attached
    again and the auxiliary nodes are gone. *)
Example empty_commit_finishes :
  let w1 := fst (onCalculateButton float_of_decimal (sceneWith [])) in
  snd (onCalculateButton float_of_decimal (sceneWith [])) = Ok tt
  /\ cliRuns w1 = []
  /\ nodes w1 !! 2%positive
     = Some (TransformNode
               (zeroField {| size := (3, 3, 3)%Z; origin := zero3;
                             spacing := (Finite 2, Finite 2, Finite 2) |}))
  /\ transformNodeID w1 !! 1%positive = Some 2%positive
  /\ nodes w1 !! 5%positive = None
  /\ nodes w1 !! 6%positive = None
  /\ nodes w1 !! 7%positive = None
  /\ GetParameter (parameters w1) "Running" = "false".
Proof. vm_compute. repeat split. Qed.

(** In a session on a subject the commit first saves the scene: the
    directory [warpdrive] of the subject holds the two corrections under
    fresh names and the scene file, and the solver is launched. *)
Example commit_saves_corrections :
  let w1 := fst (onCalculateButton float_of_decimal subjectScene) in
  snd (onCalculateButton float_of_decimal subjectScene) = Ok tt
  /\ OS.isdir (os w1) "/data/sub-01/warpdrive/Data" = true
  /\ OS.isfile (os w1) "/data/sub-01/warpdrive/Data/c0ffee0.fcsv" = true
  /\ OS.isfile (os w1) "/data/sub-01/warpdrive/Data/c0ffee1.fcsv" = true
  /\ OS.isfile (os w1) "/data/sub-01/warpdrive/WarpDriveScene.mrml" = true
  /\ sceneURL w1 = "/data/sub-01/warpdrive/WarpDriveScene.mrml"
  /\ length (cliRuns w1) = 1%nat.
Proof. cbv zeta. repeat (split; [vm_compute; reflexivity|]). vm_compute. reflexivity. Qed.

(** When the directory of the subject is missing the saving raises,
    and the commit stops there: the auxiliary volume (node 5) is in the
    scene, the input node still observes its transform and no solver is
    launched. *)
Example commit_without_subject_directory :
  let w1 := fst (onCalculateButton float_of_decimal lostSubjectScene) in
  snd (onCalculateButton float_of_decimal lostSubjectScene) = Raise FileNotFoundError
  /\ is_Some (nodes w1 !! 5%positive)
  /\ transformNodeID w1 !! 1%positive = Some 2%positive
  /\ cliRuns w1 = [].
Proof.
  cbv zeta. split; [vm_compute; reflexivity|]. split; [vm_compute; by eexists|].
  split; vm_compute; reflexivity.
Qed.

End CommitExamples.

(** ** Strings and paths *)

Section Strings.
Import PyStr.
Local Open Scope string_scope.

Lemma append_nil (b : string) : EmptyString +:+ b = b.
Proof. reflexivity. Qed.

Lemma append_cons (x : ascii) (a b : string) : String x a +:+ b = String x (a +:+ b).
Proof. reflexivity. Qed.

Lemma append_assoc (a b c : string) : (a +:+ b) +:+ c = a +:+ (b +:+ c).
Proof. induction a as [|x a IH]; [done|]. rewrite !append_cons. by rewrite IH. Qed.

Lemma append_nonempty_r (a b : string) : b ≠ EmptyString -> a +:+ b ≠ EmptyString.
Proof. destruct a; [done|]. rewrite append_cons. discriminate. Qed.

Lemma length_append (a b : string) :
  String.length (a +:+ b) = (String.length a + String.length b)%nat.
Proof. induction a as [|x a IH]; [done|]. rewrite append_cons. simpl. by rewrite IH. Qed.

Lemma eqb_length (a b : string) : String.eqb a b = true -> String.length a = String.length b.
Proof. intros H. apply String.eqb_eq in H. by subst. Qed.

Lemma endswith_cons (x : ascii) (s p : string) :
  endswith (String x s) p = String.eqb (String x s) p || endswith s p.
Proof. reflexivity. Qed.

(** A suffix no longer than [b] is a suffix of [a +:+ b] exactly when
    it is one of [b]. *)
Lemma endswith_append (a b p : string) :
  (String.length p <= String.length b)%nat -> endswith (a +:+ b) p = endswith b p.
Proof.
  intros Hlen. induction a as [|x a IH]; [done|].
  rewrite append_cons, endswith_cons, IH.
  destruct (String.eqb (String x (a +:+ b)) p) eqn:E; [|reflexivity].
  apply eqb_length in E. simpl in E. rewrite length_append in E. lia.
Qed.

Lemma startswith_nil (s : string) : startswith s EmptyString = true.
Proof. by destruct s. Qed.

Lemma startswith_append (a b p : string) :
  (String.length p <= String.length a)%nat -> startswith (a +:+ b) p = startswith a p.
Proof.
  revert p. induction a as [|x a IH]; intros p Hlen.
  - destruct p; [by rewrite !startswith_nil|]. simpl in Hlen. lia.
  - destruct p as [|y p]; [by rewrite !startswith_nil|].
    rewrite append_cons. simpl. simpl in Hlen.
    destruct (Ascii.eqb y x); [|done]. apply IH. lia.
Qed.

Lemma substring_at_end (s : string) (m : nat) : String.substring (String.length s) m s = EmptyString.
Proof. induction s as [|x s IH]; simpl; [by destruct m|]. exact IH. Qed.

Lemma nonempty_length (s : string) : s ≠ EmptyString -> (1 <= String.length s)%nat.
Proof. destruct s; simpl; [done|]. lia. Qed.

(** Joining a name that is not absolute onto a directory that does not
    end in a separator puts one separator in between. *)
Lemma path_join_relative (s n : string) :
  s ≠ EmptyString -> endswith s "/" = false -> startswith n "/" = false ->
  path_join s n = s +:+ "/" +:+ n.
Proof.
  intros Hs He Hn. unfold path_join. rewrite Hn, He.
  destruct (String.eqb_spec s EmptyString); [done|]. reflexivity.
Qed.

Lemma rsplit_sep_append (s n : string) :
  rsplit_sep n = (EmptyString, n) -> rsplit_sep (s +:+ "/" +:+ n) = (s +:+ "/", n).
Proof.
  intros Hn. induction s as [|x s IH].
  - rewrite append_nil, append_cons, append_nil. simpl. by rewrite Hn.
  - rewrite append_cons. simpl. rewrite IH. by destruct s.
Qed.

Lemma rstrip_sep_append_sep (s : string) : rstrip_sep (s +:+ "/") = rstrip_sep s.
Proof. induction s as [|x s IH]; [done|]. rewrite append_cons. simpl. by rewrite IH. Qed.

Lemma rstrip_sep_id (s : string) : endswith s "/" = false -> rstrip_sep s = s.
Proof.
  induction s as [|x s IH]; [done|]. intros H. rewrite endswith_cons in H.
  apply orb_false_elim in H as [Hx Hs]. simpl.
  destruct s as [|y s].
  - simpl. destruct (Ascii.eqb_spec x sep) as [->|]; [discriminate Hx|done].
  - rewrite (IH Hs). reflexivity.
Qed.

(** The directory of a file joined under [s] is [s] again. *)
Lemma dirname_join (s n : string) :
  s ≠ EmptyString -> endswith s "/" = false -> rsplit_sep n = (EmptyString, n) ->
  dirname (s +:+ "/" +:+ n) = s.
Proof.
  intros Hs He Hn. unfold dirname, path_split.
  rewrite (rsplit_sep_append s n Hn), rstrip_sep_append_sep, (rstrip_sep_id s He).
  by destruct s.
Qed.

(** Entering [s] and naming [n] there, or naming [s/n] from outside,
    is the same path. *)
Lemma path_join_enter (c s n : string) :
  s ≠ EmptyString -> endswith s "/" = false -> startswith n "/" = false ->
  path_join (path_join c s) n = path_join c (s +:+ "/" +:+ n).
Proof.
  intros Hs He Hn.
  pose proof (nonempty_length s Hs) as Hlen.
  assert (Hstart : startswith (s +:+ "/" +:+ n) "/" = startswith s "/")
    by (apply startswith_append; simpl; lia).
  unfold path_join at 2 3. rewrite Hstart.
  destruct (startswith s "/") eqn:Es.
  - by apply path_join_relative.
  - destruct (String.eqb c EmptyString || endswith c "/").
    + rewrite path_join_relative; [by rewrite append_assoc| by apply append_nonempty_r | | done].
      rewrite endswith_append by (simpl; lia). exact He.
    + rewrite path_join_relative; [by rewrite !append_assoc | | | done].
      * apply append_nonempty_r. by apply append_nonempty_r.
      * rewrite endswith_append by (rewrite length_append; simpl; lia).
        rewrite endswith_append by (simpl; lia). exact He.
Qed.

End Strings.

(** ** Subject layout *)

Section Layout.
Import PyStr OS LeadDBSCall SubjectExamples.
Local Open Scope string_scope.

(** C7.  The layout kind is BIDS when the subject directory holds a
    directory [preprocessing] and Legacy otherwise.  It is fixed when
    the manager is built: the manager is a value that depends on the
    file system through that one test only, and its path methods take
    no file system. *)
Theorem layoutKind_from_preprocessing (w : World) (subjectPath : string) :
  (isdir w (path_joins subjectPath ["preprocessing"]) = true ->
   layoutKind (LeadFileManager_init w subjectPath) = BIDS)
  /\ (isdir w (path_joins subjectPath ["preprocessing"]) = false ->
      layoutKind (LeadFileManager_init w subjectPath) = Legacy)
  /\ (forall w' : World,
        isdir w' (path_joins subjectPath ["preprocessing"])
        = isdir w (path_joins subjectPath ["preprocessing"]) ->
        LeadFileManager_init w' subjectPath = LeadFileManager_init w subjectPath).
Proof.
  unfold layoutKind, LeadFileManager_init. simpl.
  split; [|split].
  - by intros ->.
  - by intros ->.
  - by intros w' ->.
Qed.

Lemma layoutKind_from_preprocessing_witness :
  layoutKind (LeadFileManager_init bidsSubject "/data/sub-01") = BIDS
  /\ layoutKind (LeadFileManager_init legacySubject "patient1") = Legacy
  /\ LeadFileManager_init (with_cwd "/data" bidsSubject) "/data/sub-01"
     = LeadFileManager_init bidsSubject "/data/sub-01".
Proof.
  split; [|split].
  - exact (proj1 (layoutKind_from_preprocessing bidsSubject "/data/sub-01") eq_refl).
  - exact (proj1 (proj2 (layoutKind_from_preprocessing legacySubject "patient1")) eq_refl).
  - exact (proj2 (proj2 (layoutKind_from_preprocessing bidsSubject "/data/sub-01"))
             (with_cwd "/data" bidsSubject) eq_refl).
Defined.

End Layout.

(** ** Approval *)

Section Approval.
Import PyStr OS Json LeadDBSCall SubjectExamples.
Local Open Scope string_scope.

(** A stream opened for appending starts at the end of the file, so
    reading it yields the empty text, which is not a JSON document. *)
Lemma saveApprovedDataJSON_raises (w : World) (p : string) (d : FileData) :
  files w !! abspath w p = Some d ->
  saveApprovedDataJSON p w = (w, Raise JSONDecodeError).
Proof.
  intros Hfile. unfold saveApprovedDataJSON.
  erewrite bind_ok; [|unfold open_append_plus; by rewrite Hfile].
  erewrite bind_ok; [|unfold read, content; simpl; by rewrite Hfile].
  rewrite substring_at_end.
  erewrite bind_raise; [reflexivity|]. reflexivity.
Qed.

Lemma endswith_path_join (a b p : string) :
  (String.length p <= String.length b)%nat ->
  endswith b p = true -> endswith (path_join a b) p = true.
Proof.
  intros Hlen Hb. unfold path_join.
  destruct (startswith b "/"); [exact Hb|].
  destruct (_ || _).
  - by rewrite endswith_append.
  - rewrite endswith_append by (rewrite length_append; lia).
    by rewrite endswith_append.
Qed.

Lemma getNormalizationMethod_json (w : World) (s : string) :
  isdir w (path_joins s ["preprocessing"]) = true ->
  endswith (getNormalizationMethod (LeadFileManager_init w s)) "json" = true.
Proof.
  intros Hbids. unfold getNormalizationMethod.
  replace (useBIDS (LeadFileManager_init w s)) with true by (symmetry; exact Hbids).
  unfold path_joins. simpl fold_left.
  apply endswith_path_join.
  - rewrite length_append. simpl. lia.
  - rewrite endswith_append by (simpl; lia). reflexivity.
Qed.

(** C5.  For a subject in the JSON layout whose normalization-metadata
    file exists, whatever its text, [saveApprovedData] raises
    [JSONDecodeError] and leaves the file system as it was: the file is
    not rewritten and [approval] is not set. *)
Theorem saveApprovedData_json_raises (w : World) (s text : string) :
  isdir w (path_joins s ["preprocessing"]) = true ->
  files w !! abspath w (getNormalizationMethod (LeadFileManager_init w s))
  = Some (TextFile text) ->
  saveApprovedData s w = (w, Raise JSONDecodeError).
Proof.
  intros Hbids Hfile. unfold saveApprovedData.
  erewrite bind_ok; [|reflexivity].
  rewrite (getNormalizationMethod_json w s Hbids).
  by eapply saveApprovedDataJSON_raises.
Qed.

Lemma saveApprovedData_json_raises_witness :
  loads normmethodText = Ok (JObject [("approval", JInt 0); ("method", JString "ANTs")])
  /\ files bidsSubject !! normmethod = Some (TextFile normmethodText)
  /\ saveApprovedData "/data/sub-01" bidsSubject = (bidsSubject, Raise JSONDecodeError).
Proof.
  split; [reflexivity|]. split; [reflexivity|].
  exact (saveApprovedData_json_raises bidsSubject "/data/sub-01" normmethodText
           eq_refl eq_refl).
Defined.

End Approval.

Section LegacyApproval.
Import PyStr OS Json LeadDBSCall SubjectExamples.
Local Open Scope string_scope.

Lemma isfile_false (w : World) (p : string) :
  isfile w p = false -> files w !! abspath w p = None.
Proof.
  unfold isfile. intros H. apply bool_decide_eq_false in H.
  by apply eq_None_not_Some.
Qed.

Lemma isdir_true (w : World) (p : string) :
  isdir w p = true -> abspath w p ∈ dirs w.
Proof. unfold isdir. intros H. by apply bool_decide_eq_true in H. Qed.

Lemma path_join_absolute (a b : string) : startswith b "/" = true -> path_join a b = b.
Proof. intros H. unfold path_join. by rewrite H. Qed.

Lemma chdir_enters (w : World) (d : string) :
  d ≠ EmptyString -> isdir w d = true -> chdir d w = (with_cwd (abspath w d) w, Ok tt).
Proof.
  intros Hd Hdir. unfold chdir. rewrite Hdir.
  destruct (String.eqb_spec d EmptyString); [done|]. reflexivity.
Qed.

Lemma legacy_method_path (w : World) (s : string) :
  s ≠ EmptyString -> endswith s "/" = false ->
  isdir w (path_joins s ["preprocessing"]) = false ->
  getNormalizationMethod (LeadFileManager_init w s) = s +:+ "/" +:+ "ea_coreg_approved.mat".
Proof.
  intros Hs He Hlegacy. unfold getNormalizationMethod.
  replace (useBIDS (LeadFileManager_init w s)) with false by (symmetry; exact Hlegacy).
  unfold path_joins. simpl fold_left. by apply path_join_relative.
Qed.

(** C6.  For a subject in the legacy layout whose directory exists and
    holds no [ea_coreg_approved.mat], [saveApprovedData] creates that
    file as a container whose only key is [glanat], holding the
    approved value 2.  No other file changes and the working directory
    is restored. *)
Theorem saveApprovedData_legacy_creates_sentinel (w : World) (s : string) :
  s ≠ EmptyString ->
  endswith s "/" = false ->
  startswith (cwd w) "/" = true ->
  cwd w ∈ dirs w ->
  isdir w s = true ->
  isdir w (path_joins s ["preprocessing"]) = false ->
  isfile w (path_joins s ["ea_coreg_approved.mat"]) = false ->
  exists w' : World,
    saveApprovedData s w = (w', Ok tt)
    /\ files w' !! abspath w (path_joins s ["ea_coreg_approved.mat"])
       = Some (MatFile73 {[ "glanat" := Int1 [2%Z] ]})
    /\ (forall p, p ≠ abspath w (path_joins s ["ea_coreg_approved.mat"]) ->
                  files w' !! p = files w !! p)
    /\ dirs w' = dirs w
    /\ cwd w' = cwd w.
Proof.
  intros Hs He Habs Hcwd Hdir Hlegacy Hnew.
  assert (Hpath : path_joins s ["ea_coreg_approved.mat"] = s +:+ "/" +:+ "ea_coreg_approved.mat")
    by (unfold path_joins; simpl fold_left; by apply path_join_relative).
  rewrite Hpath in *.
  set (target := abspath w (s +:+ "/" +:+ "ea_coreg_approved.mat")).
  assert (Htarget : path_join (path_join (cwd w) s) "ea_coreg_approved.mat" = target)
    by (by apply path_join_enter).
  assert (Hcwd_ne : cwd w ≠ EmptyString) by (intros E; rewrite E in Habs; discriminate).
  exists (with_cwd (cwd w)
            (with_files (insert target (MatFile73 (<["glanat" := Int1 [2%Z]]> ∅)))
               (with_cwd (abspath w s) w))).
  split; [|split; [|split; [|split]]].
  - unfold saveApprovedData.
    erewrite bind_ok; [|reflexivity].
    rewrite (legacy_method_path w s Hs He Hlegacy).
    replace (endswith (s +:+ "/" +:+ "ea_coreg_approved.mat") "json") with false
      by (rewrite endswith_append by (simpl; lia); reflexivity).
    unfold saveApprovedDataLegacy.
    erewrite bind_ok; [|unfold gets; by rewrite Hnew].
    lazy beta iota.
    erewrite bind_ok; [|reflexivity].
    lazy beta iota.
    erewrite bind_ok; [|reflexivity].
    rewrite dirname_join by done.
    erewrite bind_ok; [|by apply chdir_enters].
    erewrite bind_ok.
    2:{ unfold hdf5storage_write, abspath. simpl cwd.
        rewrite Htarget. simpl files.
        replace (files w !! target) with (@None FileData)
          by (symmetry; by apply isfile_false).
        reflexivity. }
    rewrite chdir_enters; [|exact Hcwd_ne|].
    + unfold abspath. simpl cwd. by rewrite (path_join_absolute _ (cwd w) Habs).
    + unfold isdir, abspath. simpl cwd. simpl dirs.
      rewrite (path_join_absolute _ (cwd w) Habs). by apply bool_decide_eq_true.
  - simpl. rewrite lookup_insert_eq. by rewrite insert_empty.
  - intros p Hp. simpl. by rewrite lookup_insert_ne.
  - reflexivity.
  - reflexivity.
Qed.

Lemma saveApprovedData_legacy_creates_sentinel_witness :
  exists w' : World,
    saveApprovedData "patient1" legacySubject = (w', Ok tt)
    /\ files w' !! "/data/patient1/ea_coreg_approved.mat"
       = Some (MatFile73 {[ "glanat" := Int1 [2%Z] ]})
    /\ (forall p, p ≠ "/data/patient1/ea_coreg_approved.mat" ->
                  files w' !! p = files legacySubject !! p)
    /\ dirs w' = dirs legacySubject
    /\ cwd w' = "/data".
Proof.
  exact (saveApprovedData_legacy_creates_sentinel legacySubject "patient1"
           ltac:(discriminate) eq_refl eq_refl ltac:(vm_compute; set_solver)
           eq_refl eq_refl eq_refl).
Defined.

End LegacyApproval.

(** ** Migration of composite transforms *)

Section Migration.
Import PyStr OS Json LeadDBSCall SubjectExamples.
Local Open Scope string_scope.

Lemma loadTransform_quiet (w : World) (p : string) :
  commands (fst (loadTransform p w)) = commands w
  /\ files (fst (loadTransform p w)) = files w.
Proof. unfold loadTransform. by destruct (isfile w p). Qed.

(** With no file named after a warp field plus [.h5], the loop of
    [updateTranform] finds nothing to do. *)
Lemma updateTranform_idle (w : World) (s tool : string) :
  isfile w (path_joins s [getANTSForwardWarp (LeadFileManager_init w s) +:+ ".h5"]) = false ->
  isfile w (path_joins s [getANTSInverseWarp (LeadFileManager_init w s) +:+ ".h5"]) = false ->
  exists r : result bool, updateTranform s tool w = (w, r).
Proof.
  intros Hfwd Hinv. unfold updateTranform.
  erewrite bind_ok; [|reflexivity].
  lazy beta zeta.
  destruct (LeadDBSCall.first (getNormalizedImages (LeadFileManager_init w s) w))
    as [r1|e] eqn:E1.
  2:{ erewrite bind_raise; [by eexists|]. reflexivity. }
  erewrite bind_ok; [|reflexivity].
  destruct (result_bind (getCoregImages (LeadFileManager_init w s) "*" w) LeadDBSCall.first)
    as [r2|e] eqn:E2.
  2:{ erewrite bind_raise; [by eexists|]. reflexivity. }
  erewrite bind_ok; [|reflexivity].
  erewrite bind_ok; [by eexists|].
  simpl zip. unfold for_each.
  erewrite bind_ok.
  2:{ lazy beta iota. erewrite bind_ok; [|unfold gets; by rewrite Hfwd]. reflexivity. }
  erewrite bind_ok.
  2:{ lazy beta iota. erewrite bind_ok; [|unfold gets; by rewrite Hinv]. reflexivity. }
  reflexivity.
Qed.

(** C4, what the code does.  The loop of [updateTranform] looks for a
    file named after the warp field with [.h5] added, not with
    [.nii.gz] replaced by [.h5].  So unless a file of such a name
    exists, loading the subject transform hands no command to the
    resampling tool and removes no file, whether or not the [.h5]
    sibling of the forward warp is there. *)
Theorem loadSubjectTransform_skips_migration (w : World) (s tool : string) :
  isfile w (path_joins s [getANTSForwardWarp (LeadFileManager_init w s) +:+ ".h5"]) = false ->
  isfile w (path_joins s [getANTSInverseWarp (LeadFileManager_init w s) +:+ ".h5"]) = false ->
  commands (fst (loadSubjectTransform s tool w)) = commands w
  /\ files (fst (loadSubjectTransform s tool w)) = files w.
Proof.
  intros Hfwd Hinv. unfold loadSubjectTransform.
  erewrite bind_ok; [|reflexivity].
  lazy beta zeta.
  erewrite bind_ok; [|reflexivity].
  lazy beta zeta.
  destruct (isfile w (replace (getANTSForwardWarp (LeadFileManager_init w s)) ".nii.gz" ".h5")).
  - destruct (updateTranform_idle w s tool Hfwd Hinv) as [[b|e] Hupd].
    + erewrite bind_ok; [apply loadTransform_quiet|].
      erewrite bind_ok; [reflexivity|exact Hupd].
    + erewrite bind_raise; [done|].
      erewrite bind_raise; [reflexivity|exact Hupd].
  - erewrite bind_ok; [apply loadTransform_quiet|reflexivity].
Qed.

Lemma loadSubjectTransform_skips_migration_witness :
  isfile bidsSubject (forwardWarp +:+ ".h5") = true
  /\ isfile bidsSubject (inverseWarp +:+ ".h5") = true
  /\ snd (loadSubjectTransform "/data/sub-01" antsApplyTransforms bidsSubject)
     = Raise RuntimeError
  /\ commands (fst (loadSubjectTransform "/data/sub-01" antsApplyTransforms bidsSubject)) = []
  /\ files (fst (loadSubjectTransform "/data/sub-01" antsApplyTransforms bidsSubject))
     = files bidsSubject.
Proof.
  split; [reflexivity|]. split; [reflexivity|]. split; [reflexivity|].
  exact (loadSubjectTransform_skips_migration bidsSubject "/data/sub-01" antsApplyTransforms
           eq_refl eq_refl).
Defined.

(** On the legacy layout the migration stops earlier still: looking up
    the coregistered image raises [AttributeError]. *)
Lemma loadSubjectTransform_legacy_raises :
  let w := with_files (insert "/data/patient1/glanatComposite.h5" DataFile) legacySubject in
  loadSubjectTransform "patient1" antsApplyTransforms w = (w, Raise AttributeError).
Proof. reflexivity. Qed.

End Migration.

(** * Further properties of [WarpDrive.py] *)

(** ** The status handler *)

Section StatusHandler.
Import PyFloat GridNodeHelper Scene GridNodeOps WarpDrive.
Local Open Scope string_scope.

(** Removing a list of nodes deletes each of them from the scene. *)
Lemma for_each_RemoveNode (l : list NodeId) (w : World) :
  for_each l RemoveNode w
  = (with_nodes (fun m => foldl (fun m i => delete i m) m l) w, Ok tt).
Proof.
  revert w. induction l as [|i l IH]; intros w.
  - by destruct w.
  - simpl for_each. erewrite bind_ok; [|reflexivity].
    rewrite IH. by destruct w.
Qed.

Lemma lookup_foldl_delete (l : list NodeId) (m : gmap NodeId Node) (i : NodeId) :
  foldl (fun m i => delete i m) m l !! i = if decide (i ∈ l) then None else m !! i.
Proof.
  revert m. induction l as [|j l IH]; intros m; simpl.
  - destruct (decide (i ∈ [])) as [H|]; [by apply elem_of_nil in H|done].
  - rewrite IH. destruct (decide (i ∈ l)) as [Hl|Hl].
    + rewrite decide_True; [done|]. by apply elem_of_cons; right.
    + destruct (decide (i = j)) as [->|Hne].
      * rewrite lookup_delete_eq. rewrite decide_True; [done|]. by apply elem_of_cons; left.
      * rewrite lookup_delete_ne by done. rewrite decide_False; [done|].
        intros [?|?]%elem_of_cons; done.
Qed.

(** The part of the handler after the test of the caller. *)
Lemma finish_applies (w : World) (inp out aux : NodeId) (vis : list NodeId) (ninp : Node) :
  nodeReferences w !! "InputNode" = Some inp ->
  nodes w !! inp = Some ninp ->
  onStatusModifiedEvent None (Some out) vis aux w
  = (with_parameters (SetParameter "Running" "false")
       (with_nodes (delete aux)
          (with_nodes (fun m => foldl (fun m i => delete i m) m vis)
             (with_transformNodeID (insert inp out) w))),
     Ok tt).
Proof.
  intros Href Hnode. unfold onStatusModifiedEvent.
  erewrite bind_ok; [|reflexivity]. lazy beta iota zeta.
  erewrite bind_ok; [|unfold gets; by erewrite GetNodeReference_Some].
  lazy beta iota.
  erewrite bind_ok; [|reflexivity].
  erewrite bind_ok; [|reflexivity].
  erewrite bind_ok; [|apply for_each_RemoveNode].
  erewrite bind_ok; [|reflexivity].
  reflexivity.
Qed.

(** X1.  When the handler runs for a solver that reports [Completed], or
    without a caller, it attaches the output transform to the input
    node, removes the visualization nodes and the auxiliary volume from
    the scene, leaves every other node alone, sets [Running] to
    [false], launches nothing, and schedules the removal of the CLI
    node if there is one. *)
Theorem onStatusModifiedEvent_applies
    (w : World) (caller : option NodeId) (inp out aux : NodeId)
    (vis : list NodeId) (ninp : Node) :
  nodeReferences w !! "InputNode" = Some inp ->
  nodes w !! inp = Some ninp ->
  (caller = None
   \/ exists c p, caller = Some c /\ nodes w !! c = Some (CommandLineModuleNode p "Completed")) ->
  exists w' : World,
    onStatusModifiedEvent caller (Some out) vis aux w = (w', Ok tt)
    /\ transformNodeID w' !! inp = Some out
    /\ (forall i, i ∈ vis \/ i = aux -> nodes w' !! i = None)
    /\ (forall i, i ∉ vis -> i ≠ aux -> nodes w' !! i = nodes w !! i)
    /\ GetParameter (parameters w') "Running" = "false"
    /\ cliRuns w' = cliRuns w
    /\ removalTimers w'
       = (removalTimers w ++ match caller with Some c => [c] | None => [] end)%list.
Proof.
  intros Href Hnode Hcaller.
  assert (Hlookups :
    forall m : gmap NodeId Node,
      (forall i, i ∈ vis \/ i = aux ->
                 delete aux (foldl (fun m i => delete i m) m vis) !! i = None)
      /\ (forall i, i ∉ vis -> i ≠ aux ->
                    delete aux (foldl (fun m i => delete i m) m vis) !! i = m !! i)).
  { intros m. split.
    - intros i Hi. destruct (decide (i = aux)) as [->|Hne]; [by rewrite lookup_delete_eq|].
      rewrite lookup_delete_ne by done. rewrite lookup_foldl_delete.
      destruct Hi as [Hi|Hi]; [by rewrite decide_True|done].
    - intros i Hvis Haux. rewrite lookup_delete_ne by done.
      rewrite lookup_foldl_delete. by rewrite decide_False. }
  destruct Hcaller as [->|(c & p & -> & Hc)].
  - eexists. split; [by eapply finish_applies|].
    simpl. rewrite lookup_insert_eq.
    destruct (Hlookups (nodes w)) as [Hgone Hkept].
    repeat split; try done.
    + unfold GetParameter, SetParameter. by rewrite lookup_insert_eq.
    + by rewrite app_nil_r.
  - pose proof (finish_applies (with_removalTimers (fun l => (l ++ [c])%list) w)
                  inp out aux vis ninp Href Hnode) as Hfin.
    eexists. split.
    + unfold onStatusModifiedEvent in *.
      erewrite bind_ok; [|reflexivity]. lazy beta iota zeta. rewrite Hc.
      replace (String.eqb "Completed" "Completed") with true by reflexivity.
      erewrite bind_ok; [|reflexivity].
      erewrite bind_ok in Hfin; [|reflexivity]. lazy beta iota zeta in Hfin.
      exact Hfin.
    + simpl. rewrite lookup_insert_eq.
      destruct (Hlookups (nodes w)) as [Hgone Hkept].
      repeat split; try done.
      unfold GetParameter, SetParameter. by rewrite lookup_insert_eq.
Qed.

End StatusHandler.

Section StatusHandlerErrors.
Import PyFloat GridNodeHelper Scene GridNodeOps WarpDrive.
Local Open Scope string_scope.

Lemma GetNodeReference_None (w : World) (role : string) :
  (nodeReferences w !! role = None
   \/ exists i, nodeReferences w !! role = Some i /\ nodes w !! i = None) ->
  GetNodeReference w role = None.
Proof.
  unfold GetNodeReference. intros [->|(i & -> & Hi)]; [done|].
  rewrite Hi. destruct (decide (is_Some None)) as [[? H]|]; [discriminate H|done].
Qed.

(** X2.  When the input node is gone from the scene, or no output node was
    selected, the handler called without a caller raises
    [AttributeError] and changes nothing: the auxiliary nodes stay and
    [Running] keeps its value. *)
Theorem onStatusModifiedEvent_missing_node
    (w : World) (outputNode : option NodeId) (vis : list NodeId) (aux : NodeId) :
  GetNodeReference w "InputNode" = None \/ outputNode = None ->
  onStatusModifiedEvent None outputNode vis aux w = (w, Raise AttributeError).
Proof.
  intros H. unfold onStatusModifiedEvent.
  erewrite bind_ok; [|reflexivity]. lazy beta iota zeta.
  erewrite bind_ok; [|reflexivity]. lazy beta.
  destruct (GetNodeReference w "InputNode") as [inp|] eqn:E; [|reflexivity].
  destruct H as [H| ->]; [discriminate H|].
  erewrite bind_raise; reflexivity.
Qed.

End StatusHandlerErrors.

(** ** Launching the solver *)

Section RunErrors.
Import PyFloat GridNodeHelper Scene GridNodeOps WarpDrive.
Local Open Scope string_scope.

(** X3.  [run] launches nothing and changes nothing when a node it needs is
    missing: with no source fiducial, or with control points in the
    source fiducial and no target fiducial or no output node, it raises
    [AttributeError]. *)
Theorem run_missing_node
    (w : World) (referenceVolume : NodeId) (outputNode sourceFiducial targetFiducial : option NodeId)
    (RBFRadius : string) (stiffness : float) :
  sourceFiducial = None
  \/ (exists src p spts, sourceFiducial = Some src
                         /\ nodes w !! src = Some (MarkupsFiducialNode (p :: spts))
                         /\ (targetFiducial = None \/ outputNode = None)) ->
  run referenceVolume outputNode sourceFiducial targetFiducial RBFRadius stiffness w
  = (w, Raise AttributeError).
Proof.
  intros [->|(src & p & spts & -> & Hsrc & Hmiss)]; [reflexivity|].
  unfold run.
  erewrite bind_ok; [|simpl; by rewrite Hsrc].
  lazy beta iota delta [length Nat.eqb negb].
  erewrite bind_raise; [reflexivity|].
  unfold computeWarp.
  destruct targetFiducial as [tgt|]; [|reflexivity].
  destruct Hmiss as [Hmiss| ->]; [discriminate Hmiss|].
  erewrite bind_ok; [|reflexivity].
  erewrite bind_ok; [|reflexivity].
  reflexivity.
Qed.

End RunErrors.

(** ** The preview *)

Section Preview.
Import PyFloat GridNodeHelper Scene GridNodeOps WarpDrive.
Local Open Scope string_scope.

Lemma imap_pair_filter_snd {A} (f : A -> bool) (l : list A) (k : nat) :
  map snd (List.filter (fun ip : nat * A => f (snd ip)) (imap (fun i x => (k + i, x)) l))
  = List.filter f l.
Proof.
  revert k. induction l as [|x l IH]; intros k; [done|].
  cbn [imap List.filter map snd].
  rewrite (imap_ext _ (fun i x => (S k + i, x))) by (intros; unfold compose; f_equal; lia).
  destruct (f x); cbn [map snd]; by rewrite IH.
Qed.

(** The target landmarks are the positions of the selected points. *)
Lemma selectedPoints_targets (tpts : list ControlPoint) :
  map (fun ip => position (snd ip)) (selectedPoints tpts)
  = map position (List.filter selected tpts).
Proof.
  unfold selectedPoints.
  rewrite <- (imap_pair_filter_snd selected tpts 0).
  rewrite <- (map_map snd position). reflexivity.
Qed.

(** X4.  The preview pairs the landmarks by index.  When every index
    of the target fiducial is an index of the source fiducial, the
    spline transform the preview adds has one pair of landmarks per
    selected point of the target fiducial, in order: for the selected
    target point at index [i], the source landmark is the position of
    the source point at the same index [i] and the target landmark is
    the position of that target point.  The display fiducial shows the
    source landmarks, and no solver is launched. *)
Theorem previewWarp_pairs_selected
    (w : World) (src tgt : NodeId) (spts tpts : list ControlPoint) :
  nodes w !! src = Some (MarkupsFiducialNode spts) ->
  nodes w !! tgt = Some (MarkupsFiducialNode tpts) ->
  (length tpts <= length spts)%nat ->
  exists (w' : World) (transformNode display : NodeId)
         (sourcePoints targetPoints : list (vec3 float)) (shown : list ControlPoint),
    previewWarp (Some src) (Some tgt) w = (w', Ok (transformNode, display))
    /\ nodes w' !! transformNode
       = Some (TransformNode (ThinPlateSplineTransform sourcePoints targetPoints true))
    /\ nodes w' !! display = Some (MarkupsFiducialNode shown)
    /\ targetPoints = map position (List.filter selected tpts)
    /\ length sourcePoints = length targetPoints
    /\ (forall (k i : nat) (p : ControlPoint),
          selectedPoints tpts !! k = Some (i, p) ->
          tpts !! i = Some p
          /\ selected p = true
          /\ targetPoints !! k = Some (position p)
          /\ exists q, spts !! i = Some q /\ sourcePoints !! k = Some (position q))
    /\ map position shown = sourcePoints
    /\ cliRuns w' = cliRuns w.
Proof.
  intros Hsrc Htgt Hlen.
  pose proof (previewWarp_adds w src tgt spts tpts Hsrc Htgt Hlen) as Hadd. simpl in Hadd.
  pose proof (selected_in_range spts tpts Hlen) as Hall.
  do 6 eexists. split; [exact Hadd|].
  split; [simpl; by rewrite lookup_insert_eq|].
  split; [simpl; rewrite lookup_insert_ne by lia; by rewrite lookup_insert_eq|].
  split; [apply selectedPoints_targets|].
  split; [by rewrite length_omap, length_map|].
  split; [|split; [|reflexivity]].
  - intros k i p Hk.
    destruct (selectedPoints_lookup tpts k i p Hk) as [Hi Hsel].
    split; [exact Hi|]. split; [exact Hsel|].
    split; [by rewrite list_lookup_fmap, Hk|].
    destruct (lookup_lt_is_Some_2 spts i) as [q Hq].
    { apply lookup_lt_Some in Hi. lia. }
    exists q. split; [exact Hq|].
    apply (omap_lookup _ _ k (i, p)); [exact Hall|exact Hk|].
    simpl. unfold nthPosition. by rewrite Hq.
  - rewrite map_map. simpl. apply map_id.
Qed.

(** X5.  With no selected point in the target fiducial the source fiducial
    is not consulted: the preview succeeds with empty landmark lists
    whatever the source node is. *)
Theorem previewWarp_no_selection
    (w : World) (sourceNode : option NodeId) (tgt : NodeId) (tpts : list ControlPoint) :
  nodes w !! tgt = Some (MarkupsFiducialNode tpts) ->
  List.filter selected tpts = [] ->
  exists (w' : World) (transformNode display : NodeId),
    previewWarp sourceNode (Some tgt) w = (w', Ok (transformNode, display))
    /\ nodes w' !! transformNode = Some (TransformNode (ThinPlateSplineTransform [] [] true))
    /\ nodes w' !! display = Some (MarkupsFiducialNode []).
Proof.
  intros Htgt Hnone.
  assert (Hsel : selectedPoints tpts = []).
  { pose proof (imap_pair_filter_snd selected tpts 0) as H. rewrite Hnone in H.
    unfold selectedPoints.
    change (imap (fun i x => (0 + i, x)) tpts) with (imap pair tpts) in H.
    destruct (List.filter _ (imap pair tpts)); [done|discriminate H]. }
  unfold previewWarp.
  erewrite bind_ok; [|simpl; by rewrite Htgt].
  rewrite Hsel.
  erewrite bind_ok; [|reflexivity].
  erewrite bind_ok; [|reflexivity]. simpl map.
  do 3 eexists. split; [reflexivity|].
  split; simpl.
  - by rewrite lookup_insert_eq.
  - rewrite lookup_insert_ne by lia. by rewrite lookup_insert_eq.
Qed.

End Preview.

(** ** Failures of a commit *)

Section CommitFailures.
Import PyFloat GridNodeHelper Scene GridNodeOps WarpDrive.
Local Open Scope string_scope.

Variable py_float : string -> result float.

(** X6.  A commit that fails while the grid is resolved changes nothing:
    when the grid of the input node cannot be read, the spacing
    parameter does not parse, or the conversion of a size to [int]
    raises, [onCalculateButton] raises that error in the world it
    started in. *)
Theorem onCalculateButton_fails_before_change (w : World) (e : PyErr) :
  getGridDefinition (GetNodeReference w "InputNode") w = (w, Raise e)
  \/ (exists g,
        getGridDefinition (GetNodeReference w "InputNode") w = (w, Ok g)
        /\ (py_float (GetParameter (parameters w) "Spacing") = Raise e
            \/ exists u, py_float (GetParameter (parameters w) "Spacing") = Ok u
                         /\ resolveGrid g u = Raise e)) ->
  onCalculateButton py_float w = (w, Raise e).
Proof.
  intros H. unfold onCalculateButton.
  erewrite bind_ok; [|reflexivity].
  erewrite bind_ok; [|reflexivity].
  erewrite bind_ok; [|reflexivity].
  destruct H as [H|(g & Hg & [Hs|(u & Hu & Hr)])].
  - erewrite bind_raise; [reflexivity|exact H].
  - erewrite bind_ok; [|exact Hg].
    erewrite bind_raise; [reflexivity|]. by rewrite Hs.
  - erewrite bind_ok; [|exact Hg].
    erewrite bind_ok; [|by rewrite Hu].
    erewrite bind_raise; [reflexivity|]. unfold lift. by rewrite Hr.
Qed.

(** X7.  A commit that fails after the grid is resolved leaves the
    auxiliary volume behind.  When no target fiducial is referenced, or
    the stiffness parameter does not parse, [onCalculateButton] raises
    with the new volume node in the scene; the input node keeps its
    transform, the parameters are as before and nothing is launched. *)
Theorem onCalculateButton_fails_after_volume
    (w : World) (g g' : GridDefinition) (u : float) (e : PyErr) :
  getGridDefinition (GetNodeReference w "InputNode") w = (w, Ok g) ->
  py_float (GetParameter (parameters w) "Spacing") = Ok u ->
  resolveGrid g u = Ok g' ->
  (nodeReferences w !! "TargetFiducial" = None /\ e = AttributeError)
  \/ (exists (tgt : NodeId) (tpts : list ControlPoint),
        nodeReferences w !! "TargetFiducial" = Some tgt
        /\ nodes w !! tgt = Some (MarkupsFiducialNode tpts)
        /\ (tgt < next_id w)%positive
        /\ py_float (GetParameter (parameters w) "Stiffness") = Raise e) ->
  exists w' : World,
    onCalculateButton py_float w = (w', Raise e)
    /\ nodes w' = <[next_id w := ScalarVolumeNode g']> (nodes w)
    /\ transformNodeID w' = transformNodeID w
    /\ parameters w' = parameters w
    /\ cliRuns w' = cliRuns w.
Proof.
  intros Hg Hu Hr Hfail.
  exists (with_next_id (Pos.succ (next_id w))
            (with_nodes (insert (next_id w) (ScalarVolumeNode g')) w)).
  split; [|done].
  unfold onCalculateButton.
  erewrite bind_ok; [|reflexivity].
  erewrite bind_ok; [|reflexivity].
  erewrite bind_ok; [|reflexivity].
  erewrite bind_ok; [|exact Hg].
  erewrite bind_ok; [|by rewrite Hu].
  erewrite bind_ok; [|unfold lift; by rewrite Hr].
  erewrite bind_ok; [|unfold emptyVolume, AddNewNode; by rewrite GridDefinition_eta].
  erewrite bind_ok; [|reflexivity].
  destruct Hfail as [[Hnone ->]|(tgt & tpts & Href & Hnode & Hfresh & Hk)].
  - erewrite bind_raise; [reflexivity|].
    rewrite (GetNodeReference_None w "TargetFiducial") by (by left). reflexivity.
  - rewrite (GetNodeReference_Some w "TargetFiducial" tgt _ Href Hnode).
    erewrite bind_ok; [|simpl; rewrite lookup_insert_ne by lia; by rewrite Hnode].
    erewrite bind_raise; [reflexivity|]. simpl. by rewrite Hk.
Qed.

End CommitFailures.

(** ** Grids whose spacing is a multiple of the user spacing *)

Section GridMultiples.
Import PyFloat GridNodeHelper WarpDrive GridSpec.
Local Open Scope Q_scope.






End GridMultiples.

(** ** Defaults are complete *)

Section DefaultsComplete.
Import Scene WarpDrive.
Local Open Scope string_scope.

(** The value a parameter holds after one guarded assignment. *)
Lemma setDefault_get (q : gmap string string) (name value k : string) :
  GetParameter (setDefault name value q) k
  = if decide (name = k /\ GetParameter q k = EmptyString) then value else GetParameter q k.
Proof.
  unfold setDefault. destruct (decide (name = k)) as [->|Hne].
  - destruct (String.eqb_spec (GetParameter q k) EmptyString) as [He|He].
    + rewrite decide_True by done. apply GetParameter_SetParameter_eq.
    + rewrite decide_False; [done|]. by intros [_ ?].
  - rewrite decide_False by (by intros [? _]).
    destruct (String.eqb _ _); [|done]. by apply GetParameter_SetParameter_ne.
Qed.

(** A guarded assignment touches the parameter it names only. *)
Lemma setDefault_ne (q : gmap string string) (name value k : string) :
  name ≠ k -> GetParameter (setDefault name value q) k = GetParameter q k.
Proof.
  intros Hne. rewrite setDefault_get. rewrite decide_False; [done|]. by intros [? _].
Qed.

(** X9.  After [setDefaultParameters] none of the six parameters is empty,
    and each one that was empty holds its default, whatever the others
    held. *)
Theorem setDefaultParameters_completes (p : gmap string string) :
  Forall (fun kv : string * string =>
            GetParameter (setDefaultParameters p) (fst kv) ≠ EmptyString
            /\ (GetParameter p (fst kv) = EmptyString ->
                GetParameter (setDefaultParameters p) (fst kv) = snd kv))
    [("Radius", "15.0"); ("Spacing", "2.0"); ("RBFRadius", "30");
     ("Stiffness", "0.1"); ("DrawMode", "To Nearest Model"); ("Running", "false")].
Proof.
  repeat apply Forall_cons_2; [..|apply Forall_nil_2]; simpl fst; simpl snd; split.
  all: unfold setDefaultParameters; rewrite ?setDefault_ne by discriminate.
  all: try (by apply setDefault_filled).
  all: intros Hempty; rewrite setDefault_get.
  all: rewrite ?setDefault_ne by discriminate.
  all: by rewrite decide_True.
Qed.

End DefaultsComplete.

(** ** Instances *)

Section WarpDriveInstances.
Import PyFloat GridNodeHelper Scene GridNodeOps WarpDrive PyFloatParse Examples MoreExamples.
Local Open Scope string_scope.

Lemma onStatusModifiedEvent_applies_witness :
  exists w' : World,
    onStatusModifiedEvent (Some 8%positive) (Some 2%positive) [7%positive; 6%positive]
      5%positive completedScene = (w', Ok tt)
    /\ transformNodeID w' !! 1%positive = Some 2%positive
    /\ (forall i, i ∈ [7%positive; 6%positive] \/ i = 5%positive -> nodes w' !! i = None)
    /\ (forall i, i ∉ [7%positive; 6%positive] -> i ≠ 5%positive ->
                  nodes w' !! i = nodes completedScene !! i)
    /\ GetParameter (parameters w') "Running" = "false"
    /\ cliRuns w' = cliRuns completedScene
    /\ removalTimers w' = [8%positive].
Proof.
  exact (onStatusModifiedEvent_applies completedScene (Some 8%positive)
           1%positive 2%positive 5%positive [7%positive; 6%positive]
           (TransformNode (GridTransform grid7 []))
           eq_refl eq_refl
           (or_intror (ex_intro _ 8%positive (ex_intro _ solverParams (conj eq_refl eq_refl))))).
Defined.

Lemma onStatusModifiedEvent_missing_node_witness :
  onStatusModifiedEvent None None [7%positive; 6%positive] 5%positive completedScene
  = (completedScene, Raise AttributeError).
Proof.
  exact (onStatusModifiedEvent_missing_node completedScene None [7%positive; 6%positive]
           5%positive (or_intror eq_refl)).
Defined.

Lemma run_missing_node_witness :
  run 5%positive None (Some 3%positive) (Some 4%positive) "30,25,10" (Finite (1 # 10))
    commitScene
  = (commitScene, Raise AttributeError).
Proof.
  exact (run_missing_node commitScene 5%positive None (Some 3%positive) (Some 4%positive)
           "30,25,10" (Finite (1 # 10))
           (or_intror
              (ex_intro _ 3%positive
                 (ex_intro _ (point true "30")
                    (ex_intro _ [point false "5"; point true "25"; point true "10"]
                       (conj eq_refl (conj eq_refl (or_intror eq_refl)))))))).
Defined.

Lemma previewWarp_pairs_selected_witness :
  exists (w' : World) (transformNode display : NodeId)
         (sourcePoints targetPoints : list (vec3 float)),
    previewWarp (Some 3%positive) (Some 4%positive) draggedScene
    = (w', Ok (transformNode, display))
    /\ nodes w' !! transformNode
       = Some (TransformNode (ThinPlateSplineTransform sourcePoints targetPoints true))
    /\ targetPoints = [at_ 11 1 0; at_ 0 (-2) 33; at_ 4 5 7]
    /\ length sourcePoints = 3%nat
    /\ sourcePoints !! 0%nat = Some (at_ 10 0 0)
    /\ sourcePoints !! 1%nat = Some (at_ 0 0 30)
    /\ sourcePoints !! 2%nat = Some (at_ 4 5 6).
Proof.
  destruct (previewWarp_pairs_selected draggedScene 3%positive 4%positive
              sourceMarks targetMarks eq_refl eq_refl (le_n 4))
    as (w' & tn & d & sp & tp & shown & Hrun & Htn & _ & Htp & Hlen & Hpair & _).
  exists w', tn, d, sp, tp.
  split; [exact Hrun|]. split; [exact Htn|]. split; [exact Htp|].
  split; [rewrite Hlen, Htp; reflexivity|].
  destruct (Hpair 0%nat 0%nat _ eq_refl) as (_ & _ & _ & q0 & [= <-] & H0).
  destruct (Hpair 1%nat 2%nat _ eq_refl) as (_ & _ & _ & q1 & [= <-] & H1).
  destruct (Hpair 2%nat 3%nat _ eq_refl) as (_ & _ & _ & q2 & [= <-] & H2).
  split; [exact H0|]. split; [exact H1|exact H2].
Defined.

Lemma previewWarp_no_selection_witness :
  exists (w' : World) (transformNode display : NodeId),
    previewWarp None (Some 4%positive) (sceneWith fixedPoints)
    = (w', Ok (transformNode, display))
    /\ nodes w' !! transformNode = Some (TransformNode (ThinPlateSplineTransform [] [] true))
    /\ nodes w' !! display = Some (MarkupsFiducialNode []).
Proof.
  exact (previewWarp_no_selection (sceneWith fixedPoints) None 4%positive fixedPoints
           eq_refl eq_refl).
Defined.

Lemma onCalculateButton_fails_before_change_witness :
  onCalculateButton float_of_decimal zeroSpacingScene = (zeroSpacingScene, Raise OverflowError).
Proof.
  exact (onCalculateButton_fails_before_change float_of_decimal zeroSpacingScene OverflowError
           (or_intror
              (ex_intro _ grid7
                 (conj eq_refl
                    (or_intror (ex_intro _ (Finite 0) (conj eq_refl eq_refl))))))).
Defined.

Lemma onCalculateButton_fails_after_volume_witness :
  exists w' : World,
    onCalculateButton float_of_decimal badStiffnessScene = (w', Raise ValueError)
    /\ nodes w'
       = <[5%positive := ScalarVolumeNode
                           {| size := (3, 3, 3)%Z; origin := zero3;
                              spacing := (Finite 2, Finite 2, Finite 2) |}]>
           (nodes badStiffnessScene)
    /\ transformNodeID w' = transformNodeID badStiffnessScene
    /\ parameters w' = parameters badStiffnessScene
    /\ cliRuns w' = [].
Proof.
  exact (onCalculateButton_fails_after_volume float_of_decimal badStiffnessScene grid7
           {| size := (3, 3, 3)%Z; origin := zero3; spacing := (Finite 2, Finite 2, Finite 2) |}
           (Finite 2) ValueError eq_refl eq_refl eq_refl
           (or_intror
              (ex_intro _ 4%positive
                 (ex_intro _ fourPoints
                    (conj eq_refl (conj eq_refl (conj eq_refl eq_refl))))))).
Defined.


Lemma setDefaultParameters_completes_witness :
  GetParameter userParameters "Radius" = EmptyString
  /\ GetParameter (setDefaultParameters userParameters) "Radius" = "15.0"
  /\ GetParameter (setDefaultParameters userParameters) "Spacing" ≠ EmptyString.
Proof.
  pose proof (setDefaultParameters_completes userParameters) as H.
  apply Forall_cons_1 in H as [[_ Hradius] H].
  apply Forall_cons_1 in H as [[Hspacing _] _].
  split; [reflexivity|]. split; [exact (Hradius eq_refl)|exact Hspacing].
Defined.

End WarpDriveInstances.

(** * Further properties of [LeadDBSCall.py] *)

(** ** Paths of a subject *)

Section SubjectPaths.
Import PyStr OS LeadDBSCall PathSpec.
Local Open Scope string_scope.

Lemma append_nil_r (a : string) : a +:+ EmptyString = a.
Proof. induction a as [|x a IH]; [done|]. rewrite append_cons. by rewrite IH. Qed.

Lemma path_join_prefix (a b : string) :
  startswith b "/" = false -> path_join a b = join_prefix a +:+ b.
Proof.
  intros Hb. unfold path_join, join_prefix. rewrite Hb.
  destruct (_ || _); [done|]. by rewrite append_assoc.
Qed.

Lemma endswith_path_join_eq (a b p : string) :
  (String.length p <= String.length b)%nat ->
  endswith (path_join a b) p = endswith b p.
Proof.
  intros Hlen. unfold path_join.
  destruct (startswith b "/"); [done|].
  destruct (_ || _).
  - by rewrite endswith_append.
  - rewrite endswith_append by (rewrite length_append; lia).
    by rewrite endswith_append.
Qed.

(** The last component of a path does not start with a separator. *)
Lemma rsplit_sep_tail (p : string) : startswith (snd (rsplit_sep p)) "/" = false.
Proof.
  induction p as [|c p IH]; [done|].
  cbn [rsplit_sep]. destruct (rsplit_sep p) as [h t]. cbn [snd] in IH.
  destruct h as [|x h]; [|exact IH].
  destruct (Ascii.eqb_spec c sep) as [->|Hc]; [exact IH|].
  cbn [snd startswith].
  destruct (Ascii.eqb_spec "/"%char c) as [<-|]; [by destruct Hc|reflexivity].
Qed.

Lemma subjectID_rsplit (w : World) (s : string) :
  subjectID (LeadFileManager_init w s) = snd (rsplit_sep s).
Proof.
  unfold LeadFileManager_init, path_split. simpl.
  destruct (rsplit_sep s) as [h t]. by destruct (rstrip_sep h).
Qed.

Lemma subjectID_name_relative (w : World) (s name : string) :
  startswith name "/" = false ->
  startswith (subjectID (LeadFileManager_init w s) +:+ name) "/" = false.
Proof.
  intros Hname. rewrite subjectID_rsplit.
  pose proof (rsplit_sep_tail s) as Htail.
  destruct (snd (rsplit_sep s)) as [|c t] eqn:E; [exact Hname|].
  rewrite startswith_append by (simpl; lia). exact Htail.
Qed.

(** X10.  The subject identifier is the last component of the subject path:
    the name after the last separator, and the empty string when the
    path ends in a separator. *)
Theorem subjectID_last_component (w : World) (s n : string) :
  subjectID (LeadFileManager_init w (s +:+ "/")) = EmptyString
  /\ (rsplit_sep n = (EmptyString, n) ->
      subjectID (LeadFileManager_init w (s +:+ "/" +:+ n)) = n).
Proof.
  split.
  - rewrite subjectID_rsplit.
    rewrite <- (append_nil_r (s +:+ "/")), append_assoc.
    by rewrite rsplit_sep_append.
  - intros Hn. rewrite subjectID_rsplit. by rewrite rsplit_sep_append.
Qed.

(** X11.  For every subject, in either layout, the path of the forward warp
    and the path of the inverse warp differ, so saving one never
    overwrites the other. *)
Theorem forward_and_inverse_warp_differ (w : World) (s : string) :
  getANTSForwardWarp (LeadFileManager_init w s) ≠ getANTSInverseWarp (LeadFileManager_init w s).
Proof.
  unfold getANTSForwardWarp, getANTSInverseWarp, path_joins.
  destruct (useBIDS (LeadFileManager_init w s)); cbn [fold_left]; intros Heq.
  - rewrite !(path_join_prefix _ (subjectID _ +:+ _)) in Heq
      by (by apply subjectID_name_relative).
    apply String.app_inj in Heq. apply String.app_inj in Heq. discriminate Heq.
  - rewrite !path_join_prefix in Heq by reflexivity.
    apply String.app_inj in Heq. discriminate Heq.
Qed.

(** The name of the metadata file ends in [json] exactly for a BIDS
    subject. *)
Lemma getNormalizationMethod_suffix (w : World) (s : string) :
  endswith (getNormalizationMethod (LeadFileManager_init w s)) "json"
  = useBIDS (LeadFileManager_init w s).
Proof.
  unfold getNormalizationMethod, path_joins.
  destruct (useBIDS (LeadFileManager_init w s)); cbn [fold_left].
  - rewrite endswith_path_join_eq by (rewrite length_append; simpl; lia).
    rewrite endswith_append by (simpl; lia). reflexivity.
  - rewrite endswith_path_join_eq by (simpl; lia). reflexivity.
Qed.

Lemma saveApprovedData_legacy_step (w : World) (s : string) :
  useBIDS (LeadFileManager_init w s) = false ->
  saveApprovedData s w
  = saveApprovedDataLegacy (getNormalizationMethod (LeadFileManager_init w s)) w.
Proof.
  intros Hlegacy. unfold saveApprovedData.
  erewrite bind_ok; [|reflexivity].
  by rewrite getNormalizationMethod_suffix, Hlegacy.
Qed.

(** X12.  [saveApprovedData] tells the two metadata formats apart by the
    ending [json] of the file name.  That test agrees with the layout
    for every subject path: the JSON writer is used exactly for BIDS
    subjects. *)
Theorem saveApprovedData_dispatch (w : World) (s : string) :
  saveApprovedData s w
  = if useBIDS (LeadFileManager_init w s)
    then saveApprovedDataJSON (getNormalizationMethod (LeadFileManager_init w s)) w
    else saveApprovedDataLegacy (getNormalizationMethod (LeadFileManager_init w s)) w.
Proof.
  unfold saveApprovedData.
  erewrite bind_ok; [|reflexivity].
  rewrite getNormalizationMethod_suffix. by destruct (useBIDS _).
Qed.

End SubjectPaths.

(** ** Approval of a legacy subject whose file exists *)

Section LegacyExisting.
Import PyStr OS Json LeadDBSCall SubjectExamples.
Local Open Scope string_scope.

(** Copying every key but [glanat] and then writing into the container
    the keys came from gives the container with [glanat] replaced. *)
Lemma glanat_replaced (vars : gmap string NdArray) (v : NdArray) :
  <["glanat" := v]> (delete "glanat" vars) ∪ vars = <["glanat" := v]> vars.
Proof.
  apply map_eq. intros k. rewrite lookup_union.
  destruct (decide (k = "glanat")) as [->|Hne].
  - rewrite !lookup_insert_eq. by destruct (vars !! "glanat").
  - rewrite !lookup_insert_ne, lookup_delete_ne by done.
    by destruct (vars !! k).
Qed.

(** The world after [saveApprovedDataLegacy] has gone through the
    HDF5 writer: the container at [target] holds [vars] with [glanat]
    set to the approved value. *)
Lemma saveApprovedDataLegacy_hdf5 (w : World) (s : string) (old : option (gmap string NdArray)) :
  s ≠ EmptyString ->
  endswith s "/" = false ->
  startswith (cwd w) "/" = true ->
  cwd w ∈ dirs w ->
  isdir w s = true ->
  files w !! abspath w (s +:+ "/" +:+ "ea_coreg_approved.mat") = MatFile73 <$> old ->
  saveApprovedDataLegacy (s +:+ "/" +:+ "ea_coreg_approved.mat") w
  = (with_cwd (cwd w)
       (with_files
          (insert (abspath w (s +:+ "/" +:+ "ea_coreg_approved.mat"))
             (MatFile73 (<["glanat" := Int1 [2%Z]]> (default ∅ old))))
          (with_cwd (abspath w s) w)),
     Ok tt).
Proof.
  intros Hs He Habs Hcwd Hdir Hfile.
  set (target := abspath w (s +:+ "/" +:+ "ea_coreg_approved.mat")) in *.
  assert (Htarget : path_join (path_join (cwd w) s) "ea_coreg_approved.mat" = target)
    by (by apply path_join_enter).
  assert (Hcwd_ne : cwd w ≠ EmptyString) by (intros E; rewrite E in Habs; discriminate).
  unfold saveApprovedDataLegacy.
  erewrite (bind_ok _ _ w w (bool_decide (is_Some (MatFile73 <$> old)))).
  2:{ unfold gets, isfile. fold target. by rewrite Hfile. }
  erewrite (bind_ok _ _ w w (Some (<["glanat" := Int1 [2%Z]]> (delete "glanat" (default ∅ old))))).
  2:{ destruct old as [vars|]; simpl.
      - unfold try_except. erewrite bind_ok; [reflexivity|].
        unfold h5py_read. fold target. by rewrite Hfile.
      - by rewrite delete_empty. }
  lazy beta iota.
  erewrite bind_ok; [|reflexivity].
  rewrite dirname_join by done.
  erewrite bind_ok; [|by apply chdir_enters].
  erewrite (bind_ok _ _ _
              (with_files
                 (insert target (MatFile73 (<["glanat" := Int1 [2%Z]]> (default ∅ old))))
                 (with_cwd (abspath w s) w)) tt).
  2:{ unfold hdf5storage_write, abspath. simpl cwd. rewrite Htarget. simpl files.
      rewrite Hfile. destruct old as [vars|]; simpl.
      - by rewrite glanat_replaced.
      - by rewrite delete_empty. }
  rewrite chdir_enters; [|exact Hcwd_ne|].
  - unfold abspath at 1. simpl cwd. by rewrite (path_join_absolute _ (cwd w) Habs).
  - unfold isdir, abspath. simpl cwd. simpl dirs.
    rewrite (path_join_absolute _ (cwd w) Habs). by apply bool_decide_eq_true.
Qed.

(** X13.  For a legacy subject whose approval file is an HDF5 container,
    [saveApprovedData] rewrites the container with [glanat] holding the
    approved value 2 and every other key holding what it held.  No
    other file changes and the working directory is restored. *)
Theorem saveApprovedData_legacy_keeps_other_keys
    (w : World) (s : string) (vars : gmap string NdArray) :
  s ≠ EmptyString ->
  endswith s "/" = false ->
  startswith (cwd w) "/" = true ->
  cwd w ∈ dirs w ->
  isdir w s = true ->
  isdir w (path_joins s ["preprocessing"]) = false ->
  files w !! abspath w (path_joins s ["ea_coreg_approved.mat"]) = Some (MatFile73 vars) ->
  exists (w' : World) (vars' : gmap string NdArray),
    saveApprovedData s w = (w', Ok tt)
    /\ files w' !! abspath w (path_joins s ["ea_coreg_approved.mat"]) = Some (MatFile73 vars')
    /\ vars' !! "glanat" = Some (Int1 [2%Z])
    /\ (forall k, k ≠ "glanat" -> vars' !! k = vars !! k)
    /\ (forall p, p ≠ abspath w (path_joins s ["ea_coreg_approved.mat"]) ->
                  files w' !! p = files w !! p)
    /\ dirs w' = dirs w
    /\ cwd w' = cwd w.
Proof.
  intros Hs He Habs Hcwd Hdir Hlegacy Hfile.
  assert (Hpath : path_joins s ["ea_coreg_approved.mat"] = s +:+ "/" +:+ "ea_coreg_approved.mat")
    by (unfold path_joins; simpl fold_left; by apply path_join_relative).
  rewrite Hpath in *.
  do 2 eexists. split.
  - rewrite (saveApprovedData_legacy_step w s Hlegacy).
    rewrite (legacy_method_path w s Hs He Hlegacy).
    by apply (saveApprovedDataLegacy_hdf5 w s (Some vars)).
  - simpl. rewrite lookup_insert_eq.
    split; [reflexivity|]. split; [by rewrite lookup_insert_eq|].
    split; [intros k Hk; by rewrite lookup_insert_ne|].
    split; [intros p Hp; by rewrite lookup_insert_ne|]. done.
Qed.

(** X14.  Approving a legacy subject twice is the same as approving it
    once: after a first [saveApprovedData] on a subject without approval
    file, a second one succeeds and leaves the world as it is. *)
Theorem saveApprovedData_legacy_idempotent (w : World) (s : string) :
  s ≠ EmptyString ->
  endswith s "/" = false ->
  startswith (cwd w) "/" = true ->
  cwd w ∈ dirs w ->
  isdir w s = true ->
  isdir w (path_joins s ["preprocessing"]) = false ->
  isfile w (path_joins s ["ea_coreg_approved.mat"]) = false ->
  exists w' : World,
    saveApprovedData s w = (w', Ok tt)
    /\ saveApprovedData s w' = (w', Ok tt).
Proof.
  intros Hs He Habs Hcwd Hdir Hlegacy Hnew.
  assert (Hpath : path_joins s ["ea_coreg_approved.mat"] = s +:+ "/" +:+ "ea_coreg_approved.mat")
    by (unfold path_joins; simpl fold_left; by apply path_join_relative).
  rewrite Hpath in Hnew. apply isfile_false in Hnew.
  set (target := abspath w (s +:+ "/" +:+ "ea_coreg_approved.mat")) in *.
  set (w' := with_cwd (cwd w)
               (with_files (insert target (MatFile73 (<["glanat" := Int1 [2%Z]]> ∅)))
                  (with_cwd (abspath w s) w))).
  assert (Hlegacy' : isdir w' (path_joins s ["preprocessing"]) = false) by exact Hlegacy.
  exists w'. split.
  - rewrite (saveApprovedData_legacy_step w s Hlegacy).
    rewrite (legacy_method_path w s Hs He Hlegacy).
    apply (saveApprovedDataLegacy_hdf5 w s None); try done.
  - rewrite (saveApprovedData_legacy_step w' s Hlegacy').
    rewrite (legacy_method_path w' s Hs He Hlegacy').
    rewrite (saveApprovedDataLegacy_hdf5 w' s (Some (<["glanat" := Int1 [2%Z]]> ∅)));
      try done.
    + unfold w'. simpl. unfold abspath. simpl cwd. fold (abspath w s).
      fold (abspath w (s +:+ "/" +:+ "ea_coreg_approved.mat")). fold target.
      unfold with_cwd, with_files. simpl.
      rewrite insert_insert_eq, insert_insert_eq. reflexivity.
    + unfold w', abspath. simpl. fold (abspath w (s +:+ "/" +:+ "ea_coreg_approved.mat")).
      fold target. by rewrite lookup_insert_eq.
Qed.

(** X15.  A legacy approval file in the older MAT format is read by the
    second reader and rewritten in that format: [glanat] holds the
    approved value as a 1 x 1 [uint8] matrix, every other variable is
    kept, and the working directory is never changed. *)
Theorem saveApprovedDataLegacy_falls_back_to_loadmat
    (w : World) (p : string) (vars : gmap string NdArray) :
  files w !! abspath w p = Some (MatFile5 vars) ->
  saveApprovedDataLegacy p w
  = (with_files (insert (abspath w p) (MatFile5 (<["glanat" := UInt8_2 [[2%Z]]]> vars))) w,
     Ok tt).
Proof.
  intros Hfile. unfold saveApprovedDataLegacy.
  erewrite (bind_ok _ _ w w true).
  2:{ unfold gets, isfile. rewrite Hfile. apply f_equal, f_equal, bool_decide_eq_true. by eexists. }
  erewrite (bind_ok _ _ w
              (with_files
                 (insert (abspath w p) (MatFile5 (<["glanat" := UInt8_2 [[2%Z]]]> vars))) w)
              None); [reflexivity|].
  lazy beta iota. unfold try_except.
  erewrite bind_raise; [|unfold h5py_read; by rewrite Hfile].
  erewrite bind_ok; [|unfold loadmat; by rewrite Hfile].
  erewrite bind_ok; [|reflexivity].
  unfold mret, M_ret. by rewrite insert_delete_eq.
Qed.

(** X16.  A file at the place of the legacy approval file that neither
    reader understands makes [saveApprovedDataLegacy] raise: the error
    of the first reader is swallowed, that of the second one is not,
    and nothing is written. *)
Theorem saveApprovedDataLegacy_unreadable (w : World) (p : string) (d : FileData) :
  files w !! abspath w p = Some d ->
  (d = DataFile \/ exists text, d = TextFile text) ->
  exists e : PyErr, saveApprovedDataLegacy p w = (w, Raise e).
Proof.
  intros Hfile Hkind. exists ValueError. unfold saveApprovedDataLegacy.
  erewrite (bind_ok _ _ w w true).
  2:{ unfold gets, isfile. rewrite Hfile. apply f_equal, f_equal, bool_decide_eq_true. by eexists. }
  erewrite (bind_raise _ _ w w ValueError); [reflexivity|].
  lazy beta iota. unfold try_except.
  erewrite (bind_raise _ _ w w OSError).
  2:{ unfold h5py_read. rewrite Hfile. destruct Hkind as [->|[text ->]]; reflexivity. }
  erewrite (bind_raise _ _ w w ValueError); [reflexivity|].
  unfold loadmat. rewrite Hfile. destruct Hkind as [->|[text ->]]; reflexivity.
Qed.

End LegacyExisting.

(** ** Approval of a BIDS subject without metadata file *)

Section JsonMissing.
Import PyStr OS Json LeadDBSCall SubjectExamples.
Local Open Scope string_scope.

(** X17.  When nothing exists at the place of the JSON metadata file,
    [saveApprovedDataJSON] still raises, and opening the file for
    appending has created it: an empty file is left behind when the
    directory exists; otherwise the call raises [FileNotFoundError] and
    changes nothing. *)
Theorem saveApprovedDataJSON_missing_file (w : World) (p : string) :
  files w !! abspath w p = None ->
  isdir w p = false ->
  saveApprovedDataJSON p w
  = if bool_decide (dirname (abspath w p) ∈ dirs w)
    then (with_files (insert (abspath w p) (TextFile EmptyString)) w, Raise JSONDecodeError)
    else (w, Raise FileNotFoundError).
Proof.
  intros Hfile _. unfold saveApprovedDataJSON.
  destruct (bool_decide (dirname (abspath w p) ∈ dirs w)) eqn:Hdir.
  - erewrite bind_ok; [|unfold open_append_plus; by rewrite Hfile, Hdir].
    erewrite bind_ok.
    2:{ unfold read, content. simpl. rewrite lookup_insert_eq. reflexivity. }
    lazy beta iota.
    erewrite bind_raise; reflexivity.
  - erewrite bind_raise; [reflexivity|].
    unfold open_append_plus. by rewrite Hfile, Hdir.
Qed.

End JsonMissing.

(** ** The migration loop *)

Section MigrationLoop.
Import PyStr OS Json LeadDBSCall SubjectExamples.
Local Open Scope string_scope.

(** X18.  On a subject in the legacy layout [updateTranform] never
    completes: it raises [IndexError] when no normalized image is found
    and [AttributeError] otherwise, before any command is run or any
    file removed. *)
Theorem updateTranform_legacy_raises (w : World) (s tool : string) :
  isdir w (path_joins s ["preprocessing"]) = false ->
  updateTranform s tool w
  = (w, Raise (match getNormalizedImages (LeadFileManager_init w s) w with
               | [] => IndexError
               | _ => AttributeError
               end)).
Proof.
  intros Hlegacy. unfold updateTranform.
  erewrite bind_ok; [|reflexivity]. lazy beta zeta.
  destruct (getNormalizedImages (LeadFileManager_init w s) w) as [|r1 l] eqn:E1.
  - erewrite bind_raise; reflexivity.
  - erewrite bind_ok; [|reflexivity].
    erewrite bind_raise; [reflexivity|].
    unfold getCoregImages.
    replace (useBIDS (LeadFileManager_init w s)) with false by (symmetry; exact Hlegacy).
    reflexivity.
Qed.

(** The command line of one direction. *)
Lemma lookup_delete_absent (m : gmap string FileData) (k k' : string) :
  m !! k = None -> delete k' m !! k = None.
Proof.
  intros H. destruct (decide (k' = k)) as [->|Hne]; [by rewrite lookup_delete_eq|].
  by rewrite lookup_delete_ne.
Qed.

(** X19.  When a file named after the forward warp plus [.h5] exists, and no
    such file for the inverse warp, [updateTranform] runs the resampling
    tool once, on the composite [.h5] of the forward warp against the
    first normalized image, with the forward warp as output; the only
    file it removes itself is that composite.  What the tool writes is
    outside the model. *)
Theorem updateTranform_forward_command
    (w : World) (s tool r1 r2 : string) :
  let m := LeadFileManager_init w s in
  let transform := getANTSForwardWarp m in
  let h5transform := replace transform ".nii.gz" ".h5" in
  first (getNormalizedImages m w) = Ok r1 ->
  result_bind (getCoregImages m "*" w) first = Ok r2 ->
  isfile w (path_joins s [transform +:+ ".h5"]) = true ->
  isfile w h5transform = true ->
  isfile w (path_joins s [getANTSInverseWarp m +:+ ".h5"]) = false ->
  exists w' : World,
    updateTranform s tool w = (w', Ok true)
    /\ commands w'
       = (commands w
          ++ [tool +:+ " -r " +:+ r1 +:+ " -t " +:+ h5transform
              +:+ " -o [" +:+ transform +:+ ",1] -v 1"])%list
    /\ files w' = delete (abspath w h5transform) (files w).
Proof.
  intros m transform h5transform H1 H2 Hguard Hh5 Hinv.
  eexists. split; [|shelve].
  unfold updateTranform.
  erewrite bind_ok; [|reflexivity]. lazy beta zeta. fold m.
  erewrite bind_ok; [|unfold lift; by rewrite H1].
  erewrite bind_ok; [|unfold lift; by rewrite H2].
  erewrite bind_ok; [reflexivity|].
  simpl zip. unfold for_each.
  erewrite bind_ok.
  2:{ lazy beta iota. fold transform.
      erewrite bind_ok; [|unfold gets; by rewrite Hguard].
      lazy beta iota. fold h5transform.
      erewrite bind_ok; [|reflexivity].
      unfold remove.
      replace (isfile _ h5transform) with true by (symmetry; exact Hh5).
      reflexivity. }
  erewrite bind_ok; [reflexivity|].
  lazy beta iota.
  erewrite (bind_ok _ _ _ _ false); [reflexivity|].
  unfold gets. apply f_equal, f_equal.
  apply bool_decide_eq_false. apply isfile_false in Hinv.
  unfold abspath in *. simpl. intros [d Hd].
  by rewrite lookup_delete_absent in Hd.
  Unshelve. split; reflexivity.
Qed.

(** X20.  When the file that makes the loop act exists but the composite
    [.h5] does not, the tool has already been run when the removal
    raises [FileNotFoundError]. *)
Theorem updateTranform_runs_tool_before_check
    (w : World) (s tool r1 r2 : string) :
  let m := LeadFileManager_init w s in
  let transform := getANTSForwardWarp m in
  let h5transform := replace transform ".nii.gz" ".h5" in
  first (getNormalizedImages m w) = Ok r1 ->
  result_bind (getCoregImages m "*" w) first = Ok r2 ->
  isfile w (path_joins s [transform +:+ ".h5"]) = true ->
  isfile w h5transform = false ->
  updateTranform s tool w
  = (with_commands
       (fun l => (l ++ [tool +:+ " -r " +:+ r1 +:+ " -t " +:+ h5transform
                        +:+ " -o [" +:+ transform +:+ ",1] -v 1"])%list) w,
     Raise FileNotFoundError).
Proof.
  intros m transform h5transform H1 H2 Hguard Hh5.
  unfold updateTranform.
  erewrite bind_ok; [|reflexivity]. lazy beta zeta. fold m.
  erewrite bind_ok; [|unfold lift; by rewrite H1].
  erewrite bind_ok; [|unfold lift; by rewrite H2].
  erewrite bind_raise; [reflexivity|].
  simpl zip. unfold for_each.
  erewrite bind_raise; [reflexivity|].
  lazy beta iota. fold transform.
  erewrite bind_ok; [|unfold gets; by rewrite Hguard].
  lazy beta iota. fold h5transform.
  erewrite bind_ok; [|reflexivity].
  unfold remove.
  replace (isfile _ h5transform) with false by (symmetry; exact Hh5).
  reflexivity.
Qed.

(** X21.  Without the [.h5] sibling of the forward warp nothing is migrated:
    [loadSubjectTransform] looks up no image, runs no command and
    removes no file, in either layout; it loads the forward warp, or
    raises [RuntimeError] when that file is missing. *)
Theorem loadSubjectTransform_without_sibling (w : World) (s tool : string) :
  let transformPath := getANTSForwardWarp (LeadFileManager_init w s) in
  isfile w (replace transformPath ".nii.gz" ".h5") = false ->
  loadSubjectTransform s tool w
  = if isfile w transformPath
    then (with_loadedTransforms (fun l => (l ++ [transformPath])%list) w, Ok transformPath)
    else (w, Raise RuntimeError).
Proof.
  intros transformPath Hsibling. unfold loadSubjectTransform.
  erewrite bind_ok; [|reflexivity]. lazy beta zeta. fold transformPath.
  erewrite bind_ok; [|unfold gets; by rewrite Hsibling].
  lazy beta iota.
  erewrite bind_ok; [|reflexivity].
  reflexivity.
Qed.

End MigrationLoop.

(** * Properties of the selectors and of the command line *)

Section OutputSelector.
Import Scene WidgetSlots.

(** X22.  After [onOutputNodeChanged] the input node never observes itself:
    an output selection equal to the input selection is cleared, and the
    input node, when there is one, observes what the output selector
    then shows.  No other node changes what it observes and no node
    enters or leaves the scene. *)
Theorem onOutputNodeChanged_never_self (ui : Selectors) (w : World) :
  exists (ui' : Selectors) (w' : World),
    onOutputNodeChanged ui w = (w', Ok ui')
    /\ inputSelector ui' = inputSelector ui
    /\ outputSelector ui'
       = (if decide (outputSelector ui = inputSelector ui) then None else outputSelector ui)
    /\ (forall i : NodeId, inputSelector ui = Some i ->
          transformNodeID w' !! i = outputSelector ui'
          /\ transformNodeID w' !! i ≠ Some i)
    /\ (forall j : NodeId, inputSelector ui ≠ Some j ->
          transformNodeID w' !! j = transformNodeID w !! j)
    /\ nodes w' = nodes w.
Proof.
  destruct ui as [inp out]. unfold onOutputNodeChanged. simpl.
  destruct inp as [i|].
  - destruct (decide (out = Some i)) as [->|Hne]; simpl.
    + do 2 eexists. split; [reflexivity|]. simpl.
      split; [done|]. split; [done|]. split; [|split; [|done]].
      * intros i' [= <-]. rewrite lookup_delete_eq. by split.
      * intros j Hj. rewrite lookup_delete_ne; [done|]. by intros ->.
    + do 2 eexists. split; [reflexivity|]. simpl.
      split; [done|]. split; [done|]. split; [|split; [|done]].
      * intros i' [= <-]. destruct out as [o|].
        -- rewrite lookup_insert_eq. split; [done|]. intros [= ->]. by destruct Hne.
        -- rewrite lookup_delete_eq. by split.
      * intros j Hj. destruct out as [o|].
        -- rewrite lookup_insert_ne; [done|]. by intros ->.
        -- rewrite lookup_delete_ne; [done|]. by intros ->.
  - destruct (decide (out = None)) as [->|Hne]; simpl.
    + do 2 eexists. split; [reflexivity|]. simpl. repeat split; done.
    + do 2 eexists. split; [reflexivity|]. simpl. repeat split; done.
Qed.

End OutputSelector.

Section CommandLine.
Import PyStr Scene LeadDBSArgs.
Local Open Scope string_scope.

Lemma startswith_self_append (a b : string) : startswith (a +:+ b) a = true.
Proof.
  induction a as [|x a IH]; [apply startswith_nil|].
  rewrite append_cons. cbn [startswith]. by rewrite Ascii.eqb_refl.
Qed.

Lemma init_last (s : string) : s ≠ EmptyString -> exists c, s = init s +:+ String c EmptyString.
Proof.
  induction s as [|x s IH]; [done|]. intros _.
  destruct s as [|y s]; [by exists x|].
  destruct IH as [c Hc]; [done|]. exists c.
  change (init (String x (String y s))) with (String x (init (String y s))).
  rewrite append_cons. by rewrite <- Hc.
Qed.

Lemma length_init (s : string) : s ≠ EmptyString -> S (String.length (init s)) = String.length s.
Proof.
  induction s as [|x s IH]; [done|]. intros _.
  destruct s as [|y s]; [done|].
  change (init (String x (String y s))) with (String x (init (String y s))).
  change (String.length (String x ?a)) with (S (String.length a)).
  cbn [String.length] in *. rewrite IH; done.
Qed.

Lemma occurs_cons (sep : string) (c : ascii) (s : string) :
  occurs sep (String c s) = startswith (String c s) sep || occurs sep s.
Proof. reflexivity. Qed.

Lemma before_sep_cons (sep : string) (c : ascii) (s : string) :
  before_sep sep (String c s)
  = if startswith (String c s) sep then EmptyString else String c (before_sep sep s).
Proof. reflexivity. Qed.

(** Joining with a separator and cutting at its first occurrence gives
    back the first piece, provided the separator does not occur early:
    that is, not within the first piece followed by all but the last
    character of the separator. *)
Lemma before_sep_append (sep a rest : string) :
  sep ≠ EmptyString ->
  occurs sep (a +:+ init sep) = false ->
  before_sep sep (a +:+ sep +:+ rest) = a.
Proof.
  intros Hsep. destruct (init_last sep Hsep) as [l Hl].
  pose proof (length_init sep Hsep) as Hlen.
  induction a as [|x a IH]; intros Hocc.
  - rewrite append_nil.
    assert (H : startswith (sep +:+ rest) sep = true) by apply startswith_self_append.
    destruct (sep +:+ rest) as [|y t] eqn:E.
    + cbn [before_sep]. by destruct (startswith EmptyString sep).
    + rewrite before_sep_cons. by rewrite H.
  - rewrite append_cons in Hocc. rewrite occurs_cons in Hocc.
    apply orb_false_elim in Hocc as [Hhead Htail].
    rewrite append_cons, before_sep_cons.
    assert (Hstart : startswith (String x (a +:+ sep +:+ rest)) sep = false).
    { rewrite <- Hhead. rewrite <- !append_cons.
      rewrite Hl at 1. rewrite (append_assoc (init sep)), <- (append_assoc (String x a)).
      apply startswith_append.
      rewrite length_append. simpl. lia. }
    rewrite Hstart. by rewrite IH.
Qed.

(** X23.  The function acts on a command line of Lead-DBS only, and only
    once: it returns without a value and leaves the parameter node and
    the settings as they are when [MNIPath] is already set, when fewer
    than three arguments were given, or when the first argument is not a
    directory holding [lead.m]. *)
Theorem updateParameterNodeFromArgs_guards
    (proc : Process) (fs : OS.World) (node : Session) :
  GetParameter (parameters node) "MNIPath" ≠ EmptyString
  \/ (length (argv proc) <= 2)%nat
  \/ (exists a0 lead rest, argv proc = a0 :: lead :: rest
                           /\ OS.isfile fs (path_joins lead ["lead.m"]) = false) ->
  updateParameterNodeFromArgs proc fs node = (node, Ok None).
Proof.
  unfold updateParameterNodeFromArgs.
  destruct (String.eqb_spec (GetParameter (parameters node) "MNIPath") EmptyString) as [He|Hne];
    [|reflexivity].
  intros [H|[H|(a0 & lead & rest & Hargv & Hfile)]]; [done| |].
  - destruct (argv proc) as [|a0 [|a1 [|a2 l]]]; simpl in *; try reflexivity. lia.
  - rewrite Hargv. destruct rest; [reflexivity|]. by rewrite Hfile.
Qed.

(** X24.  A successful call records the first subject and is not repeated.
    Started with at least one subject path and with [lead.m] in place,
    the function returns [True]; it stores the joined subject paths, the
    first of them as [subjectPath] (when the separator does not occur
    early), and index 0; it clears the image and template references;
    and when the atlases path has a directory part, any later call
    returns without a value and changes nothing. *)
Theorem updateParameterNodeFromArgs_first_subject
    (proc : Process) (fs : OS.World) (node : Session)
    (a0 lead subject : string) (others : list string) :
  GetParameter (parameters node) "MNIPath" = EmptyString ->
  argv proc = a0 :: lead :: subject :: others ->
  OS.isfile fs (path_joins lead ["lead.m"]) = true ->
  uuid4_hex proc ≠ EmptyString ->
  occurs (uuid4_hex proc) (subject +:+ init (uuid4_hex proc)) = false ->
  exists node' : Session,
    updateParameterNodeFromArgs proc fs node = (node', Ok (Some true))
    /\ GetParameter (parameters node') "subjectPath" = subject
    /\ GetParameter (parameters node') "subjectPaths"
       = join (uuid4_hex proc) (subject :: others)
    /\ GetParameter (parameters node') "subjectN" = "0"
    /\ nodeReferences node' !! "ImageNode" = None
    /\ nodeReferences node' !! "TemplateNode" = None
    /\ (dirname (atlasesPath proc) ≠ EmptyString ->
        forall (proc' : Process) (fs' : OS.World),
          updateParameterNodeFromArgs proc' fs' node' = (node', Ok None)).
Proof.
  intros Hfresh Hargv Hlead Hsep Hocc.
  assert (Hsplit : split_first (join (uuid4_hex proc) (subject :: others)) (uuid4_hex proc)
                   = Ok subject).
  { unfold split_first. destruct (String.eqb_spec (uuid4_hex proc) EmptyString); [done|].
    f_equal. destruct others as [|o others].
    - simpl. rewrite <- (append_nil_r subject) at 1.
      clear Hlead Hargv. revert Hocc. generalize (uuid4_hex proc) as sep.
      intros sep Hocc.
      assert (Hno : forall t pre, occurs sep (t +:+ pre) = false -> before_sep sep t = t).
      { induction t as [|x t IHt]; intros pre Ht.
        - cbn [before_sep]. by destruct (startswith EmptyString sep).
        - rewrite before_sep_cons. rewrite append_cons, occurs_cons in Ht.
          apply orb_false_elim in Ht as [Hh Ht].
          destruct (startswith (String x t) sep) eqn:Es.
          + exfalso. destruct sep as [|y sep']; [by rewrite startswith_nil in Hh|].
            assert (Hlen : (String.length (String y sep') <= String.length (String x t))%nat).
            { clear -Es. revert Es. generalize (String x t) as u. generalize (String y sep') as v.
              induction v as [|a v IHv]; intros u Hu; [simpl; lia|].
              destruct u as [|b u]; [discriminate Hu|]. simpl in Hu. simpl.
              destruct (Ascii.eqb a b); [|discriminate Hu]. apply IHv in Hu. lia. }
            rewrite <- append_cons in Hh.
            rewrite (startswith_append (String x t) pre _ Hlen) in Hh. congruence.
          + f_equal. by apply (IHt pre). }
      rewrite append_nil_r. by apply (Hno subject (init sep)).
    - change (join (uuid4_hex proc) (subject :: o :: others))
        with (subject +:+ uuid4_hex proc +:+ join (uuid4_hex proc) (o :: others)).
      by apply before_sep_append. }
  eexists. split.
  - unfold updateParameterNodeFromArgs. rewrite Hfresh, Hargv. simpl negb. cbv iota.
    rewrite Hlead. unfold subjects. simpl drop. rewrite Hsplit. reflexivity.
  - simpl parameters. simpl nodeReferences.
    split; [|split; [|split; [|split; [|split]]]].
    + unfold SetParameters. simpl foldl.
      rewrite !GetParameter_SetParameter_ne by discriminate.
      apply GetParameter_SetParameter_eq.
    + unfold SetParameters. simpl foldl.
      rewrite !GetParameter_SetParameter_ne by discriminate.
      apply GetParameter_SetParameter_eq.
    + unfold SetParameters. simpl foldl.
      rewrite !GetParameter_SetParameter_ne by discriminate.
      apply GetParameter_SetParameter_eq.
    + rewrite lookup_delete_ne by discriminate. by rewrite lookup_delete_eq.
    + by rewrite lookup_delete_eq.
    + intros Hmni proc' fs'. unfold updateParameterNodeFromArgs at 1.
      simpl parameters. unfold SetParameters. simpl foldl.
      rewrite !GetParameter_SetParameter_ne by discriminate.
      rewrite GetParameter_SetParameter_eq.
      by destruct (String.eqb_spec (dirname (atlasesPath proc)) EmptyString).
Qed.

End CommandLine.

(** ** Instances on subjects and on a command line *)

Section SubjectInstances.
Import PyStr OS Json LeadDBSCall SubjectExamples MoreSubjects.
Local Open Scope string_scope.

Lemma subjectID_last_component_witness :
  subjectID (LeadFileManager_init legacySubject "/data/patient1/") = EmptyString
  /\ subjectID (LeadFileManager_init legacySubject "/data/patient1") = "patient1".
Proof.
  split.
  - exact (proj1 (subjectID_last_component legacySubject "/data/patient1" EmptyString)).
  - exact (proj2 (subjectID_last_component legacySubject "/data" "patient1") eq_refl).
Defined.

Lemma saveApprovedData_legacy_keeps_other_keys_witness :
  exists (w' : World) (vars' : gmap string NdArray),
    saveApprovedData "patient1" legacyReviewed = (w', Ok tt)
    /\ files w' !! approvalFile = Some (MatFile73 vars')
    /\ vars' !! "glanat" = Some (Int1 [2%Z])
    /\ vars' !! "anat_t1" = Some (Int1 [1%Z]).
Proof.
  destruct (saveApprovedData_legacy_keeps_other_keys legacyReviewed "patient1"
              {[ "glanat" := Int1 [0%Z]; "anat_t1" := Int1 [1%Z] ]}
              ltac:(discriminate) eq_refl eq_refl ltac:(vm_compute; set_solver)
              eq_refl eq_refl eq_refl)
    as (w' & vars' & Hrun & Hfile & Hglanat & Hother & _).
  exists w', vars'. split; [exact Hrun|]. split; [exact Hfile|]. split; [exact Hglanat|].
  rewrite (Hother "anat_t1") by discriminate. reflexivity.
Defined.

Lemma saveApprovedData_legacy_idempotent_witness :
  exists w' : World,
    saveApprovedData "patient1" legacySubject = (w', Ok tt)
    /\ saveApprovedData "patient1" w' = (w', Ok tt).
Proof.
  exact (saveApprovedData_legacy_idempotent legacySubject "patient1"
           ltac:(discriminate) eq_refl eq_refl ltac:(vm_compute; set_solver)
           eq_refl eq_refl eq_refl).
Defined.

Lemma saveApprovedDataLegacy_falls_back_to_loadmat_witness :
  saveApprovedDataLegacy approvalFile legacyReviewedOld
  = (with_files
       (insert approvalFile
          (MatFile5 (<["glanat" := UInt8_2 [[2%Z]]]> {[ "anat_t1" := UInt8_2 [[1%Z]] ]})))
       legacyReviewedOld,
     Ok tt).
Proof.
  exact (saveApprovedDataLegacy_falls_back_to_loadmat legacyReviewedOld approvalFile
           {[ "anat_t1" := UInt8_2 [[1%Z]] ]} eq_refl).
Defined.

Lemma saveApprovedDataLegacy_unreadable_witness :
  exists e : PyErr, saveApprovedDataLegacy approvalFile legacyDamaged = (legacyDamaged, Raise e).
Proof.
  exact (saveApprovedDataLegacy_unreadable legacyDamaged approvalFile (TextFile "corrupt")
           eq_refl (or_intror (ex_intro _ "corrupt" eq_refl))).
Defined.

Lemma saveApprovedDataJSON_missing_file_witness :
  saveApprovedDataJSON normmethod bidsWithoutMethod
  = (with_files (insert normmethod (TextFile EmptyString)) bidsWithoutMethod, Raise JSONDecodeError)
  /\ saveApprovedDataJSON "/data/sub-02/method.json" bidsWithoutMethod
     = (bidsWithoutMethod, Raise FileNotFoundError).
Proof.
  split.
  - exact (saveApprovedDataJSON_missing_file bidsWithoutMethod normmethod eq_refl eq_refl).
  - exact (saveApprovedDataJSON_missing_file bidsWithoutMethod "/data/sub-02/method.json"
             eq_refl eq_refl).
Defined.

Lemma updateTranform_legacy_raises_witness :
  updateTranform "patient1" antsApplyTransforms legacySubject
  = (legacySubject, Raise AttributeError).
Proof.
  exact (updateTranform_legacy_raises legacySubject "patient1" antsApplyTransforms eq_refl).
Defined.

Lemma updateTranform_forward_command_witness :
  exists w' : World,
    updateTranform "/data/sub-01" antsApplyTransforms bidsGuarded = (w', Ok true)
    /\ commands w'
       = [antsApplyTransforms +:+ " -r " +:+ normalizedImage
          +:+ " -t " +:+ forwardWarp +:+ ".h5"
          +:+ " -o [" +:+ forwardWarp +:+ ".nii.gz" +:+ ",1] -v 1"]
    /\ files w' = delete (forwardWarp +:+ ".h5") (files bidsGuarded).
Proof.
  exact (updateTranform_forward_command bidsGuarded "/data/sub-01" antsApplyTransforms
           normalizedImage coregImage eq_refl eq_refl eq_refl eq_refl eq_refl).
Defined.

Lemma updateTranform_runs_tool_before_check_witness :
  updateTranform "/data/sub-01" antsApplyTransforms bidsGuardedOnly
  = (with_commands
       (fun l => (l ++ [antsApplyTransforms +:+ " -r " +:+ normalizedImage
                        +:+ " -t " +:+ forwardWarp +:+ ".h5"
                        +:+ " -o [" +:+ forwardWarp +:+ ".nii.gz" +:+ ",1] -v 1"])%list)
       bidsGuardedOnly,
     Raise FileNotFoundError).
Proof.
  exact (updateTranform_runs_tool_before_check bidsGuardedOnly "/data/sub-01"
           antsApplyTransforms normalizedImage coregImage eq_refl eq_refl eq_refl eq_refl).
Defined.

Lemma loadSubjectTransform_without_sibling_witness :
  loadSubjectTransform "patient1" antsApplyTransforms legacySubject
  = (with_loadedTransforms (fun l => (l ++ ["patient1/glanatComposite.nii.gz"])%list)
       legacySubject,
     Ok "patient1/glanatComposite.nii.gz").
Proof.
  exact (loadSubjectTransform_without_sibling legacySubject "patient1" antsApplyTransforms
           eq_refl).
Defined.

End SubjectInstances.

Section SelectorInstances.
Import Scene WidgetSlots Examples.

Lemma onOutputNodeChanged_never_self_witness :
  exists (ui' : Selectors) (w' : World),
    onOutputNodeChanged {| inputSelector := Some 1%positive; outputSelector := Some 1%positive |}
      commitScene = (w', Ok ui')
    /\ outputSelector ui' = None
    /\ transformNodeID w' !! 1%positive = None.
Proof.
  destruct (onOutputNodeChanged_never_self
              {| inputSelector := Some 1%positive; outputSelector := Some 1%positive |}
              commitScene)
    as (ui' & w' & Hrun & _ & Hout & Hobs & _).
  exists ui', w'. split; [exact Hrun|].
  destruct (Hobs 1%positive eq_refl) as [Hi _].
  split; [exact Hout|]. exact (eq_trans Hi Hout).
Defined.

End SelectorInstances.

Section CommandLineInstances.
Import PyStr Scene LeadDBSArgs ArgsExamples.
Local Open Scope string_scope.

Lemma updateParameterNodeFromArgs_guards_witness :
  updateParameterNodeFromArgs plainProcess leadInstall freshSession = (freshSession, Ok None).
Proof.
  exact (updateParameterNodeFromArgs_guards plainProcess leadInstall freshSession
           (or_intror (or_introl (le_S 1 1 (le_n 1))))).
Defined.

Lemma updateParameterNodeFromArgs_first_subject_witness :
  exists node' : Session,
    updateParameterNodeFromArgs leadProcess leadInstall freshSession = (node', Ok (Some true))
    /\ GetParameter (parameters node') "subjectPath" = "/data/sub-01"
    /\ GetParameter (parameters node') "subjectPaths"
       = "/data/sub-01" +:+ separator +:+ "/data/sub-02"
    /\ nodeReferences node' !! "ImageNode" = None
    /\ updateParameterNodeFromArgs leadProcess leadInstall node' = (node', Ok None).
Proof.
  destruct (updateParameterNodeFromArgs_first_subject leadProcess leadInstall freshSession
              "Slicer" "/opt/leaddbs" "/data/sub-01" ["/data/sub-02"]
              eq_refl eq_refl eq_refl ltac:(discriminate) eq_refl)
    as (node' & Hrun & Hfirst & Hall & _ & Himage & _ & Honce).
  exists node'. split; [exact Hrun|]. split; [exact Hfirst|]. split; [exact Hall|].
  split; [exact Himage|].
  exact (Honce ltac:(discriminate) leadProcess leadInstall).
Defined.

End CommandLineInstances.
